(** * PatternFusionX backend: catalog lookup, output simulator, feedback scorer

    A shallow embedding of [src/backend/code_execution.py] and of the
    request handlers and helpers of [src/backend/main.py], followed by
    the properties the specification states about them.

    Modelling conventions.
    - A Python [str] is the [string] of its UTF-8 encoding, a lone
      surrogate taking the three bytes of its code point.  Substring
      tests, counts, splits and the call patterns of the simulator run
      on the bytes and find the same occurrences as on the characters;
      whitespace and digits are read from the code points.
    - A Python [int] is a [Z], or an [N] where it is read from digits;
      the turns of a loop and the lengths of strings are [nat].
    - A Python [float] is a binary64 [float] of the kernel, with the
      same rounding as the interpreter.
    - A function that may raise returns a [result]; a [try]/[except]
      block is the match on it.
    - The text of a request and what is built from it alone fit in
      memory.  The rows of the star heuristic, whose size is read from
      the text, are built on a [machine] that is asked at each
      request; the names of [CodeExecution] outside [OnMachine] are
      the simulator on the [reference] machine. *)

From Stdlib Require Import String Ascii List Bool Arith NArith ZArith Lia.
From Stdlib Require Import PrimInt63 PrimFloat DecimalString.
Import ListNotations.
Set Warnings "-inexact-float".
Open Scope string_scope.

(** ** Python strings *)
Module PyStr.

Definition LF : ascii := "010"%char.
Definition SQ : ascii := "'"%char.
Definition DQ : ascii := "034"%char.

(** The one-character string [chr(10)]. *)
Definition nl : string := String LF "".

(** [s.startswith(p)] *)
Fixpoint startswith (p s : string) : bool :=
  match p, s with
  | "", _ => true
  | String _ _, "" => false
  | String a p', String b s' => Ascii.eqb a b && startswith p' s'
  end.

(** [sub in s] *)
Fixpoint contains (sub s : string) : bool :=
  startswith sub s ||
  match s with
  | "" => false
  | String _ s' => contains sub s'
  end.

(** [s.count(sub)]: occurrences counted from the left without overlap.
    [skip] is the number of characters still covered by the last
    occurrence. *)
Fixpoint count_from (sub : string) (skip : nat) (s : string) : nat :=
  match s with
  | "" => match sub with "" => 1 | _ => 0 end
  | String _ s' =>
      match skip with
      | S k => count_from sub k s'
      | O => if startswith sub s
             then S (count_from sub (String.length sub - 1) s')
             else count_from sub 0 s'
      end
  end.

Definition count (s sub : string) : nat := count_from sub 0 s.

Definition lower_char (c : ascii) : ascii :=
  let n := nat_of_ascii c in
  if ((65 <=? n) && (n <=? 90))%nat then ascii_of_nat (n + 32) else c.

(** [s.lower()], on the letters A to Z.  The lowercase of any other
    character is ASCII-free but for U+212A, which becomes k, and U+0130,
    which becomes i and U+0307: it neither makes nor breaks a match
    with a text free of k that ends with no i, as the names of the
    catalog and the keys of the tutor are. *)
Fixpoint lower (s : string) : string :=
  match s with
  | "" => ""
  | String c s' => String (lower_char c) (lower s')
  end.

(** [s.split(chr(10))] *)
Fixpoint split_lines (s : string) : list string :=
  match s with
  | "" => [""]
  | String c s' =>
      if Ascii.eqb c LF then "" :: split_lines s'
      else match split_lines s' with
           | l :: ls => String c l :: ls
           | [] => [String c ""]
           end
  end.

(** [s * n] *)
Fixpoint repeat_str (s : string) (n : nat) : string :=
  match n with
  | O => ""
  | S k => s ++ repeat_str s k
  end.

(** The string after its first [n] characters, [s[n:]]. *)
Fixpoint drop (n : nat) (s : string) : string :=
  match n, s with
  | O, _ => s
  | S _, "" => ""
  | S k, String _ s' => drop k s'
  end.

(** [str(z)] for an [int]. *)
Definition str_of_Z (z : Z) : string := NilEmpty.string_of_int (Z.to_int z).

Definition str_of_nat (n : nat) : string := NilEmpty.string_of_uint (Nat.to_uint n).

(** *** Characters

    [decode c s'] reads the character that starts with the byte [c]
    followed by [s']: its code point and the number of bytes it takes.
    A byte that starts no sequence of the encoding is read as a
    character of its own. *)
Definition byte (c : ascii) : N := N_of_ascii c.

Definition is_cont (c : ascii) : bool := ((128 <=? byte c) && (byte c <? 192))%N.

Definition payload (c : ascii) : N := (byte c - 128)%N.

Definition two_bytes (b0 : N) (s' : string) : option N :=
  match s' with
  | String c1 _ =>
      let cp := ((b0 - 192) * 64 + payload c1)%N in
      if ((192 <=? b0) && (b0 <? 224))%N && is_cont c1 && (128 <=? cp)%N
      then Some cp else None
  | "" => None
  end.

Definition three_bytes (b0 : N) (s' : string) : option N :=
  match s' with
  | String c1 (String c2 _) =>
      let cp := ((b0 - 224) * 4096 + payload c1 * 64 + payload c2)%N in
      if ((224 <=? b0) && (b0 <? 240))%N && is_cont c1 && is_cont c2 && (2048 <=? cp)%N
      then Some cp else None
  | _ => None
  end.

Definition four_bytes (b0 : N) (s' : string) : option N :=
  match s' with
  | String c1 (String c2 (String c3 _)) =>
      let cp := ((b0 - 240) * 262144 + payload c1 * 4096 + payload c2 * 64
                 + payload c3)%N in
      if ((240 <=? b0) && (b0 <? 248))%N && is_cont c1 && is_cont c2 && is_cont c3
         && (65536 <=? cp)%N && (cp <=? 1114111)%N
      then Some cp else None
  | _ => None
  end.

Definition decode (c : ascii) (s' : string) : N * nat :=
  let b0 := byte c in
  if (b0 <? 128)%N then (b0, 1%nat)
  else
    match two_bytes b0 s' with
    | Some cp => (cp, 2%nat)
    | None =>
        match three_bytes b0 s' with
        | Some cp => (cp, 3%nat)
        | None =>
            match four_bytes b0 s' with
            | Some cp => (cp, 4%nat)
            | None => (b0, 1%nat)
            end
        end
    end.

(** The code points of [s]; [skip] counts the bytes still to pass of
    the character read last. *)
Fixpoint code_points_from (skip : nat) (s : string) : list N :=
  match s with
  | "" => []
  | String c s' =>
      match skip with
      | S k => code_points_from k s'
      | O => let (cp, width) := decode c s' in
             cp :: code_points_from (width - 1) s'
      end
  end.

Definition code_points (s : string) : list N := code_points_from 0 s.

(** [len(s)]: one character for each byte that continues no sequence. *)
Fixpoint char_count (s : string) : N :=
  match s with
  | "" => 0%N
  | String c s' => if is_cont c then char_count s' else N.succ (char_count s')
  end.

Definition in_ranges (ranges : list (N * N)) (cp : N) : bool :=
  existsb (fun r => (fst r <=? cp)%N && (cp <=? snd r)%N) ranges.

(** The code points [str.isspace] accepts, which are those of [\s]. *)
Definition whitespace : list (N * N) :=
  [(9, 13); (28, 32); (133, 133); (160, 160); (5760, 5760); (8192, 8202);
   (8232, 8233); (8239, 8239); (8287, 8287); (12288, 12288)]%N.

Definition is_space (cp : N) : bool := in_ranges whitespace cp.

(** The decimal digits, those of [\d], come in runs of ten from zero to
    nine: the code points of the zeros (Unicode 14). *)
Definition decimal_zeros : list N :=
  [48; 1632; 1776; 1984; 2406; 2534; 2662; 2790; 2918; 3046; 3174; 3302;
   3430; 3558; 3664; 3792; 3872; 4160; 4240; 6112; 6160; 6470; 6608; 6784;
   6800; 6992; 7088; 7232; 7248; 42528; 43216; 43264; 43472; 43504; 43600;
   44016; 65296; 66720; 68912; 69734; 69872; 69942; 70096; 70384; 70736;
   70864; 71248; 71360; 71472; 71904; 72016; 72784; 73040; 73120; 92768;
   92864; 93008; 120782; 120792; 120802; 120812; 120822; 123200; 123632;
   125264; 130032]%N.

Fixpoint digit_in (zeros : list N) (cp : N) : option N :=
  match zeros with
  | [] => None
  | z :: zs =>
      if ((z <=? cp) && (cp <? z + 10))%N then Some (cp - z)%N
      else digit_in zs cp
  end.

(** The value of a decimal digit. *)
Definition digit_value (cp : N) : option N := digit_in decimal_zeros cp.

Definition is_digit (cp : N) : bool :=
  match digit_value cp with Some _ => true | None => false end.

(** The digits of a string of decimal digits, and the number they
    write. *)
Definition digit_count (ds : string) : nat := List.length (code_points ds).

Definition N_of_digits (ds : string) : N :=
  fold_left
    (fun acc cp => (10 * acc + match digit_value cp with Some d => d | None => 0 end)%N)
    (code_points ds) 0%N.

(** No line feed in [s]: [s] lies on one line. *)
Fixpoint one_line (s : string) : bool :=
  match s with
  | "" => true
  | String c s' => negb (Ascii.eqb c LF) && one_line s'
  end.

End PyStr.

(** ** Exceptions and results *)
Module Py.

Inductive exn : Type :=
| HTTPException (status_code : Z) (detail : string)
| AttributeError (msg : string)
| ValueError (msg : string)
| OverflowError (msg : string)
| NameError (msg : string)
| MemoryError (msg : string)
| UnboundLocalError (msg : string).

(** [str(e)] as the handlers of the simulator print it. *)
Definition exn_str (e : exn) : string :=
  match e with
  | HTTPException code detail => PyStr.str_of_Z code ++ ": " ++ detail
  | AttributeError msg => msg
  | ValueError msg => msg
  | OverflowError msg => msg
  | NameError msg => msg
  | MemoryError msg => msg
  | UnboundLocalError msg => msg
  end.

Inductive result (A : Type) : Type :=
| Return (a : A)
| Raise (e : exn).
Arguments Return {A} a.
Arguments Raise {A} e.

Definition bind {A B : Type} (r : result A) (k : A -> result B) : result B :=
  match r with
  | Return a => k a
  | Raise e => Raise e
  end.

(** The interpreter's default limit on the digits of a decimal string
    given to [int] ([sys.int_info.default_max_str_digits]). *)
Definition max_str_digits : nat := 4300.

(** [int(ds)] for a non-empty string of decimal digits, as the match of
    [\d+] is: a [ValueError] above [max_str_digits] digits. *)
Definition int_of_digits (ds : string) : result N :=
  if (max_str_digits <? PyStr.digit_count ds)%nat then
    Raise (ValueError
      ("Exceeds the limit (" ++ PyStr.str_of_nat max_str_digits
       ++ " digits) for integer string conversion: value has "
       ++ PyStr.str_of_nat (PyStr.digit_count ds)
       ++ " digits; use sys.set_int_max_str_digits() to increase the limit"))
  else Return (PyStr.N_of_digits ds).

(** [sys.maxsize] of a 64-bit interpreter: the largest index, and more
    than the characters of any [str]. *)
Definition maxsize : N := 9223372036854775807.

(** [s * n] for an [int] that is not negative.  [grant size] tells
    whether the memory for [size] characters is had: a [MemoryError],
    whose message is empty, when it is not. *)
Definition str_mul (grant : N -> bool) (s : string) (n : N) : result string :=
  if (maxsize <? n)%N then
    Raise (OverflowError "cannot fit 'int' into an index-sized integer")
  else if (n =? 0)%N then Return ""
  else if (n =? 1)%N then Return s
  else if (maxsize / n <? PyStr.char_count s)%N then
    Raise (OverflowError "repeated string is too long")
  else if (PyStr.char_count s =? 0)%N then Return ""
  else if grant (PyStr.char_count s * n)%N then
    Return (PyStr.repeat_str s (N.to_nat n))
  else Raise (MemoryError "").

(** [a + b]: an empty operand gives the other one as it is. *)
Definition str_add (grant : N -> bool) (a b : string) : result string :=
  if String.eqb a "" then Return b
  else if String.eqb b "" then Return a
  else if (maxsize - PyStr.char_count b <? PyStr.char_count a)%N then
    Raise (OverflowError "strings are too large to concat")
  else if grant (PyStr.char_count a + PyStr.char_count b)%N then Return (a ++ b)
  else Raise (MemoryError "").

End Py.

(** ** The three regular expressions of the simulator *)
Module PyRe.
Import PyStr.

Definition is_quote (c : ascii) : bool := Ascii.eqb c SQ || Ascii.eqb c DQ.

(** [s] without its prefix [p], when it has it. *)
Fixpoint strip_prefix (p s : string) : option string :=
  match p, s with
  | "", _ => Some s
  | String _ _, "" => None
  | String a p', String b s' =>
      if Ascii.eqb a b then strip_prefix p' s' else None
  end.

(** The lazy group [(.*?)] closed by a quote: the characters before the
    first quote of [s], none of them a line feed. *)
Fixpoint lazy_until_quote (s : string) : option string :=
  match s with
  | "" => None
  | String c s' =>
      if is_quote c then Some ""
      else if Ascii.eqb c LF then None
      else option_map (String c) (lazy_until_quote s')
  end.

(** A quote, the lazy group, a quote, at the start of [s]. *)
Definition quoted_group (s : string) : option string :=
  match s with
  | "" => None
  | String q s' => if is_quote q then lazy_until_quote s' else None
  end.

(** One match of the call pattern at the start of [s]: group 1 and the
    length of the match.  [heads] lists the texts the pattern accepts up
    to and including the opening parenthesis, longest first. *)
Fixpoint call_match (heads : list string) (s : string) : option (string * nat) :=
  match heads with
  | [] => None
  | h :: hs =>
      match strip_prefix h s with
      | Some r =>
          match quoted_group r with
          | Some g => Some (g, String.length h + String.length g + 2)
          | None => call_match hs s
          end
      | None => call_match hs s
      end
  end.

(** [re.findall]: matches from the left, the next search starting where
    the last match ended. *)
Fixpoint findall_from (heads : list string) (skip : nat) (s : string) : list string :=
  match s with
  | "" => []
  | String _ s' =>
      match skip with
      | S k => findall_from heads k s'
      | O =>
          match call_match heads s with
          | Some (g, len) => g :: findall_from heads (len - 1) s'
          | None => findall_from heads 0 s'
          end
      end
  end.

Definition findall (heads : list string) (s : string) : list string :=
  findall_from heads 0 s.

(** [print\(["'](.*?)["']] *)
Definition print_heads : list string := ["print("].
(** [console\.log\(["'](.*?)["']] *)
Definition log_heads : list string := ["console.log("].
(** [System\.out\.print(?:ln)?\(["'](.*?)["']] *)
Definition java_heads : list string := ["System.out.println("; "System.out.print("].

(** The longest run of characters that satisfy [f] at the start of
    [s], and what follows it; [skip] counts the bytes still to pass of
    the character read last. *)
Fixpoint span (f : N -> bool) (skip : nat) (s : string) : string * string :=
  match s with
  | "" => ("", "")
  | String c s' =>
      match skip with
      | S k => let (run, rest) := span f k s' in (String c run, rest)
      | O =>
          let (cp, width) := decode c s' in
          if f cp then
            let (run, rest) := span f (width - 1) s' in (String c run, rest)
          else ("", s)
      end
  end.

(** [\s*] *)
Definition skip_spaces (s : string) : string := snd (span is_space 0 s).

(** [\d*] *)
Definition take_digits (s : string) : string := fst (span is_digit 0 s).

(** [n\s*=\s*(\d+)] at the start of [s]: group 1. *)
Definition assign_match (s : string) : option string :=
  match s with
  | "" => None
  | String c r =>
      if Ascii.eqb c "n" then
        match skip_spaces r with
        | "" => None
        | String e r' =>
            if Ascii.eqb e "=" then
              match take_digits (skip_spaces r') with
              | "" => None
              | ds => Some ds
              end
            else None
        end
      else None
  end.

(** [re.search] of that pattern: the leftmost match. *)
Fixpoint search_assign (s : string) : option string :=
  match assign_match s with
  | Some ds => Some ds
  | None =>
      match s with
      | "" => None
      | String _ s' => search_assign s'
      end
  end.

(** *** What the size pattern matches

    [Run f s rest]: [rest] is what a run of characters that satisfy [f]
    leaves of [s]. *)
Inductive Run (f : N -> bool) : string -> string -> Prop :=
| Run_end (s : string) : Run f s s
| Run_char (c : ascii) (s' rest : string) :
    f (fst (decode c s')) = true ->
    Run f (drop (snd (decode c s') - 1) s') rest ->
    Run f (String c s') rest.

Definition first_is (f : N -> bool) (s : string) : bool :=
  match s with
  | "" => false
  | String c s' => f (fst (decode c s'))
  end.

(** [n], whitespace, [=], whitespace and the longest run of digits
    [ds], not empty, at the start of [s]. *)
Definition assignment_at (s ds : string) : Prop :=
  exists r1 r2 rest,
    s = String "n" r1 /\
    Run is_space r1 (String "=" r2) /\
    Run is_space r2 (ds ++ rest) /\
    Run is_digit (ds ++ rest) rest /\
    ds <> "" /\ first_is is_digit rest = false.

End PyRe.

(** ** [code_execution.py]: the output simulator *)
Module CodeExecution.
Import PyStr PyRe Py.

(** [for match in matches: output += match + chr(10)] *)
Definition append_lines (output : string) (matches : list string) : string :=
  fold_left (fun out m => out ++ m ++ nl) matches output.

(** [except Exception as e: output += f"Execution error: {str(e)}" + chr(10)] *)
Definition on_exception (r : string * option exn) : string :=
  match r with
  | (output, None) => output
  | (output, Some e) => output ++ "Execution error: " ++ exn_str e ++ nl
  end.

(** No operation of this body raises on a [str]. *)
Definition javascript_body (code : string) : string * option exn :=
  let output := "" in
  if contains "console.log" code then
    let log_matches := findall log_heads code in
    let output := append_lines output log_matches in
    if contains "console.log('*'" code then
      if contains "for" code then
        (output ++ "Simulated JavaScript pattern output" ++ nl, None)
      else (output ++ "*" ++ nl, None)
    else (output, None)
  else
    (output ++ "JavaScript code executed" ++ nl, None).

Definition simulate_javascript_execution (code : string) : string :=
  on_exception (javascript_body code).

(** No operation of this body raises on a [str]. *)
Definition java_body (code : string) : string * option exn :=
  let output := "" in
  if contains "System.out.println" code || contains "System.out.print" code then
    let print_matches := findall java_heads code in
    let output := append_lines output print_matches in
    if contains "System.out.print" code && contains "*" code then
      (output ++ "Simulated Java pattern output" ++ nl, None)
    else (output, None)
  else
    (output ++ "Java code executed" ++ nl, None).

Definition simulate_java_execution (code : string) : string :=
  on_exception (java_body code).

Record ExecResult : Type := {
  output : string;
  language : string;
  execution_time : string;
  status : string
}.

(** *** The machine

    The requests for memory of one call of [simulate_python_execution]:
    in turn [i] of the loop of the rows, the row ["*" * n], the line
    [... + chr(10)] and the longer [output]; in the handler, the
    [output] with the error line. *)
Inductive request : Type :=
| Row (i : nat)
| Line (i : nat)
| Grow (i : nat)
| Report.

(** [alloc r size]: whether request [r], for [size] characters, is
    granted.  [in_place i]: whether the [+=] of turn [i] grows the
    local [output] in place, as CPython does when nothing else holds
    the [str]: it unbinds the local first, and the local stays unbound
    when the [str] cannot grow. *)
Record machine : Type := {
  alloc : request -> N -> bool;
  in_place : nat -> bool
}.

(** No [str] has [maxsize] characters. *)
Definition granted (m : machine) (r : request) (size : N) : bool :=
  (size <? maxsize)%N && alloc m r size.

(** The machine that grants what it can and never works in place. *)
Definition reference : machine :=
  {| alloc := fun _ _ => true; in_place := fun _ => false |}.

(** [str(e)] of the [UnboundLocalError] that reading the unbound local
    raises (the wording of CPython 3.11). *)
Definition unbound_output : string :=
  "cannot access local variable 'output' where it is not associated with a value".

Module OnMachine.
Section Machine.
Variable m : machine.

(** One turn of [for i in range(n): output += "*" * n + chr(10)]: the
    [output] after it, and, when the turn raised, the exception and
    whether [output] is still bound. *)
Definition row_turn (n : N) (i : nat) (output : string)
  : string * option (exn * bool) :=
  match bind (str_mul (granted m (Row i)) "*" n)
             (fun row => str_add (granted m (Line i)) row nl) with
  | Raise e => (output, Some (e, true))
  | Return line =>
      match str_add (granted m (Grow i)) output line with
      | Return output' => (output', None)
      | Raise e => (output, Some (e, negb (in_place m i)))
      end
  end.

(** The turns [i], [i + 1], ... of the loop, [turns] of them. *)
Fixpoint rows_loop (n : N) (turns i : nat) (output : string)
  : string * option (exn * bool) :=
  match turns with
  | O => (output, None)
  | S k =>
      match row_turn n i output with
      | (output', None) => rows_loop n k (S i) output'
      | stopped => stopped
      end
  end.

(** [for i in range(n): ...]: no turn for zero, else turn 0 and the
    turns that are left. *)
Definition append_rows (output : string) (n : N) : string * option (exn * bool) :=
  match n with
  | N0 => (output, None)
  | Npos p =>
      match row_turn n 0 output with
      | (output', None) => rows_loop n (Pos.to_nat p - 1) 1 output'
      | stopped => stopped
      end
  end.

(** What [simulate_python_execution] does at a line with a starred
    print, before it leaves the loop over the lines. *)
Definition starred_line_action (code output : string)
  : string * option (exn * bool) :=
  if contains "range" code then
    match search_assign code with
    | Some ds =>
        match int_of_digits ds with
        | Return n => append_rows output n
        | Raise e => (output, Some (e, true))
        end
    | None => (output ++ "Simulated pattern output" ++ nl, None)
    end
  else (output, None).

(** The loop over the lines of [code] in [simulate_python_execution]:
    the first line with a starred print decides, then [break]. *)
Fixpoint star_lines_loop (code : string) (lines : list string) (output : string)
  : string * option (exn * bool) :=
  match lines with
  | [] => (output, None)
  | line :: rest =>
      if contains "print('*'" line || contains "print('*'," line
      then starred_line_action code output
      else star_lines_loop code rest output
  end.

(** The body of the [try] of [simulate_python_execution]: the last
    value of [output] and, when the body raised, the exception and
    whether [output] is still bound. *)
Definition python_body (code : string) : string * option (exn * bool) :=
  let output := "" in
  if contains "print" code then
    let print_matches := findall print_heads code in
    let output := append_lines output print_matches in
    if contains "print('*'" code || contains "print('*'," code then
      if contains "for" code then
        star_lines_loop code (split_lines code) output
      else (output, None)
    else (output, None)
  else if contains "for" code && contains "*" code then
    (output ++ "Simulated pattern execution" ++ nl, None)
  else
    (output ++ "Code executed successfully" ++ nl, None).

(** The handler of [simulate_python_execution] and its [return]:
    reading [output] raises when the local is unbound, and the [+=] of
    the handler is a request of its own. *)
Definition on_exception (r : string * option (exn * bool)) : result string :=
  match r with
  | (output, None) => Return output
  | (output, Some (e, true)) =>
      str_add (granted m Report) output ("Execution error: " ++ exn_str e ++ nl)
  | (_, Some (_, false)) => Raise (UnboundLocalError unbound_output)
  end.

Definition simulate_python_execution (code : string) : result string :=
  on_exception (python_body code).

Definition simulate_code_execution (code language : string) : result ExecResult :=
  bind
    (if String.eqb language "python" then simulate_python_execution code
     else if String.eqb language "javascript" then
       Return (simulate_javascript_execution code)
     else if String.eqb language "java" then Return (simulate_java_execution code)
     else Return ("Language '" ++ language ++ "' not supported for execution"))
    (fun output =>
       Return {| output := output;
                 language := language;
                 execution_time := "0.1s";
                 status := "success" |}).

End Machine.
End OnMachine.

(** *** On the reference machine

    There the body ends with [output] bound. *)
Definition python_body (code : string) : string * option exn :=
  let (output, stop) := OnMachine.python_body reference code in
  (output, option_map fst stop).

Definition simulate_python_execution (code : string) : string :=
  on_exception (python_body code).

Definition simulate_code_execution (code language : string) : ExecResult :=
  let output :=
    if String.eqb language "python" then simulate_python_execution code
    else if String.eqb language "javascript" then simulate_javascript_execution code
    else if String.eqb language "java" then simulate_java_execution code
    else "Language '" ++ language ++ "' not supported for execution" in
  {| output := output;
     language := language;
     execution_time := "0.1s";
     status := "success" |}.

(** *** What the specification calls a literal of a print call

    An occurrence at offset [String.length pre] of [s]: one of the
    accepted call heads, a quote, the literal [g] free of quotes and line
    feeds, a quote, and the rest of the text. *)
Definition plain_char (c : ascii) : bool := negb (is_quote c) && negb (Ascii.eqb c LF).

Fixpoint plain (g : string) : bool :=
  match g with
  | "" => true
  | String c g' => plain_char c && plain g'
  end.

Definition occurs_at (heads : list string) (pre s g rest : string) : Prop :=
  exists h q q',
    In h heads /\ is_quote q = true /\ is_quote q' = true /\ plain g = true /\
    s = pre ++ h ++ String q (g ++ String q' rest).

(** The literals of the calls of [s] in source order: each one is the
    leftmost occurrence in what the previous one left of the text. *)
Inductive Literals (heads : list string) : string -> list string -> Prop :=
| Literals_nil s :
    (forall pre g rest, ~ occurs_at heads pre s g rest) ->
    Literals heads s []
| Literals_cons s pre g rest l :
    occurs_at heads pre s g rest ->
    (forall pre' g' rest',
       (String.length pre' < String.length pre)%nat ->
       ~ occurs_at heads pre' s g' rest') ->
    Literals heads rest l ->
    Literals heads s (g :: l).

(** One output line per literal. *)
Definition unlines (ls : list string) : string :=
  fold_right (fun l acc => l ++ nl ++ acc) "" ls.

(** One row of the square of size [n], with its line feed. *)
Definition star_row (n : N) : string := repeat_str "*" (N.to_nat n) ++ nl.

(** *** Sample inputs *)

(** A machine with room for 16 characters of [output], which it grows
    in place. *)
Definition small_machine : machine :=
  {| alloc := fun r size => match r with Grow _ => (size <=? 16)%N | _ => true end;
     in_place := fun _ => true |}.

(** The same room, and no work in place. *)
Definition small_copying_machine : machine :=
  {| alloc := alloc small_machine; in_place := fun _ => false |}.

(** The solid square of the specification's scenario. *)
Definition square_code : string :=
  "n = 4" ++ nl ++ "for i in range(n):" ++ nl ++ " for j in range(n):" ++ nl
  ++ "  print('*', end='')" ++ nl ++ " print()".

(** The digit three of Arabic script, U+0663, and the no-break space,
    U+00A0. *)
Definition arabic_three : string := String "217" (String "163" "").

Definition no_break_space : string := String "194" (String "160" "").

(** The fullwidth digit two, U+FF12. *)
Definition fullwidth_two : string := String "239" (String "188" (String "146" "")).

(** The largest index as the size: one character more than a [str]
    holds. *)
Definition maxsize_code : string :=
  "n = 9223372036854775807" ++ nl ++ "for i in range(n): print('*')".

(** A size that is no index on any platform. *)
Definition oversized_code : string :=
  "n = 99999999999999999999" ++ nl ++ "for i in range(n): print('*')".

(** A size written with 4301 digits. *)
Definition overlong_code : string :=
  "n=" ++ repeat_str "1" 4301 ++ nl ++ "for i in range(n): print('*')".

End CodeExecution.

(** ** [main.py]: catalog, lookup and feedback scorer *)
Module Main.
Import PyStr Py.

Record Pattern : Type := {
  id : Z;
  name : string;
  category : string;
  difficulty : string;
  description : string;
  preview : list string;
  rows : Z;
  popularity : Z;
  completion_rate : Z;
  formula : string;
  loops : Z;
  conditions : Z
}.

Record CodeFeedbackRequest : Type := {
  pattern_id : Z;
  user_code : string;
  language : string
}.

Record CodeFeedbackResponse : Type := {
  feedback : string;
  suggestions : list string;
  correctness_score : float;
  hints : list string
}.

(** The JSON object posted to [/ai/generate-detailed-code]: a key may be
    absent; a present key holds a string. *)
Record DetailedCodeRequest : Type := {
  req_pattern_name : option string;
  req_language : option string
}.

Record DetailedCode : Type := {
  dc_pattern : string;
  dc_language : string;
  dc_generated_code : string;
  dc_explanation : string;
  dc_difficulty : string;
  dc_complexity : float
}.

Definition get_sample_patterns : list Pattern := [
  {| id := 1; name := "Square Pattern (Solid)"; category := "basic-star"; difficulty := "easy";
     description := "A solid square filled with stars";
     preview := ["****"; "****"; "****"; "****"];
     rows := 4; popularity := 95; completion_rate := 92;
     formula := "stars = n, spaces = 0";
     loops := 2; conditions := 0 |};
  {| id := 2; name := "Right Triangle Pattern"; category := "basic-star"; difficulty := "easy";
     description := "Stars forming a right triangle";
     preview := ["*"; "**"; "***"; "****"];
     rows := 4; popularity := 98; completion_rate := 95;
     formula := "stars = i, spaces = 0";
     loops := 2; conditions := 0 |};
  {| id := 3; name := "Left Triangle Pattern"; category := "basic-star"; difficulty := "easy";
     description := "Stars aligned to the left forming triangle";
     preview := ["   *"; "  **"; " ***"; "****"];
     rows := 4; popularity := 87; completion_rate := 89;
     formula := "stars = i, spaces = n-i";
     loops := 2; conditions := 0 |};
  {| id := 4; name := "Inverted Right Triangle"; category := "basic-star"; difficulty := "easy";
     description := "Upside-down right triangle";
     preview := ["****"; "***"; "**"; "*"];
     rows := 4; popularity := 85; completion_rate := 88;
     formula := "stars = n-i+1, spaces = 0";
     loops := 2; conditions := 0 |};
  {| id := 5; name := "Isosceles Triangle"; category := "basic-star"; difficulty := "easy";
     description := "Centered triangle with equal sides";
     preview := ["  *  "; " *** "; "*****"];
     rows := 3; popularity := 91; completion_rate := 90;
     formula := "stars = 2*i+1, spaces = n-i-1";
     loops := 2; conditions := 0 |};
  {| id := 11; name := "Hollow Square"; category := "hollow"; difficulty := "medium";
     description := "Square with hollow interior";
     preview := ["****"; "*  *"; "*  *"; "****"];
     rows := 4; popularity := 84; completion_rate := 76;
     formula := "stars = n (if first/last row/col), spaces = n-2 (middle)";
     loops := 2; conditions := 4 |};
  {| id := 31; name := "Diamond Pattern (Solid)"; category := "diamond"; difficulty := "medium";
     description := "Solid diamond shape";
     preview := ["  *  "; " *** "; "*****"; " *** "; "  *  "];
     rows := 5; popularity := 89; completion_rate := 82;
     formula := "stars = 2*i+1 (upper), 2*(n-i-1)+1 (lower), spaces = n-i-1";
     loops := 2; conditions := 1 |};
  {| id := 32; name := "Hollow Diamond"; category := "diamond"; difficulty := "medium";
     description := "Diamond with hollow center";
     preview := ["  *  "; " * * "; "*   *"; " * * "; "  *  "];
     rows := 5; popularity := 85; completion_rate := 76;
     formula := "stars = 1 (if first/last), spaces = n-i-1 + i-1 (middle)";
     loops := 2; conditions := 4 |};
  {| id := 41; name := "Number Triangle (1,2,3...)"; category := "number"; difficulty := "easy";
     description := "Triangle with sequential numbers";
     preview := ["1"; "12"; "123"; "1234"];
     rows := 4; popularity := 92; completion_rate := 88;
     formula := "numbers = 1 to i";
     loops := 2; conditions := 0 |};
  {| id := 66; name := "Butterfly Pattern"; category := "special"; difficulty := "hard";
     description := "Butterfly wing pattern";
     preview := ["*    *"; "**  **"; "******"; "**  **"; "*    *"];
     rows := 5; popularity := 91; completion_rate := 67;
     formula := "stars = i+1 (left), 2*(n-i-1) (right), spaces = 2*(n-i-1)";
     loops := 2; conditions := 2 |};
  {| id := 69; name := "X Pattern (Cross)"; category := "special"; difficulty := "medium";
     description := "X or cross pattern";
     preview := ["*   *"; " * * "; "  *  "; " * * "; "*   *"];
     rows := 5; popularity := 86; completion_rate := 78;
     formula := "stars = 1 (if i==j or i+j==n-1)";
     loops := 2; conditions := 2 |}
].

(** The handler of [GET /patterns]. *)
Definition get_patterns (category difficulty : option string) (limit : Z)
  : list Pattern :=
  get_sample_patterns.

(** The loop of [get_pattern] over the catalog. *)
Fixpoint get_pattern_loop (patterns : list Pattern) (pattern_id : Z)
  : result Pattern :=
  match patterns with
  | [] => Raise (HTTPException 404 "Pattern not found")
  | pattern :: rest =>
      if (id pattern =? pattern_id)%Z then Return pattern
      else get_pattern_loop rest pattern_id
  end.

(** The handler of [GET /patterns/{pattern_id}]. *)
Definition get_pattern (pattern_id : Z) : result Pattern :=
  get_pattern_loop get_sample_patterns pattern_id.

(** [l.append(x)] and [l.extend(xs)], the list threaded through. *)
Definition append {A : Type} (l : list A) (x : A) : list A := (l ++ [x])%list.

Definition extend {A : Type} (l xs : list A) : list A := (l ++ xs)%list.

(** [next((p for p in patterns if cond(p)), None)] *)
Definition next_or_None (cond : Pattern -> bool) (patterns : list Pattern)
  : option Pattern :=
  find cond patterns.

(** The lookup of [generate_detailed_code]: the exact match on the
    lowered names, then containment of the lowered request. *)
Definition find_pattern_by_name (pattern_name : string) (patterns : list Pattern)
  : option Pattern :=
  match next_or_None
          (fun p => String.eqb (lower (name p)) (lower pattern_name)) patterns with
  | Some pattern => Some pattern
  | None =>
      next_or_None (fun p => contains (lower pattern_name) (lower (name p))) patterns
  end.

(** [min(1.0, score)]: the second argument when it is smaller. *)
Definition min_1 (score : float) : float :=
  if PrimFloat.ltb score 1.0 then score else 1.0%float.

(** [float(z)], exact below 2^53. *)
Fixpoint float_of_pos (p : positive) : float :=
  match p with
  | xH => 1.0%float
  | xO p' => (2.0 * float_of_pos p')%float
  | xI p' => (2.0 * float_of_pos p' + 1.0)%float
  end.

Definition float_of_Z (z : Z) : float :=
  match z with
  | Z0 => 0.0%float
  | Zpos p => float_of_pos p
  | Zneg p => (- float_of_pos p)%float
  end.

Definition calculate_complexity_score (pattern : Pattern) : float :=
  let base_score :=
    if String.eqb (difficulty pattern) "easy" then 0.3%float
    else if String.eqb (difficulty pattern) "medium" then 0.6%float
    else 0.9%float in
  let loop_penalty := (float_of_Z (loops pattern) * 0.1)%float in
  let condition_penalty := (float_of_Z (conditions pattern) * 0.05)%float in
  min_1 (base_score + loop_penalty + condition_penalty)%float.

(** The stub for a pair of pattern and language without a template. *)
Definition todo_template (comment : string) (pattern : Pattern) : string :=
  comment ++ " " ++ name pattern ++ nl
  ++ comment ++ " TODO: Implement this pattern" ++ nl
  ++ comment ++ " Formula: " ++ formula pattern.

Definition generate_code_template (pattern : Pattern) (language : string) : string :=
  if String.eqb language "python" then
    if (id pattern =? 1)%Z then
      "# Square Pattern (Solid)" ++ nl
      ++ "n = 4" ++ nl
      ++ "for i in range(n):" ++ nl
      ++ "    for j in range(n):" ++ nl
      ++ "        print('*', end='')" ++ nl
      ++ "    print()"
    else if (id pattern =? 2)%Z then
      "# Right Triangle Pattern" ++ nl
      ++ "n = 4" ++ nl
      ++ "for i in range(1, n + 1):" ++ nl
      ++ "    print('*' * i)"
    else if (id pattern =? 31)%Z then
      "# Diamond Pattern" ++ nl
      ++ "n = 5" ++ nl
      ++ "# Upper half" ++ nl
      ++ "for i in range(n//2 + 1):" ++ nl
      ++ "    spaces = ' ' * (n//2 - i)" ++ nl
      ++ "    stars = '*' * (2*i + 1)" ++ nl
      ++ "    print(spaces + stars)" ++ nl
      ++ "    " ++ nl
      ++ "# Lower half" ++ nl
      ++ "for i in range(n//2 - 1, -1, -1):" ++ nl
      ++ "    spaces = ' ' * (n//2 - i)" ++ nl
      ++ "    stars = '*' * (2*i + 1)" ++ nl
      ++ "    print(spaces + stars)"
    else todo_template "#" pattern
  else if String.eqb language "javascript" then
    if (id pattern =? 2)%Z then
      "// Right Triangle Pattern" ++ nl
      ++ "const n = 4;" ++ nl
      ++ "for (let i = 1; i <= n; i++) {" ++ nl
      ++ "    console.log('*'.repeat(i));" ++ nl
      ++ "}"
    else todo_template "//" pattern
  else todo_template "//" pattern.

(** [main.py] imports nothing from [code_execution.py] and binds no
    global of this name itself: the call in [generate_detailed_code]
    raises [NameError]. *)
Definition generate_detailed_explanation (pattern : Pattern) (language : string)
  : result string :=
  Raise (NameError "name 'generate_detailed_explanation' is not defined").

(** The handler of [POST /ai/generate-detailed-code]. *)
Definition generate_detailed_code (request : DetailedCodeRequest)
  : result DetailedCode :=
  let pattern_name :=
    match req_pattern_name request with Some s => s | None => "" end in
  let language :=
    match req_language request with Some s => s | None => "python" end in
  let patterns := get_sample_patterns in
  match find_pattern_by_name pattern_name patterns with
  | None =>
      Raise (HTTPException 404 ("Pattern '" ++ pattern_name ++ "' not found"))
  | Some pattern =>
      let generated_code := generate_code_template pattern language in
      bind (generate_detailed_explanation pattern language) (fun explanation =>
      Return {| dc_pattern := name pattern;
                dc_language := language;
                dc_generated_code := generated_code;
                dc_explanation := explanation;
                dc_difficulty := difficulty pattern;
                dc_complexity := calculate_complexity_score pattern |})
  end.

Definition generate_code_feedback (user_code : string) (pattern : option Pattern)
  : string :=
  if String.eqb user_code "" then "Please write some code to get feedback!"
  else
    let feedback_parts : list string := [] in
    let feedback_parts :=
      if contains "for" user_code
      then append feedback_parts "âœ… Good! You're using loops."
      else append feedback_parts "ðŸ’¡ Try using loops to iterate through rows." in
    let feedback_parts :=
      if contains "print" user_code || contains "console.log" user_code
         || contains "System.out.print" user_code
      then append feedback_parts "âœ… Great! You're printing output."
      else append feedback_parts "ðŸ’¡ Don't forget to print the pattern!" in
    let feedback_parts :=
      match pattern with
      | Some p =>
          if (1 <? loops p)%Z && (2 <=? count user_code "for")%nat
          then append feedback_parts "âœ… Excellent! You're using nested loops correctly."
          else if (1 <? loops p)%Z
          then append feedback_parts "ðŸ’¡ This pattern needs nested loops."
          else feedback_parts
      | None => feedback_parts
      end in
    String.concat " " feedback_parts.

Definition generate_code_suggestions (user_code : string) (pattern : option Pattern)
  : list string :=
  let suggestions : list string := [] in
  if String.eqb user_code "" then
    append (append suggestions "Start by creating a variable for the pattern size")
           "Use a for loop to iterate through rows"
  else
    let suggestions :=
      if negb (contains "range" user_code) && contains "for" user_code
      then append suggestions "Use range() function for loop iteration"
      else suggestions in
    let suggestions :=
      match pattern with
      | Some p =>
          if (0 <? conditions p)%Z && negb (contains "if" user_code)
          then append suggestions "Add conditional statements for special cases"
          else suggestions
      | None => suggestions
      end in
    let suggestions :=
      if negb (contains "print" user_code)
      then append suggestions "Add print statements to display the pattern"
      else suggestions in
    suggestions.

(** Reading an attribute of the pattern the handler found, which is
    [None] when no record has the requested id. *)
Definition getattr {A : Type} (pattern : option Pattern) (attr : string)
  (field : Pattern -> A) : result A :=
  match pattern with
  | Some p => Return (field p)
  | None =>
      Raise (AttributeError
               ("'NoneType' object has no attribute '" ++ attr ++ "'"))
  end.

Definition generate_progressive_hints (pattern : option Pattern) (user_code : string)
  : result (list string) :=
  let hints : list string := [] in
  if String.eqb user_code "" then
    bind (getattr pattern "rows" rows) (fun r =>
    Return (extend hints [ "Start with a variable n = " ++ str_of_Z r;
                       "Create a loop from 0 to n-1";
                       "Calculate spaces and stars for each row";
                       "Print spaces, then stars, then newline" ]))
  else if negb (contains "for" user_code) then
    Return (extend hints [ "Add a for loop to iterate through rows";
                       "Use range() function for the loop" ])
  else
    bind (getattr pattern "loops" loops) (fun l =>
    if (Z.of_nat (count user_code "for") <? l)%Z then
      Return (extend hints [ "You need nested loops for this pattern";
                         "Add an inner loop for columns" ])
    else
      Return (extend hints [ "Great progress! Now add the print statements";
                         "Make sure to print newline after each row" ])).

Definition calculate_correctness_score (user_code : string) (pattern : option Pattern)
  : float :=
  if String.eqb user_code "" then 0.0%float
  else
    let score := 0.0%float in
    let score :=
      if contains "for" user_code then (score + 0.3)%float else score in
    let score :=
      match pattern with
      | Some p =>
          if (1 <? loops p)%Z && (2 <=? count user_code "for")%nat
          then (score + 0.3)%float else score
      | None => score
      end in
    let score :=
      if contains "print" user_code || contains "console.log" user_code
         || contains "System.out.print" user_code
      then (score + 0.2)%float else score in
    let score :=
      match pattern with
      | Some p =>
          if (0 <? conditions p)%Z && contains "if" user_code
          then (score + 0.2)%float else score
      | None => score
      end in
    min_1 score.

(** The handler of [POST /ai/code-feedback]. *)
Definition get_code_feedback (request : CodeFeedbackRequest)
  : result CodeFeedbackResponse :=
  let patterns := get_sample_patterns in
  let pattern :=
    next_or_None (fun p => (id p =? pattern_id request)%Z) patterns in
  let feedback := generate_code_feedback (user_code request) pattern in
  let suggestions := generate_code_suggestions (user_code request) pattern in
  bind (generate_progressive_hints pattern (user_code request)) (fun hints =>
  Return {| feedback := feedback;
            suggestions := suggestions;
            correctness_score :=
              calculate_correctness_score (user_code request) pattern;
            hints := hints |}).

(** *** The rubric of the specification

    The weights in tenths: 3 for a loop, 3 for nested loops when the
    pattern needs them, 2 for output, 2 for a conditional when the
    pattern needs one. *)
Definition uses_loop (code : string) : bool := contains "for" code.

Definition uses_nested_loops (code : string) (P : Pattern) : bool :=
  (1 <? loops P)%Z && (2 <=? count code "for")%nat.

Definition produces_output (code : string) : bool :=
  contains "print" code || contains "console.log" code
  || contains "System.out.print" code.

Definition uses_conditional (code : string) (P : Pattern) : bool :=
  (0 <? conditions P)%Z && contains "if" code.

Definition weight (tenths : nat) (check : bool) : nat :=
  if check then tenths else 0%nat.

Definition rubric_tenths (code : string) (P : Pattern) : nat :=
  Nat.min 10
    (weight 3 (uses_loop code) + weight 3 (uses_nested_loops code P)
     + weight 2 (produces_output code) + weight 2 (uses_conditional code P)).

(** The binary64 number nearest to [k/10]. *)
Definition tenths (k : nat) : float :=
  (PrimFloat.of_uint63 (Nat.iter k (fun i => PrimInt63.add i 1%uint63) 0%uint63)
   / 10)%float.

(** *** The two tests of the lookup by name *)
Definition exact (n : string) (p : Pattern) : bool :=
  String.eqb (lower (name p)) (lower n).

Definition containing (n : string) (p : Pattern) : bool :=
  contains (lower n) (lower (name p)).

(** The sixth record of the table, used as a sample. *)
Definition hollow_square : Pattern :=
  {| id := 11; name := "Hollow Square"; category := "hollow"; difficulty := "medium";
     description := "Square with hollow interior";
     preview := ["****"; "*  *"; "*  *"; "****"];
     rows := 4; popularity := 84; completion_rate := 76;
     formula := "stars = n (if first/last row/col), spaces = n-2 (middle)";
     loops := 2; conditions := 4 |}.

End Main.

(** ** [code_execution.py], continued: the explanation of a pattern *)
Module Explain.
Import PyStr Main.

(** [d.get(key, default)] on a dict kept in insertion order. *)
Fixpoint dict_get {V : Type} (d : list (string * V)) (key : string) (default : V) : V :=
  match d with
  | [] => default
  | (k, v) :: d' => if String.eqb k key then v else dict_get d' key default
  end.

(** The texts under the key python, the only language of the table. *)
Definition python_explanations : list (string * string) := [
  ("Square Pattern (Solid)",
    "This pattern creates a solid square using nested loops:" ++ nl
    ++ "" ++ nl
    ++ "1. **Outer Loop**: Controls the rows (i from 0 to n-1)" ++ nl
    ++ "2. **Inner Loop**: Controls the columns (j from 0 to n-1)" ++ nl
    ++ "3. **Print Statement**: Prints '*' for each column without newline (end='')" ++ nl
    ++ "4. **Newline**: After each row is complete, print() adds a newline" ++ nl
    ++ "" ++ nl
    ++ "Key concepts:" ++ nl
    ++ "- Nested loops for 2D structure" ++ nl
    ++ "- Loop variables control position" ++ nl
    ++ "- Print formatting with end parameter");
  ("Right Triangle Pattern",
    "This pattern creates a right triangle:" ++ nl
    ++ "" ++ nl
    ++ "1. **Loop**: Iterates from 1 to n (inclusive)" ++ nl
    ++ "2. **String Multiplication**: Uses '*' * i to create i stars" ++ nl
    ++ "3. **Automatic Newline**: Each print() adds a newline" ++ nl
    ++ "" ++ nl
    ++ "Key concepts:" ++ nl
    ++ "- Single loop for triangular structure" ++ nl
    ++ "- String repetition for pattern generation" ++ nl
    ++ "- Incremental growth pattern");
  ("Diamond Pattern (Solid)",
    "This pattern creates a diamond shape:" ++ nl
    ++ "" ++ nl
    ++ "1. **Upper Half**: Loop from 0 to n//2, creating increasing stars" ++ nl
    ++ "2. **Lower Half**: Loop from n//2-1 to 0, creating decreasing stars" ++ nl
    ++ "3. **Space Calculation**: (n//2 - i) spaces before stars" ++ nl
    ++ "4. **Star Calculation**: (2*i + 1) stars per row" ++ nl
    ++ "" ++ nl
    ++ "Key concepts:" ++ nl
    ++ "- Two separate loops for upper and lower halves" ++ nl
    ++ "- Mathematical calculation of spaces and stars" ++ nl
    ++ "- Symmetric pattern construction");
  ("Hollow Square",
    "This pattern creates a hollow square:" ++ nl
    ++ "" ++ nl
    ++ "1. **Outer Loop**: Controls rows" ++ nl
    ++ "2. **Inner Loop**: Controls columns" ++ nl
    ++ "3. **Conditions**: Print '*' if:" ++ nl
    ++ "   - First row (i == 0)" ++ nl
    ++ "   - Last row (i == n-1)" ++ nl
    ++ "   - First column (j == 0)" ++ nl
    ++ "   - Last column (j == n-1)" ++ nl
    ++ "4. **Otherwise**: Print space" ++ nl
    ++ "" ++ nl
    ++ "Key concepts:" ++ nl
    ++ "- Multiple conditions for boundary detection" ++ nl
    ++ "- Hollow interior with solid border" ++ nl
    ++ "- Complex conditional logic")
].

Definition explanations : list (string * list (string * string)) :=
  [("python", python_explanations)].

Definition default_explanation (pattern : Pattern) : string :=
  "This is a " ++ difficulty pattern ++ " level pattern that requires:" ++ nl
  ++ nl
  ++ "1. **Loops**: " ++ str_of_Z (loops pattern) ++ " nested loops" ++ nl
  ++ "2. **Conditions**: " ++ str_of_Z (conditions pattern)
  ++ " conditional statements" ++ nl
  ++ "3. **Formula**: " ++ formula pattern ++ nl
  ++ nl
  ++ "The pattern creates a visual representation using:" ++ nl
  ++ "- Outer loop for rows" ++ nl
  ++ "- Inner loop for columns" ++ nl
  ++ "- Conditional logic for special cases" ++ nl
  ++ "- Print statements for output".

Definition generate_detailed_explanation (pattern : Pattern) (language : string)
  : string :=
  let lang_explanations :=
    dict_get explanations language (dict_get explanations "python" []) in
  let explanation :=
    dict_get lang_explanations (name pattern) (default_explanation pattern) in
  explanation.

End Explain.

(** ** [main.py], continued: the other handlers and their helpers *)
Module Handlers.
Import PyStr Py Main.

(** A value of a [Dict[str, Any]] of the analysis results. *)
Inductive value : Type :=
| VInt (z : Z)
| VFloat (f : float)
| VStr (s : string)
| VList (l : list string).

(** The exceptions of the analysis helpers beside those of [exn]. *)
Inductive fault : Type :=
| Std (e : exn)
| IndexError (msg : string)
| ZeroDivisionError (msg : string).

Inductive outcome (A : Type) : Type :=
| Done (a : A)
| Fault (f : fault).
Arguments Done {A} a.
Arguments Fault {A} f.

Definition and_then {A B : Type} (o : outcome A) (k : A -> outcome B) : outcome B :=
  match o with
  | Done a => k a
  | Fault f => Fault f
  end.

Definition len (s : string) : Z := Z.of_nat (String.length s).

(** [max(len(line) for line in preview)] *)
Definition max_len (preview : list string) : outcome Z :=
  match preview with
  | [] => Fault (Std (ValueError "max() arg is an empty sequence"))
  | line :: rest => Done (fold_left (fun m l => if (m <? len l)%Z then len l else m) rest (len line))
  end.

(** [sum(f(line) for line in preview)] *)
Definition sum_over (f : string -> Z) (preview : list string) : Z :=
  fold_left (fun acc line => (acc + f line)%Z) preview 0%Z.

(** [line.replace(" ", "")] *)
Fixpoint remove_spaces (s : string) : string :=
  match s with
  | "" => ""
  | String c s' =>
      if Ascii.eqb c " " then remove_spaces s' else String c (remove_spaces s')
  end.

(** [len(set(s))]: the number of distinct characters of [s]. *)
Definition distinct_chars (s : string) : Z :=
  Z.of_nat (List.length (nodup ascii_dec (list_ascii_of_string s))).

(** [a / b] on two [int]s. *)
Definition true_div (a b : Z) : outcome float :=
  if (b =? 0)%Z then Fault (ZeroDivisionError "division by zero")
  else Done (float_of_Z a / float_of_Z b)%float.

Definition analyze_visual_pattern (pattern : Pattern) : outcome (list (string * value)) :=
  and_then (max_len (preview pattern)) (fun columns =>
  let total_elements := sum_over len (preview pattern) in
  let unique_elements := distinct_chars (String.concat "" (preview pattern)) in
  let symmetry :=
    if contains "diamond" (lower (name pattern)) || contains "x" (lower (name pattern))
    then "symmetric" else "asymmetric" in
  and_then (true_div (sum_over (fun line => len (remove_spaces line)) (preview pattern))
                     (sum_over len (preview pattern))) (fun density =>
  Done [ ("rows", VInt (rows pattern));
         ("columns", VInt columns);
         ("total_elements", VInt total_elements);
         ("unique_elements", VInt unique_elements);
         ("symmetry", VStr symmetry);
         ("density", VFloat density) ])).

(** [preview[0]] and [preview[-1]] *)
Definition first_and_last (preview : list string) : outcome (string * string) :=
  match preview with
  | [] => Fault (IndexError "list index out of range")
  | line :: rest => Done (line, last rest line)
  end.

Definition analyze_mathematical_pattern (pattern : Pattern)
  : outcome (list (string * value)) :=
  let complexity :=
    if String.eqb (difficulty pattern) "medium" then "O(nÂ²)"
    else if String.eqb (difficulty pattern) "easy" then "O(n)"
    else "O(nÂ³)" in
  and_then (first_and_last (preview pattern)) (fun fl =>
  let growth_pattern :=
    if (len (fst fl) <? len (snd fl))%Z then "increasing" else "decreasing" in
  Done [ ("formula", VStr (formula pattern));
         ("complexity", VStr complexity);
         ("loops", VInt (loops pattern));
         ("conditions", VInt (conditions pattern));
         ("growth_pattern", VStr growth_pattern) ]).

Definition analyze_logical_pattern (pattern : Pattern) : list (string * value) :=
  [ ("nested_loops", VInt (loops pattern));
    ("conditions", VInt (conditions pattern));
    ("variables", VList ["i"; "j"; "spaces"; "stars"]);
    ("approach",
     VStr (if String.eqb (difficulty pattern) "easy" then "direct iteration"
           else if String.eqb (difficulty pattern) "medium" then "conditional logic"
           else "complex algorithms")) ].

(** [user_code and sub in user_code] for an optional text. *)
Definition present_with (sub : string) (user_code : option string) : bool :=
  match user_code with
  | None => false
  | Some code => negb (String.eqb code "") && contains sub code
  end.

Definition analyze_implementation_pattern (pattern : Pattern) (user_code : option string)
  : list (string * value) :=
  [ ("code_structure",
     VStr (if present_with "for" user_code then "good" else "needs_improvement"));
    ("variable_usage",
     VStr (if present_with "i" user_code then "appropriate" else "missing"));
    ("loop_structure",
     VStr (if present_with "range" user_code then "correct" else "incorrect")) ].

Definition generate_suggestions (pattern : Pattern) (analysis_type : string)
  : list string :=
  let suggestions : list string := [] in
  if String.eqb analysis_type "visual" then
    extend suggestions
      [ "Try to identify the symmetry in this pattern";
        "Count the elements in each row to find the pattern";
        "Notice how the pattern changes from row to row" ]
  else if String.eqb analysis_type "mathematical" then
    extend suggestions
      [ "Use the formula: " ++ formula pattern;
        "This pattern requires " ++ str_of_Z (loops pattern) ++ " nested loops";
        "Calculate spaces and stars for each row" ]
  else if String.eqb analysis_type "logical" then
    extend suggestions
      [ "Start with the outer loop for rows";
        "Use inner loop for columns";
        "Apply conditions for special cases" ]
  else suggestions.

Record AIAnalysisRequest : Type := {
  ar_pattern_id : Z;
  ar_user_code : option string;
  ar_analysis_type : string
}.

Record AIAnalysisResponse : Type := {
  analysis_type : string;
  results : list (string * value);
  ai_suggestions : list string;
  complexity_score : float
}.

(** The handler of [POST /ai/analyze]. *)
Definition analyze_pattern (request : AIAnalysisRequest) : outcome AIAnalysisResponse :=
  let patterns := get_sample_patterns in
  match next_or_None (fun p => (id p =? ar_pattern_id request)%Z) patterns with
  | None => Fault (Std (HTTPException 404 "Pattern not found"))
  | Some pattern =>
      and_then
        (if String.eqb (ar_analysis_type request) "visual" then
           analyze_visual_pattern pattern
         else if String.eqb (ar_analysis_type request) "mathematical" then
           analyze_mathematical_pattern pattern
         else if String.eqb (ar_analysis_type request) "logical" then
           Done (analyze_logical_pattern pattern)
         else if String.eqb (ar_analysis_type request) "implementation" then
           Done (analyze_implementation_pattern pattern (ar_user_code request))
         else Fault (Std (HTTPException 400 "Invalid analysis type")))
        (fun analysis_results =>
      Done {| analysis_type := ar_analysis_type request;
              results := analysis_results;
              ai_suggestions := generate_suggestions pattern (ar_analysis_type request);
              complexity_score := calculate_complexity_score pattern |})
  end.

Record GeneratedCode : Type := {
  gc_generated_code : string;
  gc_pattern : Pattern;
  gc_language : string
}.

(** The handler of [POST /ai/generate-code]. *)
Definition generate_code (pattern_id : Z) (language : string) : result GeneratedCode :=
  let patterns := get_sample_patterns in
  match next_or_None (fun p => (id p =? pattern_id)%Z) patterns with
  | None => Raise (HTTPException 404 "Pattern not found")
  | Some pattern =>
      let generated_code := generate_code_template pattern language in
      Return {| gc_generated_code := generated_code;
                gc_pattern := pattern;
                gc_language := language |}
  end.

(** The JSON object posted to [/execute-code]: a key may be absent; a
    present key holds a string. *)
Record ExecuteRequest : Type := {
  er_code : option string;
  er_language : option string;
  er_input : option string
}.

Record ExecuteResponse : Type := {
  ex_output : string;
  ex_language : string;
  ex_execution_time : string;
  ex_status : string
}.

(** A call of a global that [main.py] neither defines nor imports. *)
Definition unbound_global (global : string) : result string :=
  Raise (NameError ("name '" ++ global ++ "' is not defined")).

(** The body of the [try] of [execute_code]. *)
Definition execute_code_body (code language : string) : result ExecuteResponse :=
  bind
    (if String.eqb language "python" then unbound_global "simulate_python_execution"
     else if String.eqb language "javascript" then
       unbound_global "simulate_javascript_execution"
     else if String.eqb language "java" then unbound_global "simulate_java_execution"
     else Return ("Language '" ++ language ++ "' not supported for execution"))
    (fun output =>
  Return {| ex_output := output;
            ex_language := language;
            ex_execution_time := "0.1s";
            ex_status := "success" |}).

(** The handler of [POST /execute-code]. *)
Definition execute_code (request : ExecuteRequest) : result ExecuteResponse :=
  let code := match er_code request with Some s => s | None => "" end in
  let language := match er_language request with Some s => s | None => "python" end in
  if String.eqb code "" then Raise (HTTPException 400 "No code provided")
  else
    match execute_code_body code language with
    | Return response => Return response
    | Raise e =>
        Return {| ex_output := "Error: " ++ exn_str e;
                  ex_language := language;
                  ex_execution_time := "0.0s";
                  ex_status := "error" |}
    end.

(** The canned replies of the tutor, in the order of the dict. *)
Definition responses : list (string * string) := [
  ("hello",
   "Hello! I'm your AI coding tutor. How can I help you learn programming patterns today?");
  ("help",
   "I can help you understand programming patterns, analyze code, and provide step-by-step guidance. What would you like to learn?");
  ("pattern",
   "Programming patterns are visual representations of code logic. They help you understand loops, conditions, and algorithms. Which pattern interests you?");
  ("loop",
   "Loops are fundamental in programming patterns. They help you repeat actions and create structured output. Would you like to see some examples?");
  ("difficult",
   "Don't worry! Every programmer starts somewhere. Let's break down the problem into smaller, manageable steps. What specific part is challenging?")
].

Definition default_response : string :=
  "That's a great question! Let me help you understand that concept. Can you tell me more about what specific part you'd like to explore?".

Record ChatReply : Type := {
  response : string;
  context : option string
}.

(** The loop of [educational_chat] over the items of [responses]. *)
Fixpoint chat_loop (items : list (string * string)) (message_lower : string)
  : option string :=
  match items with
  | [] => None
  | (key, reply) :: rest =>
      if contains key message_lower then Some reply
      else chat_loop rest message_lower
  end.

(** The handler of [POST /ai/chat]. *)
Definition educational_chat (message : string) (context : option string) : ChatReply :=
  let message_lower := lower message in
  match chat_loop responses message_lower with
  | Some reply => {| response := reply; context := context |}
  | None => {| response := default_response; context := context |}
  end.

End Handlers.

(** ** Notions used to state further properties *)
Module Notions.
Import PyStr Py Main.

(** A text made of whole lines: empty, or ended by a line feed. *)
Definition terminated (s : string) : Prop :=
  s = "" \/ exists body, s = body ++ nl.

(** The first record of the table, used as a sample. *)
Definition solid_square : Pattern :=
  {| id := 1; name := "Square Pattern (Solid)"; category := "basic-star";
     difficulty := "easy"; description := "A solid square filled with stars";
     preview := ["****"; "****"; "****"; "****"];
     rows := 4; popularity := 95; completion_rate := 92;
     formula := "stars = n, spaces = 0"; loops := 2; conditions := 0 |}.

(** The four analysis types of [analyze_pattern]. *)
Definition analysis_types : list string :=
  ["visual"; "mathematical"; "logical"; "implementation"].

(** The three languages [execute_code] dispatches on. *)
Definition simulated_languages : list string := ["python"; "javascript"; "java"].

End Notions.

(** * Properties *)

(** ** Facts about the string primitives *)
Module StrFacts.
Import PyStr.

Lemma startswith_iff (p s : string) :
  startswith p s = true <-> exists r, s = p ++ r.
Proof.
  revert s; induction p as [|a p IH]; intros s; simpl.
  - split; [intros _; now exists s | reflexivity].
  - destruct s as [|b s].
    + split; [discriminate | intros [r Hr]; discriminate].
    + rewrite andb_true_iff, Ascii.eqb_eq, IH. split.
      * intros [-> [r ->]]. now exists r.
      * intros [r Hr]. injection Hr as -> ->. split; [reflexivity | now exists r].
Qed.

Lemma contains_iff (sub s : string) :
  contains sub s = true <-> exists pre post, s = pre ++ sub ++ post.
Proof.
  induction s as [|c s IH]; simpl.
  - rewrite orb_false_r, startswith_iff. split.
    + intros [r Hr]. now exists "", r.
    + intros [pre [post H]]. destruct pre; [now exists post | discriminate].
  - rewrite orb_true_iff, startswith_iff, IH. split.
    + intros [[r Hr] | [pre [post ->]]].
      * now exists "", r.
      * now exists (String c pre), post.
    + intros [[|c' pre] [post H]].
      * left. now exists post.
      * right. injection H as _ ->. now exists pre, post.
Qed.

Lemma append_assoc (a b c : string) : (a ++ b) ++ c = a ++ b ++ c.
Proof. induction a as [|x a IH]; simpl; [reflexivity | now rewrite IH]. Qed.

Lemma append_nil_r (a : string) : a ++ "" = a.
Proof. induction a as [|x a IH]; simpl; [reflexivity | now rewrite IH]. Qed.

Lemma length_append (a b : string) :
  String.length (a ++ b) = String.length a + String.length b.
Proof. induction a as [|x a IH]; simpl; [reflexivity | now rewrite IH]. Qed.

Lemma contains_empty (s : string) : contains "" s = true.
Proof. apply contains_iff. now exists "", s. Qed.

Lemma contains_refl (s : string) : contains s s = true.
Proof. apply contains_iff. exists "", "". simpl. now rewrite append_nil_r. Qed.

(** Text added after [s] keeps every occurrence [s] has. *)
Lemma contains_app (sub s x : string) :
  contains sub s = true -> contains sub (s ++ x) = true.
Proof.
  rewrite !contains_iff. intros [pre [post ->]].
  exists pre, (post ++ x). now rewrite !append_assoc.
Qed.

Lemma startswith_app (p s x : string) :
  startswith p s = true -> startswith p (s ++ x) = true.
Proof.
  rewrite !startswith_iff. intros [r ->]. exists (r ++ x). apply append_assoc.
Qed.

(** A text that holds [p ++ q] holds [p]. *)
Lemma contains_prefix (p q s : string) :
  contains (p ++ q) s = true -> contains p s = true.
Proof.
  rewrite !contains_iff. intros [pre [post ->]].
  exists pre, (q ++ post). now rewrite append_assoc.
Qed.

Lemma startswith_length (p s : string) :
  startswith p s = true -> String.length p <= String.length s.
Proof.
  rewrite startswith_iff. intros [r ->]. rewrite length_append. lia.
Qed.

Lemma count_from_short (sub s : string) (k : nat) :
  String.length s < String.length sub -> count_from sub k s = 0.
Proof.
  revert k; induction s as [|c s IH]; intros k Hlen; simpl in *.
  - destruct sub; [simpl in Hlen; lia | reflexivity].
  - destruct k as [|k].
    + destruct (startswith sub (String c s)) eqn:E.
      * apply startswith_length in E. simpl in E. lia.
      * apply IH. lia.
    + apply IH. lia.
Qed.

(** [s.count(sub)] does not drop when text is added after [s]. *)
Lemma count_from_app (sub s x : string) (k : nat) :
  sub <> "" -> count_from sub k s <= count_from sub k (s ++ x).
Proof.
  intros Hsub. revert k; induction s as [|c s IH]; intros k.
  - simpl. destruct sub; [congruence | lia].
  - cbn [append count_from]. destruct k as [|k]; [|apply IH].
    destruct (startswith sub (String c s)) eqn:E.
    + change (String c (s ++ x)) with (String c s ++ x).
      rewrite (startswith_app _ _ x E). apply le_n_S, IH.
    + destruct (startswith sub (String c (s ++ x))) eqn:E'.
      * rewrite count_from_short; [lia|].
        destruct (Nat.lt_ge_cases (String.length s) (String.length sub)) as [Hlt|Hge];
          [exact Hlt | exfalso].
        apply startswith_iff in E'. destruct E' as [r Hr].
        assert (Hs : startswith sub (String c s) = true); [|congruence].
        clear E IH. revert c s r Hr Hge.
        induction sub as [|a sub IHsub]; intros c s r Hr Hge; [reflexivity|].
        simpl in Hr. injection Hr as -> Hr. simpl. rewrite Ascii.eqb_refl. simpl.
        destruct sub as [|a' sub']; [now destruct s|].
        destruct s as [|c' s]; [simpl in Hge; lia|].
        simpl in Hr. apply (IHsub ltac:(discriminate) c' s r Hr). simpl in *. lia.
      * apply IH.
Qed.

Lemma count_app (s x sub : string) :
  sub <> "" -> count s sub <= count (s ++ x) sub.
Proof. intros H. now apply count_from_app. Qed.

End StrFacts.

(** ** The pattern catalog and its lookups *)
Module CatalogSpec.
Import PyStr Py Main StrFacts.

Section Lookup.
Variable patterns : list Pattern.

(** The loop of [get_pattern] returns the first record with the id. *)
Lemma get_pattern_loop_first (pid : Z) (P : Pattern) :
  get_pattern_loop patterns pid = Return P ->
  exists before after,
    patterns = (before ++ P :: after)%list /\ id P = pid /\
    forall Q, In Q before -> id Q <> pid.
Proof.
  induction patterns as [|R rest IH]; simpl; [discriminate|].
  destruct (Z.eqb_spec (id R) pid) as [E|E].
  - intros [= ->]. exists [], rest. repeat split; [exact E | intros Q []].
  - intros H. destruct (IH H) as (before & after & -> & Hid & Hb).
    exists (R :: before), after. repeat split; [exact Hid|].
    intros Q [<- | HQ]; [exact E | now apply Hb].
Qed.

Lemma get_pattern_loop_round_trip (P : Pattern) :
  NoDup (map id patterns) -> In P patterns ->
  get_pattern_loop patterns (id P) = Return P.
Proof.
  induction patterns as [|R rest IH]; simpl; [intros _ []|].
  intros Hnd [-> | HP].
  - now rewrite Z.eqb_refl.
  - inversion Hnd as [|x l Hnot Hnd']; subst.
    destruct (Z.eqb_spec (id R) (id P)) as [E|E]; [|now apply IH].
    exfalso. apply Hnot. rewrite E. now apply in_map.
Qed.

Lemma get_pattern_loop_missing (pid : Z) :
  (forall Q, In Q patterns -> id Q <> pid) ->
  get_pattern_loop patterns pid = Raise (HTTPException 404 "Pattern not found").
Proof.
  induction patterns as [|R rest IH]; simpl; [reflexivity|]. intros H.
  destruct (Z.eqb_spec (id R) pid) as [E|E].
  - exfalso. apply (H R); [now left | exact E].
  - apply IH. intros Q HQ. apply H. now right.
Qed.

(** [find] returns the first element that satisfies the test. *)
Lemma find_first (cond : Pattern -> bool) (P : Pattern) :
  find cond patterns = Some P ->
  exists before after,
    patterns = (before ++ P :: after)%list /\ cond P = true /\
    forall Q, In Q before -> cond Q = false.
Proof.
  induction patterns as [|R rest IH]; simpl; [discriminate|].
  destruct (cond R) eqn:E.
  - intros [= ->]. exists [], rest. repeat split; [exact E | intros Q []].
  - intros H. destruct (IH H) as (before & after & -> & Hc & Hb).
    exists (R :: before), after. repeat split; [exact Hc|].
    intros Q [<- | HQ]; [exact E | now apply Hb].
Qed.

Lemma find_first_iff (cond : Pattern -> bool) (P : Pattern) :
  find cond patterns = Some P <->
  exists before after,
    patterns = (before ++ P :: after)%list /\ cond P = true /\
    forall Q, In Q before -> cond Q = false.
Proof.
  split; [apply find_first|].
  intros (before & after & -> & Hc & Hb).
  induction before as [|R before IH]; simpl.
  - now rewrite Hc.
  - rewrite (Hb R (or_introl eq_refl)). apply IH. intros Q HQ. apply Hb. now right.
Qed.

Lemma find_none_iff (cond : Pattern -> bool) :
  find cond patterns = None <-> forall Q, In Q patterns -> cond Q = false.
Proof.
  split; [apply find_none|].
  induction patterns as [|R rest IH]; simpl; [reflexivity|]. intros H.
  rewrite (H R (or_introl eq_refl)). apply IH. intros Q HQ. apply H. now right.
Qed.

Lemma find_some_of_in (cond : Pattern -> bool) (P : Pattern) :
  In P patterns -> cond P = true ->
  exists Q, find cond patterns = Some Q /\ cond Q = true.
Proof.
  intros HP Hc. destruct (find cond patterns) as [Q|] eqn:E.
  - exists Q. split; [reflexivity|]. now apply find_some in E.
  - rewrite find_none_iff in E. rewrite (E P HP) in Hc. discriminate.
Qed.

Lemma exact_containing (n : string) (p : Pattern) :
  exact n p = true -> containing n p = true.
Proof.
  unfold exact, containing. rewrite String.eqb_eq. intros ->. apply contains_refl.
Qed.

(** The exact match wins over containment. *)
Lemma find_by_name_exact (n : string) (P : Pattern) :
  find (exact n) patterns = Some P -> find_pattern_by_name n patterns = Some P.
Proof.
  unfold find_pattern_by_name, next_or_None. fold (exact n). now intros ->.
Qed.

Lemma find_by_name_fallback (n : string) :
  find (exact n) patterns = None ->
  find_pattern_by_name n patterns = find (containing n) patterns.
Proof.
  unfold find_pattern_by_name, next_or_None. fold (exact n). now intros ->.
Qed.

(** A result of the lookup by name is the first exact match in table
    order, or, with no exact match in the table, the first record whose
    name contains the request. *)
Lemma find_by_name_first (n : string) (Q : Pattern) :
  find_pattern_by_name n patterns = Some Q ->
  exists before after,
    patterns = (before ++ Q :: after)%list /\
    ((exact n Q = true /\ forall R, In R before -> exact n R = false) \/
     ((forall R, In R patterns -> exact n R = false) /\
      containing n Q = true /\ forall R, In R before -> containing n R = false)).
Proof.
  destruct (find (exact n) patterns) as [P|] eqn:E.
  - rewrite (find_by_name_exact _ _ E). intros [= <-].
    destruct (find_first _ _ E) as (before & after & Hp & Hc & Hb).
    exists before, after. split; [exact Hp | left; now split].
  - rewrite (find_by_name_fallback _ E). intros H.
    destruct (find_first _ _ H) as (before & after & Hp & Hc & Hb).
    exists before, after. split; [exact Hp | right; repeat split; trivial].
    now apply find_none_iff.
Qed.

(** And a record so placed in the table is the result of the lookup. *)
Lemma find_by_name_iff (n : string) (Q : Pattern) :
  find_pattern_by_name n patterns = Some Q <->
  exists before after,
    patterns = (before ++ Q :: after)%list /\
    ((exact n Q = true /\ forall R, In R before -> exact n R = false) \/
     ((forall R, In R patterns -> exact n R = false) /\
      containing n Q = true /\ forall R, In R before -> containing n R = false)).
Proof.
  split; [apply find_by_name_first|].
  intros (before & after & Hp & [[Hc Hb] | (Hnone & Hc & Hb)]).
  - apply find_by_name_exact, find_first_iff. now exists before, after.
  - rewrite find_by_name_fallback; [|now apply find_none_iff].
    apply find_first_iff. now exists before, after.
Qed.

Lemma find_by_name_none (n : string) :
  find_pattern_by_name n patterns = None <->
  forall R, In R patterns -> containing n R = false.
Proof.
  split.
  - intros H. destruct (find (exact n) patterns) as [P|] eqn:E.
    + rewrite (find_by_name_exact _ _ E) in H. discriminate.
    + rewrite (find_by_name_fallback _ E) in H. now apply find_none_iff.
  - intros H. rewrite find_by_name_fallback.
    + now apply find_none_iff.
    + apply find_none_iff. intros R HR. specialize (H R HR).
      destruct (exact n R) eqn:E; [|reflexivity].
      apply exact_containing in E. congruence.
Qed.

(** Looking a record up by its own name, in any letter case. *)
Lemma find_by_name_own_name (n : string) (P : Pattern) :
  In P patterns -> lower n = lower (name P) ->
  exists Q, find_pattern_by_name n patterns = Some Q /\
            lower (name Q) = lower (name P).
Proof.
  intros HP Hn.
  assert (Hex : exact n P = true) by (unfold exact; rewrite Hn; apply String.eqb_refl).
  destruct (find_some_of_in _ _ HP Hex) as (Q & HQ & HcQ).
  exists Q. split; [now apply find_by_name_exact|].
  unfold exact in HcQ. apply String.eqb_eq in HcQ. congruence.
Qed.

End Lookup.

Lemma catalog_ids_NoDup : NoDup (map id get_sample_patterns).
Proof.
  simpl. repeat (constructor; [simpl; intuition discriminate|]). constructor.
Qed.

(** C8: the ids of the catalog are pairwise distinct; looking a catalog
    record up by its id returns that very record; and whatever
    [get_pattern] returns is the first record of the table with the
    requested id. *)
Theorem catalog_id_round_trip :
  NoDup (map id get_sample_patterns) /\
  (forall P, In P get_sample_patterns -> get_pattern (id P) = Return P) /\
  (forall pid P, get_pattern pid = Return P ->
     exists before after,
       get_sample_patterns = (before ++ P :: after)%list /\ id P = pid /\
       forall Q, In Q before -> id Q <> pid).
Proof.
  split; [exact catalog_ids_NoDup | split].
  - intros P HP. apply get_pattern_loop_round_trip; [exact catalog_ids_NoDup | exact HP].
  - intros pid P. apply get_pattern_loop_first.
Qed.

Lemma hollow_square_in_catalog : In hollow_square get_sample_patterns.
Proof. simpl. do 5 right. left. reflexivity. Qed.

Lemma catalog_id_round_trip_witness :
  In hollow_square get_sample_patterns /\ get_pattern 11 = Return hollow_square.
Proof.
  split; [exact hollow_square_in_catalog|].
  exact (proj1 (proj2 catalog_id_round_trip) hollow_square hollow_square_in_catalog).
Defined.

(** C10: whatever the category, difficulty and limit of the query, the
    pattern list is the whole catalog of 11 records in table order. *)
Theorem get_patterns_ignores_filters (category difficulty : option string) (limit : Z) :
  get_patterns category difficulty limit = get_sample_patterns /\
  List.length (get_patterns category difficulty limit) = 11 /\
  map id (get_patterns category difficulty limit)
  = [1; 2; 3; 4; 5; 11; 31; 32; 41; 66; 69]%Z.
Proof. repeat split. Qed.

(** C9: with the empty string as pattern name no record matches exactly,
    every catalog name contains the request, and the lookup returns the
    first record of the table, Square Pattern (Solid) with id 1; the
    handler does not answer 404, whether the key holds the empty string
    or is absent. *)
Theorem empty_name_finds_first_pattern :
  find (exact "") get_sample_patterns = None /\
  (forall P, In P get_sample_patterns -> containing "" P = true) /\
  find_pattern_by_name "" get_sample_patterns = hd_error get_sample_patterns /\
  option_map (fun P => (id P, name P)) (find_pattern_by_name "" get_sample_patterns)
  = Some (1%Z, "Square Pattern (Solid)") /\
  (forall language detail,
     generate_detailed_code {| req_pattern_name := Some ""; req_language := language |}
     <> Raise (HTTPException 404 detail) /\
     generate_detailed_code {| req_pattern_name := None; req_language := language |}
     <> Raise (HTTPException 404 detail)).
Proof.
  split; [reflexivity | split; [|split; [reflexivity | split; [reflexivity|]]]].
  - intros P _. apply contains_empty.
  - intros language detail. split; discriminate.
Qed.

(** C7: in any table the lookup by name returns a record exactly when
    it is the first exact match of the lowered names or, the table
    having no exact match, the first record whose lowered name contains
    the lowered request; it finds nothing exactly when no lowered name
    contains the lowered request.  In the catalog a name of a record in
    any letter case finds a record with that name up to case, a part
    of a name finds the first record that has it, and a name that no
    catalog name contains, such as Invalid Pattern, finds nothing, which
    the handler answers with the 404 signal. *)
Theorem lookup_by_name_case_insensitive :
  (forall patterns n Q,
     find_pattern_by_name n patterns = Some Q <->
     exists before after,
       patterns = (before ++ Q :: after)%list /\
       ((exact n Q = true /\ forall R, In R before -> exact n R = false) \/
        ((forall R, In R patterns -> exact n R = false) /\
         containing n Q = true /\
         forall R, In R before -> containing n R = false))) /\
  (forall patterns n,
     find_pattern_by_name n patterns = None <->
     forall R, In R patterns -> containing n R = false) /\
  (forall P n, In P get_sample_patterns -> lower n = lower (name P) ->
     exists Q, find_pattern_by_name n get_sample_patterns = Some Q /\
               lower (name Q) = lower (name P)) /\
  (forall n language,
     (forall R, In R get_sample_patterns -> containing n R = false) ->
     generate_detailed_code
       {| req_pattern_name := Some n; req_language := language |}
     = Raise (HTTPException 404 ("Pattern '" ++ n ++ "' not found"))) /\
  (forall n language Q d,
     find_pattern_by_name n get_sample_patterns = Some Q ->
     generate_detailed_code
       {| req_pattern_name := Some n; req_language := language |}
     <> Raise (HTTPException 404 d)) /\
  find_pattern_by_name "hollow" get_sample_patterns = Some hollow_square /\
  find_pattern_by_name "Invalid Pattern" get_sample_patterns = None /\
  (forall language,
     generate_detailed_code
       {| req_pattern_name := Some "Invalid Pattern"; req_language := language |}
     = Raise (HTTPException 404 "Pattern 'Invalid Pattern' not found")).
Proof.
  split; [|split; [|split; [|split; [|split; [|split; [|split]]]]]].
  - intros patterns n Q. apply find_by_name_iff.
  - intros patterns n. apply find_by_name_none.
  - intros P n. apply find_by_name_own_name.
  - intros n language H. unfold generate_detailed_code. cbn [req_pattern_name].
    now rewrite (proj2 (find_by_name_none get_sample_patterns n) H).
  - intros n language Q d H. unfold generate_detailed_code. cbn [req_pattern_name].
    rewrite H. discriminate.
  - reflexivity.
  - reflexivity.
  - reflexivity.
Qed.

Lemma lookup_by_name_case_insensitive_witness :
  (In hollow_square get_sample_patterns /\
   lower "hOLLOW sQUARE" = lower (name hollow_square) /\
   exists Q, find_pattern_by_name "hOLLOW sQUARE" get_sample_patterns = Some Q /\
             lower (name Q) = lower (name hollow_square)) /\
  ((forall R, In R get_sample_patterns -> containing "Pentagon" R = false) /\
   generate_detailed_code
     {| req_pattern_name := Some "Pentagon"; req_language := Some "java" |}
   = Raise (HTTPException 404 "Pattern 'Pentagon' not found")).
Proof.
  assert (H : forall R, In R get_sample_patterns -> containing "Pentagon" R = false).
  { intros R HR. simpl in HR.
    repeat (destruct HR as [<-|HR]; [reflexivity|]). destruct HR. }
  split.
  - split; [exact hollow_square_in_catalog | split; [reflexivity|]].
    exact (proj1 (proj2 (proj2 lookup_by_name_case_insensitive))
             hollow_square "hOLLOW sQUARE" hollow_square_in_catalog eq_refl).
  - split; [exact H|].
    exact (proj1 (proj2 (proj2 (proj2 lookup_by_name_case_insensitive)))
             "Pentagon" (Some "java") H).
Defined.

End CatalogSpec.

(** ** The feedback scorer *)
Module ScorerSpec.
Import PyStr Py Main StrFacts.

Lemma eqb_empty_false (code : string) : code <> "" -> String.eqb code "" = false.
Proof. intros H. now apply String.eqb_neq. Qed.

(** The float the scorer accumulates is the nearest binary64 number to
    the rubric's tenths: no rounding error builds up over the four
    additions. *)
Lemma score_tenths (code : string) (P : Pattern) :
  code <> "" ->
  calculate_correctness_score code (Some P) = tenths (rubric_tenths code P).
Proof.
  intros Hne. unfold calculate_correctness_score, rubric_tenths.
  rewrite (eqb_empty_false _ Hne).
  unfold uses_loop, uses_nested_loops, produces_output, uses_conditional.
  destruct (contains "for" code);
    destruct ((1 <? loops P)%Z && (2 <=? count code "for")%nat);
    destruct (contains "print" code || contains "console.log" code
              || contains "System.out.print" code);
    destruct ((0 <? conditions P)%Z && contains "if" code);
    reflexivity.
Qed.

Lemma score_empty (pattern : option Pattern) :
  calculate_correctness_score "" pattern = 0.0%float.
Proof. reflexivity. Qed.

Lemma tenths_monotone (a b : nat) :
  a <= b -> b <= 10 -> PrimFloat.leb (tenths a) (tenths b) = true.
Proof.
  intros Hab Hb.
  do 11 (destruct b as [|b]; [do 11 (destruct a as [|a]; [reflexivity || lia|]); lia|]).
  lia.
Qed.

Lemma weight_monotone (w : nat) (b b' : bool) :
  (b = true -> b' = true) -> weight w b <= weight w b'.
Proof.
  destruct b, b'; simpl; intros H; try lia; specialize (H eq_refl); discriminate.
Qed.

(** Every check that holds of [c] holds of [c] followed by [x]. *)
Lemma rubric_monotone (c x : string) (P : Pattern) :
  rubric_tenths c P <= rubric_tenths (c ++ x) P.
Proof.
  unfold rubric_tenths.
  apply Nat.min_le_compat_l.
  repeat apply Nat.add_le_mono; apply weight_monotone.
  - unfold uses_loop. apply contains_app.
  - unfold uses_nested_loops. rewrite !andb_true_iff, !Nat.leb_le.
    intros [H1 H2]. split; [exact H1|].
    etransitivity; [exact H2 | apply count_app; discriminate].
  - unfold produces_output. rewrite !orb_true_iff.
    intros [[H|H]|H]; [left; left | left; right | right]; now apply contains_app.
  - unfold uses_conditional. rewrite !andb_true_iff.
    intros [H1 H2]. split; [exact H1 | now apply contains_app].
Qed.

Lemma rubric_le_10 (c : string) (P : Pattern) : rubric_tenths c P <= 10.
Proof. unfold rubric_tenths. apply Nat.le_min_l. Qed.

Lemma score_append (c x : string) (P : Pattern) :
  PrimFloat.leb (calculate_correctness_score c (Some P))
                (calculate_correctness_score (c ++ x) (Some P)) = true.
Proof.
  destruct c as [|a c].
  - rewrite score_empty. simpl append. destruct x as [|b x]; [reflexivity|].
    rewrite score_tenths by discriminate.
    apply (tenths_monotone 0); [lia | apply rubric_le_10].
  - rewrite !score_tenths by discriminate.
    apply tenths_monotone; [apply rubric_monotone | apply rubric_le_10].
Qed.

(** C3: the empty text scores 0.0 for every pattern; a non-empty text
    scores the sum of the four weights whose checks hold (0.3 for the
    substring for, 0.3 for more than one loop required and at least two
    occurrences of for, 0.2 for one of the three print tokens, 0.2 for a
    condition required and the substring if), clipped to 1; and the
    score lies between 0 and 1. *)
Theorem correctness_score_rubric (P : Pattern) :
  calculate_correctness_score "" (Some P) = 0.0%float /\
  forall code, code <> "" ->
    calculate_correctness_score code (Some P)
    = tenths (Nat.min 10
        (weight 3 (contains "for" code)
         + weight 3 ((1 <? loops P)%Z && (2 <=? count code "for")%nat)
         + weight 2 (contains "print" code || contains "console.log" code
                     || contains "System.out.print" code)
         + weight 2 ((0 <? conditions P)%Z && contains "if" code))) /\
    PrimFloat.leb 0.0 (calculate_correctness_score code (Some P)) = true /\
    PrimFloat.leb (calculate_correctness_score code (Some P)) 1.0 = true.
Proof.
  split; [reflexivity|]. intros code Hne. split; [exact (score_tenths code P Hne)|].
  rewrite (score_tenths code P Hne). split.
  - apply (tenths_monotone 0); [lia | apply rubric_le_10].
  - apply (tenths_monotone _ 10); [apply rubric_le_10 | lia].
Qed.

Lemma correctness_score_rubric_witness :
  "for i in range(3): print(i)" <> "" /\
  calculate_correctness_score "for i in range(3): print(i)" (Some hollow_square)
  = 0.5%float.
Proof.
  split; [discriminate|].
  exact (eq_trans
           (proj1 (proj2 (correctness_score_rubric hollow_square)
                     "for i in range(3): print(i)" ltac:(discriminate)))
           eq_refl).
Defined.

(** C6: text added after a submission never lowers its score, whatever
    the pattern; in particular a for token added after it does not. *)
Theorem score_monotone_under_append (P : Pattern) (c : string) :
  (forall x,
     PrimFloat.leb (calculate_correctness_score c (Some P))
                   (calculate_correctness_score (c ++ x) (Some P)) = true) /\
  PrimFloat.leb (calculate_correctness_score c (Some P))
                (calculate_correctness_score (c ++ "for") (Some P)) = true.
Proof.
  split; [intros x|]; apply score_append.
Qed.

End ScorerSpec.

(** ** The code-feedback handler *)
Module FeedbackSpec.
Import PyStr Py Main StrFacts.

Lemma next_by_id_found (patterns : list Pattern) (P : Pattern) :
  NoDup (map id patterns) -> In P patterns ->
  next_or_None (fun p => (id p =? id P)%Z) patterns = Some P.
Proof.
  unfold next_or_None.
  induction patterns as [|R rest IH]; simpl; [intros _ []|].
  intros Hnd [-> | HP].
  - now rewrite Z.eqb_refl.
  - inversion Hnd as [|x l Hnot Hnd']; subst.
    destruct (Z.eqb_spec (id R) (id P)) as [E|E]; [|now apply IH].
    exfalso. apply Hnot. rewrite E. now apply in_map.
Qed.

Lemma next_by_id_missing (patterns : list Pattern) (pid : Z) :
  (forall P, In P patterns -> id P <> pid) ->
  next_or_None (fun p => (id p =? pid)%Z) patterns = None.
Proof.
  unfold next_or_None.
  induction patterns as [|R rest IH]; simpl; [reflexivity|]. intros H.
  destruct (Z.eqb_spec (id R) pid) as [E|E].
  - exfalso. apply (H R); [now left | exact E].
  - apply IH. intros Q HQ. apply H. now right.
Qed.

(** An empty submission for a catalog pattern: score 0 and the four
    starter hints. *)
Lemma feedback_empty_code_known_id (P : Pattern) (lang : string) :
  In P get_sample_patterns ->
  get_code_feedback {| pattern_id := id P; user_code := ""; language := lang |}
  = Return {| feedback := "Please write some code to get feedback!";
              suggestions := [ "Start by creating a variable for the pattern size";
                               "Use a for loop to iterate through rows" ];
              correctness_score := 0.0%float;
              hints := [ "Start with a variable n = " ++ str_of_Z (rows P);
                         "Create a loop from 0 to n-1";
                         "Calculate spaces and stars for each row";
                         "Print spaces, then stars, then newline" ] |}.
Proof.
  intros HP. unfold get_code_feedback. cbn [pattern_id user_code].
  rewrite (next_by_id_found _ _ CatalogSpec.catalog_ids_NoDup HP). reflexivity.
Qed.

(** C5: at an id no catalog record has, the empty submission does not
    get score 0 and starter hints: the hints read [rows] of the pattern
    that was not found, and the [AttributeError] leaves the handler. *)
Theorem feedback_empty_code_unknown_id_raises (pid : Z) (lang : string) :
  (forall P, In P get_sample_patterns -> id P <> pid) ->
  get_code_feedback {| pattern_id := pid; user_code := ""; language := lang |}
  = Raise (AttributeError "'NoneType' object has no attribute 'rows'").
Proof.
  intros H. unfold get_code_feedback. cbn [pattern_id user_code].
  rewrite (next_by_id_missing _ _ H). reflexivity.
Qed.

Lemma feedback_empty_code_unknown_id_raises_witness :
  get_code_feedback {| pattern_id := 999; user_code := ""; language := "python" |}
  = Raise (AttributeError "'NoneType' object has no attribute 'rows'").
Proof.
  apply (feedback_empty_code_unknown_id_raises 999 "python").
  intros P HP. simpl in HP.
  repeat (destruct HP as [<- | HP]; [discriminate|]). destruct HP.
Defined.

(** The same slip on the other branch that reads the pattern: a
    submission that holds for, at an unknown id. *)
Lemma feedback_for_code_unknown_id_raises :
  get_code_feedback {| pattern_id := 999; user_code := "for"; language := "python" |}
  = Raise (AttributeError "'NoneType' object has no attribute 'loops'").
Proof. reflexivity. Qed.

End FeedbackSpec.

(** ** Facts about the regular expressions *)
Module ReFacts.
Import PyStr PyRe CodeExecution StrFacts.

Lemma strip_prefix_iff (p s r : string) :
  strip_prefix p s = Some r <-> s = p ++ r.
Proof.
  revert s; induction p as [|a p IH]; intros s; simpl.
  - split; [now intros [= ->] | now intros ->].
  - destruct s as [|b s]; [split; discriminate|].
    destruct (Ascii.eqb_spec a b) as [->|Hne].
    + rewrite IH. split; [now intros -> | now intros [= ->]].
    + split; [discriminate | intros [= E _]; congruence].
Qed.

Lemma lazy_until_quote_sound (s g : string) :
  lazy_until_quote s = Some g ->
  plain g = true /\
  exists q rest, is_quote q = true /\ s = g ++ String q rest.
Proof.
  revert g; induction s as [|c s IH]; intros g; simpl; [discriminate|].
  destruct (is_quote c) eqn:Eq.
  - intros [= <-]. split; [reflexivity | now exists c, s].
  - destruct (Ascii.eqb c LF) eqn:El; [discriminate|].
    destruct (lazy_until_quote s) as [g'|]; [|discriminate].
    intros [= <-]. destruct (IH g' eq_refl) as (Hp & q & rest & Hq & ->).
    split.
    + simpl. unfold plain_char. now rewrite Eq, El, Hp.
    + now exists q, rest.
Qed.

Lemma lazy_until_quote_complete (g : string) (q : ascii) (rest : string) :
  plain g = true -> is_quote q = true ->
  lazy_until_quote (g ++ String q rest) = Some g.
Proof.
  intros Hp Hq. induction g as [|c g IH]; simpl.
  - now rewrite Hq.
  - simpl in Hp. apply andb_true_iff in Hp as [Hc Hp].
    unfold plain_char in Hc. apply andb_true_iff in Hc as [Hc1 Hc2].
    apply negb_true_iff in Hc1, Hc2. rewrite Hc1, Hc2, (IH Hp). reflexivity.
Qed.

(** A match at the start of [s] is an occurrence at offset 0, and what
    follows the match is [s] without its first [n] characters. *)
Lemma call_match_sound (heads : list string) (s g : string) (n : nat) :
  call_match heads s = Some (g, n) ->
  occurs_at heads "" s g (drop n s) /\ 0 < n.
Proof.
  induction heads as [|h hs IH]; simpl; [discriminate|].
  assert (Hrec : call_match hs s = Some (g, n) ->
                 occurs_at (h :: hs) "" s g (drop n s) /\ 0 < n).
  { intros H. destruct (IH H) as [(h' & q & q' & Hin & Hrest) Hn].
    split; [|exact Hn]. exists h', q, q'. split; [now right | exact Hrest]. }
  destruct (strip_prefix h s) as [r|] eqn:Es; [|exact Hrec].
  destruct (quoted_group r) as [g'|] eqn:Eg; [|exact Hrec].
  intros [= -> <-]. apply strip_prefix_iff in Es. subst s.
  destruct r as [|q r]; [discriminate|]. simpl in Eg.
  destruct (is_quote q) eqn:Eq; [|discriminate].
  destruct (lazy_until_quote_sound _ _ Eg) as (Hp & q' & rest & Hq' & ->).
  split; [|lia].
  exists h, q, q'. repeat split; trivial; [now left|].
  simpl. f_equal. f_equal. f_equal.
  clear. replace (String.length h + String.length g + 2)
    with (String.length h + S (String.length g + 1)) by lia.
  induction h as [|a h IH]; simpl; [|exact IH].
  induction g as [|b g IHg]; simpl; [reflexivity | exact IHg].
Qed.

Lemma call_match_complete (heads : list string) (s : string) :
  call_match heads s = None ->
  forall g rest, ~ occurs_at heads "" s g rest.
Proof.
  intros Hnone g rest (h & q & q' & Hin & Hq & Hq' & Hp & Hs). simpl in Hs.
  induction heads as [|h0 hs IH]; [exact Hin|]. simpl in Hnone.
  destruct Hin as [-> | Hin].
  - assert (Es : strip_prefix h s = Some (String q (g ++ String q' rest)))
      by now apply strip_prefix_iff.
    rewrite Es in Hnone. simpl in Hnone. rewrite Hq in Hnone.
    now rewrite (lazy_until_quote_complete _ _ _ Hp Hq') in Hnone.
  - apply IH; [|exact Hin].
    destruct (strip_prefix h0 s); [|exact Hnone].
    destruct (quoted_group s0) as [g'|]; [discriminate | exact Hnone].
Qed.

Section Scan.
Variable heads : list string.

Lemma no_occurrence_in_empty (pre g rest : string) : ~ occurs_at heads pre "" g rest.
Proof.
  intros (h & q & q' & _ & _ & _ & _ & H).
  apply (f_equal String.length) in H. rewrite !length_append in H. simpl in H. lia.
Qed.

(** An occurrence past the first character is an occurrence in the tail. *)
Lemma occurs_at_tail (c c' : ascii) (pre s g rest : string) :
  occurs_at heads (String c' pre) (String c s) g rest ->
  occurs_at heads pre s g rest.
Proof.
  intros (h & q & q' & Hin & Hq & Hq' & Hp & H). simpl in H. injection H as _ H.
  now exists h, q, q'.
Qed.

Lemma occurs_at_cons (c : ascii) (pre s g rest : string) :
  occurs_at heads pre s g rest ->
  occurs_at heads (String c pre) (String c s) g rest.
Proof.
  intros (h & q & q' & Hin & Hq & Hq' & Hp & ->). now exists h, q, q'.
Qed.

(** A character at which no call starts is skipped. *)
Lemma Literals_skip (c : ascii) (s : string) (l : list string) :
  (forall g rest, ~ occurs_at heads "" (String c s) g rest) ->
  Literals heads s l -> Literals heads (String c s) l.
Proof.
  intros Hno HL. destruct HL as [s Hnone | s pre g rest l Hocc Hleft HL].
  - apply Literals_nil. intros [|c' pre] g rest H.
    + exact (Hno g rest H).
    + exact (Hnone pre g rest (occurs_at_tail _ _ _ _ _ _ H)).
  - apply (Literals_cons heads _ (String c pre) g rest l).
    + now apply occurs_at_cons.
    + intros [|c' pre'] g' rest' Hlen H.
      * exact (Hno g' rest' H).
      * apply (Hleft pre' g' rest'); [simpl in Hlen; lia|].
        exact (occurs_at_tail _ _ _ _ _ _ H).
    + exact HL.
Qed.

(** [re.findall] returns the literals of the calls, in source order. *)
Lemma findall_from_Literals (s : string) (k : nat) :
  Literals heads (drop k s) (findall_from heads k s).
Proof.
  revert k; induction s as [|c s IH]; intros k.
  - replace (drop k "") with "" by now destruct k.
    simpl. apply Literals_nil. apply no_occurrence_in_empty.
  - destruct k as [|k]; [|exact (IH k)].
    cbn [drop findall_from].
    destruct (call_match heads (String c s)) as [[g n]|] eqn:E.
    + destruct (call_match_sound _ _ _ _ E) as [Hocc Hn].
      destruct n as [|n]; [lia|]. cbn [drop] in Hocc.
      replace (S n - 1) with n by lia.
      apply (Literals_cons heads _ "" g (drop n s)); [exact Hocc| |exact (IH n)].
      intros pre' g' rest' Hlen. simpl in Hlen. lia.
    + apply Literals_skip; [exact (call_match_complete _ _ E) | exact (IH 0)].
Qed.

Lemma findall_Literals (s : string) : Literals heads s (findall heads s).
Proof. exact (findall_from_Literals s 0). Qed.



End Scan.

Lemma append_inv_head (p a b : string) : p ++ a = p ++ b -> a = b.
Proof. induction p as [|c p IH]; simpl; [trivial | intros [= H]; auto]. Qed.

Lemma append_inv_length (p p' a b : string) :
  String.length p = String.length p' -> p ++ a = p' ++ b -> p = p' /\ a = b.
Proof.
  revert p'; induction p as [|c p IH]; intros [|c' p'] Hlen; simpl in *;
    try discriminate.
  - now split.
  - intros [= -> H]. destruct (IH p' ltac:(lia) H) as [-> ->]. now split.
Qed.

Lemma plain_char_not_quote (c : ascii) :
  plain_char c = true -> is_quote c = true -> False.
Proof.
  unfold plain_char. intros H Hq. rewrite Hq in H. discriminate.
Qed.

(** The literal ends at the first quote: the split is unique. *)
Lemma plain_split_unique (g g' : string) (q q' : ascii) (rest rest' : string) :
  plain g = true -> plain g' = true -> is_quote q = true -> is_quote q' = true ->
  g ++ String q rest = g' ++ String q' rest' -> g = g' /\ rest = rest'.
Proof.
  revert g'; induction g as [|c g IH]; intros [|c' g'] Hp Hp' Hq Hq'; simpl in *.
  - intros [= _ ->]. now split.
  - intros [= -> _]. apply andb_true_iff in Hp' as [Hc _].
    destruct (plain_char_not_quote _ Hc Hq).
  - intros [= -> _]. apply andb_true_iff in Hp as [Hc _].
    destruct (plain_char_not_quote _ Hc Hq').
  - intros [= -> H]. apply andb_true_iff in Hp as [_ Hp].
    apply andb_true_iff in Hp' as [_ Hp'].
    destruct (IH g' Hp Hp' Hq Hq' H) as [-> ->]. now split.
Qed.

Section Unique.
Variable heads : list string.
Hypothesis heads_unambiguous :
  forall h1 h2 r1 r2, In h1 heads -> In h2 heads -> h1 ++ r1 = h2 ++ r2 -> h1 = h2.

Lemma occurs_at_unique (pre pre' s g g' rest rest' : string) :
  occurs_at heads pre s g rest -> occurs_at heads pre' s g' rest' ->
  String.length pre = String.length pre' -> g = g' /\ rest = rest'.
Proof.
  intros (h & q & q' & Hin & Hq & Hq' & Hp & Hs)
         (h2 & q2 & q2' & Hin2 & Hq2 & Hq2' & Hp2 & Hs2) Hlen.
  rewrite Hs in Hs2. destruct (append_inv_length _ _ _ _ Hlen Hs2) as [_ H].
  assert (h = h2) by exact (heads_unambiguous _ _ _ _ Hin Hin2 H). subst h2.
  apply append_inv_head in H. injection H as _ H.
  exact (plain_split_unique _ _ _ _ _ _ Hp Hp2 Hq' Hq2' H).
Qed.

(** A text has one list of literals. *)
Lemma Literals_deterministic (s : string) (l1 l2 : list string) :
  Literals heads s l1 -> Literals heads s l2 -> l1 = l2.
Proof.
  intros H1; revert l2.
  induction H1 as [s Hnone | s pre g rest l Hocc Hleft HL IH]; intros l2 H2.
  - destruct H2 as [|s pre g rest l Hocc _ _]; [reflexivity|].
    destruct (Hnone _ _ _ Hocc).
  - destruct H2 as [s Hnone | s pre2 g2 rest2 l2 Hocc2 Hleft2 HL2].
    + destruct (Hnone _ _ _ Hocc).
    + assert (Hlen : String.length pre = String.length pre2).
      { destruct (Nat.lt_trichotomy (String.length pre) (String.length pre2))
          as [Hlt | [Heq | Hgt]]; [|exact Heq|].
        - destruct (Hleft2 _ _ _ Hlt Hocc).
        - destruct (Hleft _ _ _ Hgt Hocc2). }
      destruct (occurs_at_unique _ _ _ _ _ _ _ Hocc Hocc2 Hlen) as [-> ->].
      f_equal. now apply IH.
Qed.

End Unique.

Lemma single_head_unambiguous (h : string) :
  forall h1 h2 r1 r2 : string, In h1 [h] -> In h2 [h] -> h1 ++ r1 = h2 ++ r2 -> h1 = h2.
Proof. intros h1 h2 r1 r2 [<-|[]] [<-|[]] _. reflexivity. Qed.

(** *** The size pattern *)

Lemma span_split (f : N -> bool) (s : string) :
  forall k, s = fst (span f k s) ++ snd (span f k s).
Proof.
  induction s as [|c s IH]; intros k; [reflexivity|].
  cbn [span]. destruct k as [|k].
  - destruct (decode c s) as [cp width]. destruct (f cp); [|reflexivity].
    specialize (IH (width - 1)). destruct (span f (width - 1) s) as [run rest].
    cbn [fst snd append] in *. now f_equal.
  - specialize (IH k). destruct (span f k s) as [run rest].
    cbn [fst snd append] in *. now f_equal.
Qed.

Lemma span_drop (f : N -> bool) (s : string) :
  forall k, snd (span f k s) = snd (span f 0 (drop k s)).
Proof.
  induction s as [|c s IH]; intros [|k]; try reflexivity.
  cbn [span drop]. rewrite <- IH. now destruct (span f k s).
Qed.

Lemma span_Run (f : N -> bool) (s : string) :
  forall k, Run f (drop k s) (snd (span f k s)).
Proof.
  induction s as [|c s IH]; intros k.
  - destruct k; apply Run_end.
  - destruct k as [|k].
    + cbn [span drop]. destruct (decode c s) as [cp width] eqn:Ed.
      destruct (f cp) eqn:Ef; [|apply Run_end].
      specialize (IH (width - 1)). destruct (span f (width - 1) s) as [run rest].
      cbn [snd] in *. apply Run_char; rewrite Ed; [exact Ef | exact IH].
    + cbn [span drop]. specialize (IH k). now destruct (span f k s).
Qed.

Lemma span_stops (f : N -> bool) (s : string) :
  forall k, first_is f (snd (span f k s)) = false.
Proof.
  induction s as [|c s IH]; intros k; [reflexivity|].
  cbn [span]. destruct k as [|k].
  - destruct (decode c s) as [cp width] eqn:Ed. destruct (f cp) eqn:Ef.
    + specialize (IH (width - 1)). now destruct (span f (width - 1) s).
    + cbn [snd first_is]. now rewrite Ed.
  - specialize (IH k). now destruct (span f k s).
Qed.

(** A run that stops where no further character fits is the one the
    scan takes. *)
Lemma Run_span (f : N -> bool) (s rest : string) :
  Run f s rest -> first_is f rest = false -> snd (span f 0 s) = rest.
Proof.
  induction 1 as [s|c s' rest Hc HR IH]; intros Hstop.
  - destruct s as [|c s']; [reflexivity|]. cbn [span first_is] in *.
    destruct (decode c s') as [cp width]. cbn [fst] in Hstop. now rewrite Hstop.
  - cbn [span]. destruct (decode c s') as [cp width]. cbn [fst snd] in *.
    rewrite Hc. specialize (IH Hstop). rewrite <- span_drop in IH.
    now destruct (span f (width - 1) s').
Qed.

Lemma append_cancel_r (a b r : string) : a ++ r = b ++ r -> a = b.
Proof.
  revert b. induction a as [|c a IH]; intros [|d b] H; [reflexivity| | |].
  - apply (f_equal String.length) in H. cbn [append String.length] in H.
    rewrite length_append in H. lia.
  - apply (f_equal String.length) in H. cbn [append String.length] in H.
    rewrite length_append in H. lia.
  - cbn [append] in H. injection H as -> H. f_equal. now apply IH.
Qed.

Lemma Run_first (f : N -> bool) (ds rest : string) :
  Run f (ds ++ rest) rest -> ds <> "" -> first_is f (ds ++ rest) = true.
Proof.
  intros H Hne. inversion H as [s Hs Hs'|c s' rest' Hc HR Hs].
  - destruct Hne. apply (append_cancel_r ds "" rest). exact Hs'.
  - exact Hc.
Qed.

Lemma digit_not_space (cp : N) : is_digit cp = true -> is_space cp = false.
Proof.
  intros Hd. destruct (is_space cp) eqn:E; [exfalso|reflexivity].
  unfold is_space, in_ranges, whitespace in E. cbn [existsb fst snd] in E.
  repeat rewrite orb_true_iff in E. repeat rewrite andb_true_iff in E.
  repeat rewrite N.leb_le in E.
  assert (H : In cp [9; 10; 11; 12; 13; 28; 29; 30; 31; 32; 133; 160; 5760;
                     8192; 8193; 8194; 8195; 8196; 8197; 8198; 8199; 8200;
                     8201; 8202; 8232; 8233; 8239; 8287; 12288]%N).
  { cbn [In]. lia. }
  cbn [In] in H.
  repeat (destruct H as [<-|H]; [vm_compute in Hd; discriminate|]). exact H.
Qed.

Lemma first_digit_not_space (s : string) :
  first_is is_digit s = true -> first_is is_space s = false.
Proof. destruct s as [|c s']; [discriminate | apply digit_not_space]. Qed.

(** The matcher accepts exactly the texts of the pattern. *)
Lemma assign_match_iff (s ds : string) :
  assign_match s = Some ds <-> assignment_at s ds.
Proof.
  split.
  - unfold assign_match, skip_spaces, take_digits.
    destruct s as [|c r]; [discriminate|].
    destruct (Ascii.eqb_spec c "n") as [->|]; [|discriminate].
    pose proof (span_Run is_space r 0) as Hr1. cbn [drop] in Hr1.
    destruct (snd (span is_space 0 r)) as [|e r']; [discriminate|].
    destruct (Ascii.eqb_spec e "=") as [->|]; [|discriminate].
    pose proof (span_Run is_space r' 0) as Hr2. cbn [drop] in Hr2.
    set (R := snd (span is_space 0 r')) in *.
    pose proof (span_split is_digit R 0) as Hsplit.
    pose proof (span_Run is_digit R 0) as HR. cbn [drop] in HR.
    pose proof (span_stops is_digit R 0) as Hstop.
    destruct (fst (span is_digit 0 R)) as [|d ds'] eqn:Ed; [discriminate|].
    intros [= <-]. exists r, r', (snd (span is_digit 0 R)).
    rewrite <- Hsplit. repeat split; trivial. discriminate.
  - intros (r1 & r2 & rest & -> & H1 & H2 & H3 & Hne & Hstop).
    unfold assign_match, skip_spaces, take_digits. rewrite Ascii.eqb_refl.
    rewrite (Run_span is_space r1 _ H1 eq_refl). rewrite Ascii.eqb_refl.
    rewrite (Run_span is_space r2 _ H2
               (first_digit_not_space _ (Run_first _ _ _ H3 Hne))).
    pose proof (span_split is_digit (ds ++ rest) 0) as Hsplit.
    rewrite (Run_span is_digit _ _ H3 Hstop) in Hsplit.
    apply append_cancel_r in Hsplit. rewrite <- Hsplit.
    destruct ds; [congruence | reflexivity].
Qed.

(** [re.search] returns the leftmost match of the pattern. *)
Lemma search_assign_leftmost (s ds : string) :
  search_assign s = Some ds ->
  exists pre tail,
    s = pre ++ tail /\ assignment_at tail ds /\
    forall pre' tail' ds',
      s = pre' ++ tail' -> String.length pre' < String.length pre ->
      ~ assignment_at tail' ds'.
Proof.
  induction s as [|c s IH].
  - simpl. discriminate.
  - cbn [search_assign]. destruct (assign_match (String c s)) as [ds0|] eqn:E.
    + intros [= ->]. exists "", (String c s).
      split; [reflexivity | split; [now apply assign_match_iff|]].
      intros pre' tail' ds' _ Hlen. simpl in Hlen. lia.
    + intros H. destruct (IH H) as (pre & tail & -> & Ha & Hleft).
      exists (String c pre), tail. split; [reflexivity | split; [exact Ha|]].
      intros [|c' pre'] tail' ds' Hs Hlen Ha'.
      * simpl in Hs. subst tail'. apply assign_match_iff in Ha'. congruence.
      * simpl in Hs. injection Hs as _ Hs.
        apply (Hleft pre' tail' ds' Hs); [simpl in Hlen; lia | exact Ha'].
Qed.

Lemma search_assign_none (s : string) :
  search_assign s = None <->
  forall pre tail ds, s = pre ++ tail -> ~ assignment_at tail ds.
Proof.
  split.
  - induction s as [|c s IH].
    + intros _ pre tail ds Hs (r1 & r2 & rest & -> & _).
      destruct pre; discriminate.
    + cbn [search_assign].
      destruct (assign_match (String c s)) as [ds0|] eqn:E; [discriminate|].
      intros H [|c' pre] tail ds Hs Ha.
      * simpl in Hs. subst tail. apply assign_match_iff in Ha. congruence.
      * simpl in Hs. injection Hs as _ Hs. exact (IH H pre tail ds Hs Ha).
  - intros H. induction s as [|c s IH]; [reflexivity|].
    cbn [search_assign].
    destruct (assign_match (String c s)) as [ds0|] eqn:E.
    + apply assign_match_iff in E. destruct (H "" (String c s) ds0 eq_refl E).
    + apply IH. intros pre tail ds -> Ha.
      exact (H (String c pre) tail ds eq_refl Ha).
Qed.

End ReFacts.

(** ** The output simulator *)
Module SimulatorSpec.
Import PyStr PyRe Py CodeExecution StrFacts ReFacts.

Lemma append_lines_unlines (out : string) (ms : list string) :
  append_lines out ms = out ++ unlines ms.
Proof.
  unfold append_lines. revert out; induction ms as [|m ms IH]; intros out; simpl.
  - now rewrite append_nil_r.
  - rewrite IH. unfold unlines. now rewrite !append_assoc.
Qed.

Lemma repeat_str_comm (r : string) (m : nat) :
  repeat_str r m ++ r = r ++ repeat_str r m.
Proof.
  induction m as [|m IH]; simpl; [now rewrite append_nil_r|].
  now rewrite append_assoc, IH.
Qed.

Lemma char_count_app (a b : string) :
  char_count (a ++ b) = (char_count a + char_count b)%N.
Proof.
  induction a as [|c a IH]; [reflexivity|].
  cbn [append char_count]. destruct (is_cont c); rewrite IH; lia.
Qed.

Lemma char_count_stars (k : nat) : char_count (repeat_str "*" k) = N.of_nat k.
Proof.
  induction k as [|k IH]; [reflexivity|].
  cbn [repeat_str]. rewrite char_count_app, IH.
  change (char_count "*") with 1%N. lia.
Qed.

Lemma char_count_star_row (n : N) : char_count (star_row n) = (n + 1)%N.
Proof.
  unfold star_row. rewrite char_count_app, char_count_stars, N2Nat.id. reflexivity.
Qed.

Lemma star_row_not_empty (n : N) : String.eqb (star_row n) "" = false.
Proof.
  apply String.eqb_neq. intros H. apply (f_equal char_count) in H.
  rewrite char_count_star_row in H. simpl in H. lia.
Qed.

(** *** The operations on [str] that ask for memory *)

Lemma str_add_returns (g : N -> bool) (a b r : string) :
  str_add g a b = Return r -> r = a ++ b.
Proof.
  unfold str_add. destruct (String.eqb_spec a "") as [->|_]; [now intros [= <-]|].
  destruct (String.eqb_spec b "") as [->|_];
    [intros [= <-]; now rewrite append_nil_r|].
  destruct (maxsize - char_count b <? char_count a)%N; [discriminate|].
  destruct (g (char_count a + char_count b)%N); [now intros [= <-] | discriminate].
Qed.

Lemma str_add_granted (g : N -> bool) (a b : string) :
  (char_count a + char_count b <= maxsize)%N ->
  g (char_count a + char_count b)%N = true ->
  str_add g a b = Return (a ++ b).
Proof.
  intros Hfit Hg. unfold str_add.
  destruct (String.eqb_spec a "") as [->|_]; [reflexivity|].
  destruct (String.eqb_spec b "") as [->|_]; [now rewrite append_nil_r|].
  destruct (N.ltb_spec (maxsize - char_count b) (char_count a)); [lia|].
  now rewrite Hg.
Qed.

Lemma str_mul_star_returns (g : N -> bool) (n : N) (row : string) :
  str_mul g "*" n = Return row -> row = repeat_str "*" (N.to_nat n).
Proof.
  unfold str_mul. destruct (maxsize <? n)%N; [discriminate|].
  destruct (N.eqb_spec n 0) as [->|_]; [now intros [= <-]|].
  destruct (N.eqb_spec n 1) as [->|_]; [now intros [= <-]|].
  destruct (maxsize / n <? char_count "*")%N; [discriminate|].
  change (char_count "*" =? 0)%N with false. cbv iota.
  destruct (g (char_count "*" * n)%N); [now intros [= <-] | discriminate].
Qed.

Lemma str_mul_star_granted (g : N -> bool) (n : N) :
  (n <= maxsize)%N -> g n = true ->
  str_mul g "*" n = Return (repeat_str "*" (N.to_nat n)).
Proof.
  intros Hn Hg. unfold str_mul.
  destruct (N.ltb_spec maxsize n); [lia|].
  destruct (N.eqb_spec n 0) as [->|H0]; [reflexivity|].
  destruct (N.eqb_spec n 1) as [->|_]; [reflexivity|].
  change (char_count "*") with 1%N.
  destruct (N.ltb_spec (maxsize / n) 1) as [Hd|_].
  - apply N.lt_1_r, N.div_small_iff in Hd; [lia | exact H0].
  - change (1 =? 0)%N with false. cbv iota. now rewrite N.mul_1_l, Hg.
Qed.



Section AnyMachine.
Variable m : machine.

Lemma granted_true (r : request) (size : N) :
  (size < maxsize)%N -> alloc m r size = true -> granted m r size = true.
Proof.
  intros Hs Ha. unfold granted. rewrite Ha.
  destruct (N.ltb_spec size maxsize); [reflexivity | lia].
Qed.

Lemma granted_below (r : request) (size : N) :
  granted m r size = true -> (size < maxsize)%N.
Proof.
  unfold granted. intros H. apply andb_true_iff in H as [H _].
  now apply N.ltb_lt.
Qed.

(** Where [+] raises, the request for the sum of the sizes is not
    granted. *)
Lemma str_add_raises (r : request) (a b : string) (e : exn) :
  str_add (granted m r) a b = Raise e ->
  (e = MemoryError "" \/ e = OverflowError "strings are too large to concat") /\
  granted m r (char_count a + char_count b) = false.
Proof.
  unfold str_add. destruct (String.eqb a ""); [discriminate|].
  destruct (String.eqb b ""); [discriminate|].
  destruct (N.ltb_spec (maxsize - char_count b) (char_count a)) as [Hlt|_].
  - intros [= <-]. split; [now right|].
    destruct (granted m r (char_count a + char_count b)) eqn:E; [|reflexivity].
    apply granted_below in E. lia.
  - destruct (granted m r (char_count a + char_count b)); [discriminate|].
    intros [= <-]. split; [now left | reflexivity].
Qed.

Lemma str_mul_star_raises (r : request) (n : N) (e : exn) :
  str_mul (granted m r) "*" n = Raise e ->
  (e = OverflowError "cannot fit 'int' into an index-sized integer" /\
   (maxsize < n)%N) \/
  (e = MemoryError "" /\ (n <= maxsize)%N /\ granted m r n = false).
Proof.
  unfold str_mul. destruct (N.ltb_spec maxsize n) as [Hlt|Hle].
  - intros [= <-]. now left.
  - destruct (N.eqb_spec n 0) as [->|H0]; [discriminate|].
    destruct (N.eqb_spec n 1) as [->|_]; [discriminate|].
    change (char_count "*") with 1%N.
    destruct (N.ltb_spec (maxsize / n) 1) as [Hd|_].
    + apply N.lt_1_r, N.div_small_iff in Hd; [lia | exact H0].
    + change (1 =? 0)%N with false. cbv iota. rewrite N.mul_1_l.
      destruct (granted m r n) eqn:E; [discriminate|].
      intros [= <-]. right. now repeat split.
Qed.

(** *** The loop of the rows *)

Lemma row_turn_returns (n : N) (i : nat) (out out' : string) :
  OnMachine.row_turn m n i out = (out', None) ->
  out' = out ++ star_row n /\ (n <= maxsize)%N.
Proof.
  unfold OnMachine.row_turn.
  destruct (str_mul (granted m (Row i)) "*" n) as [row|e] eqn:Er; cbn [bind];
    [|discriminate].
  assert (Hn : (n <= maxsize)%N).
  { unfold str_mul in Er. destruct (N.ltb_spec maxsize n); [discriminate | lia]. }
  apply str_mul_star_returns in Er. subst row.
  destruct (str_add (granted m (Line i)) (repeat_str "*" (N.to_nat n)) nl)
    as [line|e] eqn:El; [|discriminate].
  apply str_add_returns in El. subst line.
  destruct (str_add (granted m (Grow i)) out (repeat_str "*" (N.to_nat n) ++ nl))
    as [out''|e] eqn:Eg; [|discriminate].
  apply str_add_returns in Eg. now intros [= <-].
Qed.

(** A turn that raises leaves [output] as it was.  It raises because
    the size is no index, or because a request for no more than the
    output with one more row is not granted; the local is unbound only
    where the machine works in place. *)
Lemma row_turn_raises (n : N) (i : nat) (out o : string) (e : exn) (b : bool) :
  OnMachine.row_turn m n i out = (o, Some (e, b)) ->
  o = out /\
  ((e = OverflowError "cannot fit 'int' into an index-sized integer" /\
    (maxsize < n)%N /\ b = true) \/
   ((e = MemoryError "" \/ e = OverflowError "strings are too large to concat") /\
    (n <= maxsize)%N /\
    (b = false -> in_place m i = true) /\
    exists r size,
      (size <= char_count out + (n + 1))%N /\ granted m r size = false)).
Proof.
  unfold OnMachine.row_turn.
  destruct (str_mul (granted m (Row i)) "*" n) as [row|e'] eqn:Er; cbn [bind].
  - assert (Hn : (n <= maxsize)%N).
    { unfold str_mul in Er. destruct (N.ltb_spec maxsize n); [discriminate | lia]. }
    apply str_mul_star_returns in Er. subst row.
    destruct (str_add (granted m (Line i)) (repeat_str "*" (N.to_nat n)) nl)
      as [line|e'] eqn:El.
    + apply str_add_returns in El. subst line.
      destruct (str_add (granted m (Grow i)) out (repeat_str "*" (N.to_nat n) ++ nl))
        as [out''|e'] eqn:Eg; [discriminate|].
      intros [= <- <- <-]. split; [reflexivity | right].
      destruct (str_add_raises _ _ _ _ Eg) as [He Hg].
      change (repeat_str "*" (N.to_nat n) ++ nl) with (star_row n) in Hg.
      rewrite char_count_star_row in Hg.
      repeat split; trivial.
      * intros Hb. now apply negb_false_iff in Hb.
      * exists (Grow i), (char_count out + (n + 1))%N. split; [lia | exact Hg].
    + intros [= <- <- <-]. split; [reflexivity | right].
      destruct (str_add_raises _ _ _ _ El) as [He Hg].
      rewrite char_count_stars, N2Nat.id in Hg. change (char_count nl) with 1%N in Hg.
      repeat split; trivial; [discriminate|].
      exists (Line i), (n + 1)%N. split; [lia | exact Hg].
  - intros [= <- <- <-]. split; [reflexivity|].
    destruct (str_mul_star_raises _ _ _ Er) as [[-> Hn] | (-> & Hn & Hg)].
    + left. now repeat split.
    + right. repeat split; trivial; [now left | discriminate|].
      exists (Row i), n. split; [lia | exact Hg].
Qed.

(** The loop appends whole rows, and stops at the turn that raises. *)
Lemma rows_loop_shape (n : N) (turns : nat) :
  forall i out,
    exists k,
      k <= turns /\
      fst (OnMachine.rows_loop m n turns i out) = out ++ repeat_str (star_row n) k /\
      match snd (OnMachine.rows_loop m n turns i out) with
      | None => k = turns
      | Some stop =>
          k < turns /\
          OnMachine.row_turn m n (i + k) (out ++ repeat_str (star_row n) k)
          = (out ++ repeat_str (star_row n) k, Some stop)
      end /\
      (0 < k -> (n <= maxsize)%N).
Proof.
  induction turns as [|t IH]; intros i out.
  - exists 0. cbn [OnMachine.rows_loop fst snd repeat_str].
    rewrite append_nil_r. repeat split; lia.
  - cbn [OnMachine.rows_loop].
    destruct (OnMachine.row_turn m n i out) as [o' [[e b]|]] eqn:E.
    + destruct (row_turn_raises _ _ _ _ _ _ E) as [-> _].
      exists 0. cbn [fst snd repeat_str]. rewrite append_nil_r, Nat.add_0_r.
      repeat split; [lia | lia | exact E | lia].
    + apply row_turn_returns in E. destruct E as [-> Hn].
      destruct (IH (S i) (out ++ star_row n)) as (k & Hk & Hf & Hs & _).
      exists (S k). cbn [repeat_str]. rewrite <- append_assoc.
      split; [lia | split; [exact Hf | split; [|intros _; exact Hn]]].
      destruct (snd (OnMachine.rows_loop m n t (S i) (out ++ star_row n)))
        as [stop|]; [|lia].
      rewrite Nat.add_succ_r. split; [lia | apply Hs].
Qed.

Lemma append_rows_loop (out : string) (n : N) :
  OnMachine.append_rows m out n = OnMachine.rows_loop m n (N.to_nat n) 0 out.
Proof.
  destruct n as [|p]; [reflexivity|].
  unfold OnMachine.append_rows. cbn [N.to_nat].
  destruct (Pos2Nat.is_succ p) as [k Hk]. rewrite Hk.
  cbn [OnMachine.rows_loop]. now rewrite Nat.sub_succ, Nat.sub_0_r.
Qed.

(** With room for the whole output every turn goes through. *)
Lemma rows_loop_granted (n : N) (turns : nat) :
  forall i out,
    (char_count out + N.of_nat turns * (n + 1) < maxsize)%N ->
    (forall r size,
       (size <= char_count out + N.of_nat turns * (n + 1))%N ->
       alloc m r size = true) ->
    OnMachine.rows_loop m n turns i out = (out ++ repeat_str (star_row n) turns, None).
Proof.
  induction turns as [|t IH]; intros i out Hfit Hmem.
  - cbn [OnMachine.rows_loop repeat_str]. now rewrite append_nil_r.
  - rewrite Nat2N.inj_succ in Hfit, Hmem.
    assert (Hg : forall r size,
               (size <= char_count out + (n + 1))%N -> granted m r size = true).
    { intros r size Hs. apply granted_true; [nia | apply Hmem; nia]. }
    cbn [OnMachine.rows_loop]. unfold OnMachine.row_turn.
    rewrite (str_mul_star_granted _ n); [|nia | apply Hg; lia]. cbn [bind].
    rewrite (str_add_granted _ (repeat_str "*" (N.to_nat n)) nl);
      rewrite ?char_count_stars, ?N2Nat.id; change (char_count nl) with 1%N;
      [|nia | apply Hg; lia].
    change (repeat_str "*" (N.to_nat n) ++ nl) with (star_row n).
    rewrite (str_add_granted _ out (star_row n));
      rewrite ?char_count_star_row; [|nia | apply Hg; lia].
    rewrite IH.
    + cbn [repeat_str]. now rewrite append_assoc.
    + rewrite char_count_app, char_count_star_row. nia.
    + intros r size Hs. apply Hmem.
      rewrite char_count_app, char_count_star_row in Hs. nia.
Qed.


Lemma split_lines_cons (s : string) : exists l ls, split_lines s = l :: ls.
Proof.
  induction s as [|c s (l & ls & IH)]; simpl; [now exists "", []|].
  destruct (Ascii.eqb c LF); [now exists "", (split_lines s)|].
  rewrite IH. now exists (String c l), ls.
Qed.

(** A one-line text at the start of [s] is at the start of its first
    line. *)
Lemma startswith_first_line (p s : string) :
  one_line p = true -> startswith p s = true ->
  exists l ls, split_lines s = l :: ls /\ startswith p l = true.
Proof.
  revert s; induction p as [|a p IH]; intros s Hp Hs.
  - destruct (split_lines_cons s) as (l & ls & E). now exists l, ls.
  - destruct s as [|b s]; [discriminate|]. simpl in Hp, Hs.
    apply andb_true_iff in Hp as [Ha Hp]. apply andb_true_iff in Hs as [Hab Hs].
    apply Ascii.eqb_eq in Hab. subst b.
    destruct (IH s Hp Hs) as (l & ls & E & Hl).
    simpl. apply negb_true_iff in Ha. rewrite Ha, E.
    exists (String a l), ls. split; [reflexivity|].
    simpl. now rewrite Ascii.eqb_refl, Hl.
Qed.

(** A one-line text that occurs in [s] occurs in one of its lines. *)
Lemma contains_some_line (p s : string) :
  one_line p = true -> contains p s = true ->
  exists line, In line (split_lines s) /\ contains p line = true.
Proof.
  intros Hp. induction s as [|c s IH]; intros Hc.
  - exists "". split; [now left | exact Hc].
  - cbn [contains] in Hc. apply orb_true_iff in Hc as [Hs | Hc].
    + destruct (startswith_first_line _ _ Hp Hs) as (l & ls & E & Hl).
      exists l. rewrite E. split; [now left|].
      destruct l; simpl; now rewrite Hl.
    + destruct (IH Hc) as (line & Hin & Hline). simpl.
      destruct (Ascii.eqb c LF); [exists line; split; [now right | exact Hline]|].
      destruct (split_lines s) as [|l ls]; [destruct Hin|].
      destruct Hin as [-> | Hin].
      * exists (String c line). split; [now left|].
        cbn [contains]. rewrite Hline. apply orb_true_r.
      * exists line. split; [now right | exact Hline].
Qed.

(** The loop acts as soon as one line has the starred print. *)
Lemma star_lines_loop_acts (code : string) (lines : list string) (out : string) :
  (exists line, In line lines /\ contains "print('*'" line = true) ->
  OnMachine.star_lines_loop m code lines out
  = OnMachine.starred_line_action m code out.
Proof.
  induction lines as [|l ls IH]; intros (line & Hin & Hline); [destruct Hin|].
  simpl. destruct (contains "print('*'" l || contains "print('*'," l) eqn:E;
    [reflexivity|].
  apply IH. destruct Hin as [-> | Hin]; [|now exists line].
  rewrite Hline in E. discriminate.
Qed.




Lemma starred_print_in_code (code : string) :
  contains "print('*'" code = true ->
  OnMachine.star_lines_loop m code (split_lines code)
    (unlines (findall print_heads code))
  = OnMachine.starred_line_action m code (unlines (findall print_heads code)).
Proof.
  intros H. apply star_lines_loop_acts.
  apply contains_some_line; [reflexivity | exact H].
Qed.

Lemma python_body_starred (code : string) :
  contains "print('*'" code = true -> contains "for" code = true ->
  OnMachine.python_body m code
  = OnMachine.starred_line_action m code (unlines (findall print_heads code)).
Proof.
  intros Hs Hf. unfold OnMachine.python_body.
  rewrite (contains_prefix "print" "('*'" code Hs), Hs, Hf.
  rewrite append_lines_unlines. cbn [append orb].
  now apply starred_print_in_code.
Qed.

(** *** How the body of the [try] raises *)

Lemma starred_line_action_fault (code out o : string) (e : exn) (b : bool) :
  OnMachine.starred_line_action m code out = (o, Some (e, b)) ->
  exists ds,
    search_assign code = Some ds /\
    ((int_of_digits ds = Raise e /\ o = out /\ b = true) \/
     (int_of_digits ds = Return (N_of_digits ds) /\
      exists k,
        k < N.to_nat (N_of_digits ds) /\
        o = out ++ repeat_str (star_row (N_of_digits ds)) k /\
        OnMachine.row_turn m (N_of_digits ds) k o = (o, Some (e, b)) /\
        (0 < k -> (N_of_digits ds <= maxsize)%N))).
Proof.
  unfold OnMachine.starred_line_action.
  destruct (contains "range" code); [|discriminate].
  destruct (search_assign code) as [ds|]; [|discriminate].
  destruct (int_of_digits ds) as [n|e'] eqn:E.
  - assert (Hn : n = N_of_digits ds).
    { unfold int_of_digits in E.
      destruct (max_str_digits <? digit_count ds)%nat; [discriminate|].
      now injection E. }
    subst n. intros H. exists ds. split; [reflexivity | right].
    split; [exact E|].
    rewrite append_rows_loop in H.
    destruct (rows_loop_shape (N_of_digits ds) (N.to_nat (N_of_digits ds)) 0 out)
      as (k & _ & Hf & Hs & Hpos).
    rewrite H in Hf, Hs. cbn [fst snd] in Hf, Hs. destruct Hs as [Hk Ht].
    exists k. rewrite <- Hf in Ht. now repeat split.
  - intros [= <- <- <-]. exists ds. split; [reflexivity | left]. now repeat split.
Qed.

Lemma star_lines_loop_fault (code : string) (lines : list string) (out o : string)
  (e : exn) (b : bool) :
  OnMachine.star_lines_loop m code lines out = (o, Some (e, b)) ->
  OnMachine.starred_line_action m code out = (o, Some (e, b)).
Proof.
  induction lines as [|l ls IH]; simpl; [discriminate|].
  destruct (contains "print('*'" l || contains "print('*'," l); [trivial | exact IH].
Qed.

(** The body raises in the star heuristic only: when [int] refuses the
    digits, with the literal lines put out, or in a turn of the loop of
    the rows, with the rows of the turns before it put out as well. *)
Lemma python_body_fault (code o : string) (e : exn) (b : bool) :
  OnMachine.python_body m code = (o, Some (e, b)) ->
  exists ds,
    search_assign code = Some ds /\
    ((int_of_digits ds = Raise e /\ o = unlines (findall print_heads code) /\
      b = true) \/
     (int_of_digits ds = Return (N_of_digits ds) /\
      exists k,
        k < N.to_nat (N_of_digits ds) /\
        o = unlines (findall print_heads code)
            ++ repeat_str (star_row (N_of_digits ds)) k /\
        OnMachine.row_turn m (N_of_digits ds) k o = (o, Some (e, b)) /\
        (0 < k -> (N_of_digits ds <= maxsize)%N))).
Proof.
  unfold OnMachine.python_body. destruct (contains "print" code).
  - rewrite append_lines_unlines. cbn [append].
    destruct (contains "print('*'" code || contains "print('*'," code);
      [|discriminate].
    destruct (contains "for" code); [|discriminate].
    intros H. apply star_lines_loop_fault in H.
    exact (starred_line_action_fault _ _ _ _ _ H).
  - destruct (contains "for" code && contains "*" code); discriminate.
Qed.

(** The local is unbound only where the machine works in place. *)
Lemma unbound_needs_in_place (code o : string) (e : exn) :
  OnMachine.python_body m code = (o, Some (e, false)) ->
  exists i, in_place m i = true.
Proof.
  intros H. destruct (python_body_fault _ _ _ _ H)
    as (ds & _ & [(_ & _ & Hb) | (_ & k & _ & _ & Ht & _)]); [discriminate|].
  destruct (row_turn_raises _ _ _ _ _ _ Ht)
    as (_ & [(_ & _ & Hb) | (_ & _ & Hb & _)]); [discriminate|].
  exists k. now apply Hb.
Qed.

(** What the handler returns is the output with the error line. *)
Lemma on_exception_returns (o final : string) (e : exn) (b : bool) :
  OnMachine.on_exception m (o, Some (e, b)) = Return final ->
  b = true /\ final = o ++ "Execution error: " ++ exn_str e ++ nl.
Proof.
  cbn [OnMachine.on_exception]. destruct b; [|discriminate].
  intros H. apply str_add_returns in H. now split.
Qed.

End AnyMachine.


Lemma python_body_reference (code : string) :
  python_body code
  = (fst (OnMachine.python_body reference code),
     option_map fst (snd (OnMachine.python_body reference code))).
Proof. unfold python_body. now destruct (OnMachine.python_body reference code). Qed.




Lemma int_of_digits_within (ds : string) :
  digit_count ds <= max_str_digits ->
  int_of_digits ds = Return (N_of_digits ds).
Proof.
  intros H. unfold int_of_digits.
  destruct (Nat.ltb_spec max_str_digits (digit_count ds)); [lia | reflexivity].
Qed.


(** On the reference machine the body ends with [output] bound, and
    what the simulator returns there is [simulate_python_execution]. *)
Lemma reference_bound (code o : string) (e : exn) (b : bool) :
  OnMachine.python_body reference code = (o, Some (e, b)) -> b = true.
Proof.
  destruct b; [reflexivity|]. intros H.
  destruct (unbound_needs_in_place _ _ _ _ H) as [i Hi]. discriminate.
Qed.

Lemma reference_returns (code out : string) :
  OnMachine.simulate_python_execution reference code = Return out ->
  out = simulate_python_execution code.
Proof.
  unfold OnMachine.simulate_python_execution, simulate_python_execution.
  rewrite python_body_reference.
  destruct (OnMachine.python_body reference code) as [o [[e b]|]] eqn:E.
  - intros H. destruct (on_exception_returns _ _ _ _ _ H) as [_ ->]. reflexivity.
  - now intros [= <-].
Qed.

Lemma reference_total (code : string) :
  (char_count (simulate_python_execution code) < maxsize)%N ->
  OnMachine.simulate_python_execution reference code
  = Return (simulate_python_execution code).
Proof.
  unfold OnMachine.simulate_python_execution, simulate_python_execution.
  rewrite python_body_reference.
  destruct (OnMachine.python_body reference code) as [o [[e b]|]] eqn:E;
    [|reflexivity].
  rewrite (reference_bound _ _ _ _ E). cbn [fst snd option_map on_exception].
  intros H. rewrite char_count_app in H.
  apply str_add_granted; [lia|]. apply granted_true; [exact H | reflexivity].
Qed.

(** The square on a machine with room for it. *)
Lemma square_with_room (m : machine) (code ds : string) :
  contains "print('*'" code = true ->
  contains "for" code = true ->
  contains "range" code = true ->
  search_assign code = Some ds ->
  digit_count ds <= max_str_digits ->
  (char_count (unlines (findall print_heads code))
   + N_of_digits ds * (N_of_digits ds + 1) < maxsize)%N ->
  (forall r size,
     (size <= char_count (unlines (findall print_heads code))
              + N_of_digits ds * (N_of_digits ds + 1))%N ->
     alloc m r size = true) ->
  OnMachine.python_body m code
  = (unlines (findall print_heads code)
     ++ repeat_str (star_row (N_of_digits ds)) (N.to_nat (N_of_digits ds)), None).
Proof.
  intros Hs Hf Hr Hd Hlen Hfit Hmem.
  rewrite (python_body_starred m code Hs Hf). unfold OnMachine.starred_line_action.
  rewrite Hr, Hd, (int_of_digits_within ds Hlen), append_rows_loop.
  apply rows_loop_granted; rewrite N2Nat.id; assumption.
Qed.

(** C2: for a text that holds the starred print, for and range, the
    output is the literal lines followed by the square of [n] lines of
    [n] stars when the pattern [n = digits] is found in the text, the
    digits being within the limit of [int] and the machine having room
    for the literal lines and the square, and followed by the
    placeholder line when the pattern is not found; so it is on the
    reference machine; on the scenario of the specification that is
    the line of the literal and then 4 lines of 4 stars. *)
Theorem starred_print_square :
  (forall m code ds,
     contains "print('*'" code = true ->
     contains "for" code = true ->
     contains "range" code = true ->
     search_assign code = Some ds ->
     digit_count ds <= max_str_digits ->
     let n := N_of_digits ds in
     let lits := unlines (findall print_heads code) in
     (char_count lits + n * (n + 1) < maxsize)%N ->
     (forall r size, (size <= char_count lits + n * (n + 1))%N ->
                     alloc m r size = true) ->
     OnMachine.simulate_python_execution m code
     = Return (lits ++ repeat_str (repeat_str "*" (N.to_nat n) ++ nl) (N.to_nat n))) /\
  (forall code ds,
     contains "print('*'" code = true ->
     contains "for" code = true ->
     contains "range" code = true ->
     search_assign code = Some ds ->
     digit_count ds <= max_str_digits ->
     let n := N_of_digits ds in
     let lits := unlines (findall print_heads code) in
     (char_count lits + n * (n + 1) < maxsize)%N ->
     simulate_python_execution code
     = lits ++ repeat_str (repeat_str "*" (N.to_nat n) ++ nl) (N.to_nat n)) /\
  (forall m code,
     contains "print('*'" code = true ->
     contains "for" code = true ->
     contains "range" code = true ->
     search_assign code = None ->
     OnMachine.simulate_python_execution m code
     = Return (unlines (findall print_heads code) ++ "Simulated pattern output" ++ nl) /\
     simulate_python_execution code
     = unlines (findall print_heads code) ++ "Simulated pattern output" ++ nl) /\
  simulate_python_execution square_code
  = "*" ++ nl ++ repeat_str ("****" ++ nl) 4.
Proof.
  split; [|split; [|split; [|reflexivity]]].
  - intros m code ds Hs Hf Hr Hd Hlen n lits Hfit Hmem.
    unfold OnMachine.simulate_python_execution.
    now rewrite (square_with_room m code ds Hs Hf Hr Hd Hlen Hfit Hmem).
  - intros code ds Hs Hf Hr Hd Hlen n lits Hfit.
    unfold simulate_python_execution. rewrite python_body_reference.
    now rewrite (square_with_room reference code ds Hs Hf Hr Hd Hlen Hfit
                   (fun _ _ _ => eq_refl)).
  - intros m code Hs Hf Hr Hd.
    assert (H : forall m', OnMachine.python_body m' code
                = (unlines (findall print_heads code)
                   ++ "Simulated pattern output" ++ nl, None)).
    { intros m'. rewrite (python_body_starred m' code Hs Hf).
      unfold OnMachine.starred_line_action. now rewrite Hr, Hd. }
    split.
    + unfold OnMachine.simulate_python_execution. now rewrite H.
    + unfold simulate_python_execution. rewrite python_body_reference. now rewrite H.
Qed.

Lemma starred_print_square_witness :
  OnMachine.simulate_python_execution reference
    ("n = " ++ arabic_three ++ nl ++ "for i in range(n): print('*')")
  = Return ("*" ++ nl ++ "***" ++ nl ++ "***" ++ nl ++ "***" ++ nl).
Proof.
  refine (proj1 starred_print_square reference
            ("n = " ++ arabic_three ++ nl ++ "for i in range(n): print('*')")
            arabic_three eq_refl eq_refl eq_refl eq_refl _ _ _).
  - vm_compute. lia.
  - vm_compute. reflexivity.
  - intros r size _. reflexivity.
Defined.

(** The scenario of the specification gives five lines, not four. *)
Lemma square_scenario_starts_with_literal_line :
  simulate_python_execution square_code = "*" ++ nl ++ repeat_str ("****" ++ nl) 4 /\
  simulate_python_execution square_code <> repeat_str ("****" ++ nl) 4.
Proof. split; [reflexivity | discriminate]. Qed.






(** The other fault: more digits than [int] takes. *)
Lemma overlong_fault_keeps_status_success :
  simulate_code_execution overlong_code "python"
  = {| output := "*" ++ nl
                 ++ "Execution error: Exceeds the limit (4300 digits) for integer string conversion: value has 4301 digits; use sys.set_int_max_str_digits() to increase the limit"
                 ++ nl;
       language := "python"; execution_time := "0.1s"; status := "success" |}.
Proof. vm_compute. reflexivity. Qed.

End SimulatorSpec.

(** ** Sample runs *)
Module Samples.
Import PyStr PyRe Py CodeExecution Main.

Example count_is_without_overlap :
  count "aaa" "aa" = 1 /\ count "forforfo for" "for" = 3 /\ count "abc" "" = 4.
Proof. repeat split. Qed.

Example split_keeps_empty_lines :
  split_lines ("a" ++ nl ++ nl ++ "b" ++ nl) = ["a"; ""; "b"; ""].
Proof. reflexivity. Qed.

(** The literal ends at the next quote of either kind. *)
Example literal_ends_at_first_quote :
  findall print_heads ("print(" ++ String DQ "it's" ++ String DQ ")") = ["it"].
Proof. reflexivity. Qed.

Example literal_stays_on_its_line :
  findall print_heads ("print('a" ++ nl ++ "b')") = [].
Proof. reflexivity. Qed.

Example java_heads_both_match :
  findall java_heads "System.out.println('a'); System.out.print('b');" = ["a"; "b"].
Proof. reflexivity. Qed.

(** The size pattern matches inside a longer name. *)
Example size_inside_a_name : search_assign "min =  42x; n = 4" = Some "42".
Proof. reflexivity. Qed.

(** Whitespace and digits are those of Unicode. *)
Example size_after_no_break_spaces :
  search_assign ("n" ++ no_break_space ++ "=" ++ no_break_space ++ "2") = Some "2".
Proof. reflexivity. Qed.

Example digits_of_any_script :
  search_assign ("n = 1" ++ arabic_three ++ fullwidth_two ++ "x")
  = Some ("1" ++ arabic_three ++ fullwidth_two) /\
  int_of_digits ("1" ++ arabic_three ++ fullwidth_two) = Return 132%N.
Proof. split; reflexivity. Qed.

Example square_of_arabic_three :
  simulate_python_execution
    ("n = " ++ arabic_three ++ nl ++ "for i in range(n): print('*')")
  = "*" ++ nl ++ repeat_str ("***" ++ nl) 3.
Proof. reflexivity. Qed.

(** No machine has the row of [maxsize] stars: the first turn raises a
    [MemoryError], whose message is empty. *)
Example row_of_maxsize_stars (m : machine) :
  OnMachine.python_body m maxsize_code = ("*" ++ nl, Some (MemoryError "", true)) /\
  simulate_python_execution maxsize_code = "*" ++ nl ++ "Execution error: " ++ nl.
Proof. split; reflexivity. Qed.

(** With room for 16 characters the third row of the scenario does not
    fit.  The machine that copies reports it after two rows; on the
    machine that works in place the handler finds [output] unbound and
    the call raises. *)
Example out_of_memory_in_the_loop :
  OnMachine.simulate_python_execution small_copying_machine square_code
  = Return ("*" ++ nl ++ repeat_str ("****" ++ nl) 2 ++ "Execution error: " ++ nl) /\
  OnMachine.python_body small_machine square_code
  = ("*" ++ nl ++ repeat_str ("****" ++ nl) 2, Some (MemoryError "", false)) /\
  OnMachine.simulate_python_execution small_machine square_code
  = Raise (UnboundLocalError unbound_output).
Proof. repeat split. Qed.

Example javascript_star_without_loop :
  simulate_javascript_execution "console.log('*');" = "*" ++ nl ++ "*" ++ nl.
Proof. reflexivity. Qed.

Example javascript_without_log :
  simulate_javascript_execution "let x = 1;" = "JavaScript code executed" ++ nl.
Proof. reflexivity. Qed.

(** A while loop alone does not start the square heuristic. *)
Example while_is_no_loop_keyword :
  simulate_python_execution "while x: print('*')" = "*" ++ nl.
Proof. reflexivity. Qed.

(** Nor does a for loop without range. *)
Example for_without_range :
  simulate_python_execution "for x in xs: print('*')" = "*" ++ nl.
Proof. reflexivity. Qed.

Example for_range_without_size :
  simulate_python_execution "for x in range(3): print('*')"
  = "*" ++ nl ++ "Simulated pattern output" ++ nl.
Proof. reflexivity. Qed.

Example python_placeholders :
  simulate_python_execution "for i in xs: y = i * 2" = "Simulated pattern execution" ++ nl /\
  simulate_python_execution "x = 1" = "Code executed successfully" ++ nl.
Proof. split; reflexivity. Qed.

Example unsupported_language :
  simulate_code_execution "puts 1" "ruby"
  = {| output := "Language 'ruby' not supported for execution";
       CodeExecution.language := "ruby"; execution_time := "0.1s";
       status := "success" |}.
Proof. reflexivity. Qed.

Example right_triangle_template :
  contains "for i in range(1, n + 1)"
    (generate_code_template
       {| id := 2; name := "Right Triangle Pattern"; category := "basic-star";
          difficulty := "easy"; description := "Stars forming a right triangle";
          preview := ["*"; "**"; "***"; "****"];
          rows := 4; popularity := 98; completion_rate := 95;
          formula := "stars = i, spaces = 0"; loops := 2; conditions := 0 |}
       "python") = true.
Proof. reflexivity. Qed.

Example template_stub :
  generate_code_template hollow_square "cpp"
  = "// Hollow Square" ++ nl ++ "// TODO: Implement this pattern" ++ nl
    ++ "// Formula: stars = n (if first/last row/col), spaces = n-2 (middle)".
Proof. reflexivity. Qed.

Example complexity_of_hollow_square :
  calculate_complexity_score hollow_square = 1.0%float.
Proof. reflexivity. Qed.

Example scores :
  calculate_correctness_score "for i in range(3): print(i)" (Some hollow_square) = 0.5%float /\
  calculate_correctness_score "for for print if" (Some hollow_square) = 1.0%float /\
  calculate_correctness_score "for for print if" None = 0.5%float.
Proof. repeat split. Qed.

(** A name that finds a record reaches the unbound global. *)
Example detailed_code_of_known_name :
  generate_detailed_code
    {| req_pattern_name := Some "hollow square"; req_language := Some "python" |}
  = Raise (NameError "name 'generate_detailed_explanation' is not defined").
Proof. reflexivity. Qed.

End Samples.

(** ** Further properties of the simulators *)
Module SimulatorMore.
Import PyStr PyRe Py CodeExecution Notions StrFacts ReFacts.

Lemma java_heads_unambiguous :
  forall h1 h2 r1 r2 : string,
    In h1 java_heads -> In h2 java_heads -> h1 ++ r1 = h2 ++ r2 -> h1 = h2.
Proof.
  intros h1 h2 r1 r2 [<-|[<-|[]]] [<-|[<-|[]]] H; try reflexivity;
    simpl in H; discriminate.
Qed.

Lemma println_has_print (code : string) :
  contains "System.out.println" code = true ->
  contains "System.out.print" code = true.
Proof. apply (contains_prefix "System.out.print" "ln"). Qed.

(** X1: the Java simulator puts out one line for each literal of a
    println or print call, in source order, then the placeholder line
    when the text holds a star; the test for println adds nothing to
    the test for print; without print the output is the line Java code
    executed. *)
Theorem java_simulator_output (code : string) :
  exists lits,
    Literals java_heads code lits /\
    (forall lits', Literals java_heads code lits' -> lits' = lits) /\
    simulate_java_execution code
    = if contains "System.out.print" code
      then unlines lits
           ++ (if contains "*" code then "Simulated Java pattern output" ++ nl else "")
      else "Java code executed" ++ nl.
Proof.
  exists (findall java_heads code).
  split; [apply findall_Literals | split].
  - intros lits' H'.
    exact (Literals_deterministic _ java_heads_unambiguous _ _ _ H'
             (findall_Literals java_heads code)).
  - unfold simulate_java_execution, java_body.
    destruct (contains "System.out.print" code) eqn:Ep.
    + rewrite orb_true_r. rewrite SimulatorSpec.append_lines_unlines. cbn [append andb].
      destruct (contains "*" code); cbn [on_exception]; [reflexivity|].
      now rewrite append_nil_r.
    + destruct (contains "System.out.println" code) eqn:El.
      * apply println_has_print in El. congruence.
      * reflexivity.
Qed.

Lemma findall_of_no_literal (heads : list string) (code : string) :
  (forall h1 h2 r1 r2 : string,
     In h1 heads -> In h2 heads -> h1 ++ r1 = h2 ++ r2 -> h1 = h2) ->
  Literals heads code [] -> findall heads code = [].
Proof.
  intros Hu H. exact (Literals_deterministic _ Hu _ _ _ (findall_Literals heads code) H).
Qed.

(** A text without a literal has no call whose argument opens with a
    quoted star. *)
Lemma no_literal_no_starred_call (h code : string) :
  Literals [h] code [] -> contains (h ++ "'*'") code = false.
Proof.
  intros H. inversion H as [s Hnone|]; subst.
  destruct (contains (h ++ "'*'") code) eqn:E; [exfalso | reflexivity].
  apply contains_iff in E. destruct E as (pre & post & ->).
  apply (Hnone pre "*" post). exists h, SQ, SQ.
  repeat split; trivial; [now left|].
  f_equal. now rewrite append_assoc.
Qed.

(** X2: a text that names the print call of its language but has no
    literal of such a call gets the empty output, not a placeholder
    line (for Java, when the text holds no star either). *)
Theorem silent_output_without_literal :
  (forall code,
     contains "print" code = true -> Literals print_heads code [] ->
     simulate_python_execution code = "") /\
  (forall code,
     contains "console.log" code = true -> Literals log_heads code [] ->
     simulate_javascript_execution code = "") /\
  (forall code,
     contains "System.out.print" code = true -> Literals java_heads code [] ->
     contains "*" code = false ->
     simulate_java_execution code = "").
Proof.
  split; [|split].
  - intros code Hp HL. unfold simulate_python_execution.
    rewrite SimulatorSpec.python_body_reference. unfold OnMachine.python_body.
    rewrite Hp, (findall_of_no_literal print_heads code (single_head_unambiguous _) HL).
    pose proof (no_literal_no_starred_call "print(" code HL) as Hs. cbn [append] in Hs.
    rewrite Hs. cbn [orb].
    destruct (contains "print('*'," code) eqn:E; [|reflexivity].
    apply (contains_prefix "print('*'" ",") in E. congruence.
  - intros code Hp HL. unfold simulate_javascript_execution, javascript_body.
    rewrite Hp, (findall_of_no_literal log_heads code (single_head_unambiguous _) HL).
    pose proof (no_literal_no_starred_call "console.log(" code HL) as Hs.
    cbn [append] in Hs. now rewrite Hs.
  - intros code Hp HL Hstar. unfold simulate_java_execution, java_body.
    rewrite Hp, orb_true_r, (findall_of_no_literal java_heads code java_heads_unambiguous HL), Hstar.
    reflexivity.
Qed.

Lemma silent_output_without_literal_witness :
  simulate_python_execution "print(x)" = "".
Proof.
  exact (proj1 silent_output_without_literal "print(x)" eq_refl
           (findall_Literals print_heads "print(x)")).
Defined.

Lemma terminated_empty : terminated "".
Proof. now left. Qed.

Lemma terminated_line (x : string) : terminated (x ++ nl).
Proof. right. now exists x. Qed.

Lemma terminated_app (a b : string) :
  terminated a -> terminated b -> terminated (a ++ b).
Proof.
  intros Ha [-> | [body ->]].
  - now rewrite append_nil_r.
  - right. exists (a ++ body). now rewrite append_assoc.
Qed.

Lemma terminated_unlines (ls : list string) : terminated (unlines ls).
Proof.
  induction ls as [|l ls IH]; [apply terminated_empty|].
  change (unlines (l :: ls)) with (l ++ nl ++ unlines ls).
  rewrite <- append_assoc. apply terminated_app; [apply terminated_line | exact IH].
Qed.

Lemma terminated_repeat (r : string) (n : nat) : terminated (repeat_str (r ++ nl) n).
Proof.
  induction n as [|n IH]; [apply terminated_empty|].
  change (repeat_str (r ++ nl) (S n)) with ((r ++ nl) ++ repeat_str (r ++ nl) n).
  apply terminated_app; [apply terminated_line | exact IH].
Qed.

Lemma terminated_append_rows (m : machine) (out : string) (n : N) :
  terminated out -> terminated (fst (OnMachine.append_rows m out n)).
Proof.
  intros Ho. rewrite SimulatorSpec.append_rows_loop.
  destruct (SimulatorSpec.rows_loop_shape m n (N.to_nat n) 0 out) as (k & _ & -> & _).
  apply terminated_app; [exact Ho | apply terminated_repeat].
Qed.

Lemma terminated_starred_line_action (m : machine) (code out : string) :
  terminated out -> terminated (fst (OnMachine.starred_line_action m code out)).
Proof.
  intros Ho. unfold OnMachine.starred_line_action.
  destruct (contains "range" code); [|exact Ho].
  destruct (search_assign code) as [ds|].
  - destruct (int_of_digits ds) as [n|e]; [now apply terminated_append_rows | exact Ho].
  - cbn [fst]. apply terminated_app; [exact Ho | apply terminated_line].
Qed.

Lemma terminated_star_lines_loop (m : machine) (code : string) (lines : list string)
  (out : string) :
  terminated out -> terminated (fst (OnMachine.star_lines_loop m code lines out)).
Proof.
  intros Ho. induction lines as [|l ls IH]; simpl; [exact Ho|].
  destruct (contains "print('*'" l || contains "print('*'," l);
    [now apply terminated_starred_line_action | exact IH].
Qed.

(** On every machine the body of the [try] leaves whole lines. *)
Lemma terminated_body (m : machine) (code : string) :
  terminated (fst (OnMachine.python_body m code)).
Proof.
  unfold OnMachine.python_body.
  destruct (contains "print" code).
  - rewrite SimulatorSpec.append_lines_unlines. cbn [append].
    destruct (contains "print('*'" code || contains "print('*'," code);
      [|apply terminated_unlines].
    destruct (contains "for" code); [|apply terminated_unlines].
    apply terminated_star_lines_loop, terminated_unlines.
  - destruct (contains "for" code && contains "*" code); apply terminated_line.
Qed.

Lemma terminated_on_exception (r : string * option exn) :
  terminated (fst r) -> terminated (on_exception r).
Proof.
  destruct r as [out [e|]]; cbn [fst on_exception]; intros Ho; [|exact Ho].
  apply terminated_app; [exact Ho|].
  rewrite <- append_assoc. apply terminated_line.
Qed.

Lemma terminated_python (code : string) : terminated (simulate_python_execution code).
Proof.
  apply terminated_on_exception. rewrite SimulatorSpec.python_body_reference.
  apply terminated_body.
Qed.

(** What the Python simulator returns, on any machine, is whole lines. *)
Lemma terminated_on_machine (m : machine) (code out : string) :
  OnMachine.simulate_python_execution m code = Return out -> terminated out.
Proof.
  unfold OnMachine.simulate_python_execution.
  pose proof (terminated_body m code) as Hb.
  destruct (OnMachine.python_body m code) as [o [[e b]|]]; cbn [fst] in Hb.
  - intros H. destruct (SimulatorSpec.on_exception_returns m _ _ _ _ H) as [_ ->].
    apply terminated_app; [exact Hb|].
    rewrite <- append_assoc. apply terminated_line.
  - now intros [= <-].
Qed.

Lemma terminated_javascript (code : string) :
  terminated (simulate_javascript_execution code).
Proof.
  apply terminated_on_exception. unfold javascript_body.
  destruct (contains "console.log" code); [|apply terminated_line].
  rewrite SimulatorSpec.append_lines_unlines. cbn [append fst].
  destruct (contains "console.log('*'" code); [|apply terminated_unlines].
  destruct (contains "for" code); cbn [fst];
    (apply terminated_app; [apply terminated_unlines|]).
  - exact (terminated_line "Simulated JavaScript pattern output").
  - exact (terminated_line "*").
Qed.

Lemma terminated_java (code : string) : terminated (simulate_java_execution code).
Proof.
  apply terminated_on_exception. unfold java_body.
  destruct (contains "System.out.println" code || contains "System.out.print" code);
    [|apply terminated_line].
  rewrite SimulatorSpec.append_lines_unlines. cbn [append fst].
  destruct (contains "System.out.print" code && contains "*" code); cbn [fst];
    [|apply terminated_unlines].
  apply terminated_app; [apply terminated_unlines|].
  exact (terminated_line "Simulated Java pattern output").
Qed.

(** X3: for each of the three languages the simulated output is made of
    whole lines, every line ended by a line feed, also when a fault was
    reported in it; the message for any other language has no line
    feed at all. *)
Theorem simulated_output_is_whole_lines (code language : string) :
  (In language simulated_languages ->
   terminated (output (simulate_code_execution code language))) /\
  (~ In language simulated_languages -> one_line language = true ->
   one_line (output (simulate_code_execution code language)) = true).
Proof.
  split.
  - intros [<-|[<-|[<-|[]]]]; cbn [simulate_code_execution output String.eqb];
      [apply terminated_python | apply terminated_javascript | apply terminated_java].
  - intros Hnot Hone. unfold simulate_code_execution. cbn [output].
    destruct (String.eqb_spec language "python") as [->|_];
      [exfalso; apply Hnot; simpl; tauto|].
    destruct (String.eqb_spec language "javascript") as [->|_];
      [exfalso; apply Hnot; simpl; tauto|].
    destruct (String.eqb_spec language "java") as [->|_];
      [exfalso; apply Hnot; simpl; tauto|].
    clear Hnot. cbn [append one_line]. simpl.
    induction language as [|c l IH]; [reflexivity|].
    simpl in *. apply andb_true_iff in Hone as [Hc Hl]. rewrite Hc. now apply IH.
Qed.

Lemma simulated_output_is_whole_lines_witness :
  terminated (output (simulate_code_execution oversized_code "python")).
Proof.
  apply (proj1 (simulated_output_is_whole_lines oversized_code "python")).
  simpl. tauto.
Defined.

End SimulatorMore.

(** ** Further properties of the scorer and of the feedback handler *)
Module ScorerMore.
Import PyStr Py Main Notions StrFacts ScorerSpec.

(** [s.count(sub)] is positive exactly when [sub in s]. *)
Lemma count_from_positive_contains (sub s : string) (k : nat) :
  0 < count_from sub k s -> contains sub s = true.
Proof.
  revert k; induction s as [|c s IH]; intros k; cbn [count_from contains].
  - destruct sub; [reflexivity | lia].
  - destruct k as [|k].
    + destruct (startswith sub (String c s)); [reflexivity|].
      intros H. rewrite (IH 0 H). apply orb_true_r.
    + intros H. rewrite (IH k H). apply orb_true_r.
Qed.

Lemma contains_count_positive (sub s : string) :
  contains sub s = true -> 0 < count s sub.
Proof.
  unfold count. induction s as [|c s IH]; cbn [count_from contains].
  - rewrite orb_false_r. destruct sub; [lia | discriminate].
  - destruct (startswith sub (String c s)); [lia|]. exact IH.
Qed.

Lemma nested_needs_loop (code : string) (P : Pattern) :
  uses_nested_loops code P = true -> uses_loop code = true.
Proof.
  unfold uses_nested_loops, uses_loop. rewrite andb_true_iff, Nat.leb_le.
  intros [_ H]. apply (count_from_positive_contains "for" code 0). unfold count in H. lia.
Qed.

Lemma score_tenths_no_pattern (code : string) :
  code <> "" ->
  calculate_correctness_score code None
  = tenths (weight 3 (uses_loop code) + weight 2 (produces_output code)).
Proof.
  intros Hne. unfold calculate_correctness_score.
  rewrite (eqb_empty_false _ Hne). unfold uses_loop, produces_output.
  destruct (contains "for" code);
    destruct (contains "print" code || contains "console.log" code
              || contains "System.out.print" code);
    reflexivity.
Qed.

Lemma weight_le (w : nat) (b : bool) : weight w b <= w.
Proof. destruct b; simpl; lia. Qed.

Lemma weight_false (w : nat) : weight w false = 0.
Proof. reflexivity. Qed.

(** A score whose tenths are at most [k] is at most the float of [k]. *)
Lemma score_below (code : string) (P : Pattern) (k : nat) :
  k <= 10 -> (code <> "" -> rubric_tenths code P <= k) ->
  PrimFloat.leb (calculate_correctness_score code (Some P)) (tenths k) = true.
Proof.
  intros Hk H. destruct code as [|c code].
  - rewrite score_empty. now apply (tenths_monotone 0); [lia|].
  - rewrite score_tenths by discriminate.
    apply tenths_monotone; [apply H; discriminate | exact Hk].
Qed.

(** X11: what the pattern caps the score at: 0.5 when no pattern was
    found, 0.8 for a pattern that requires no condition, 0.7 for a
    pattern that requires at most one loop; and the score is 1.0
    exactly when all four checks hold. *)
Theorem score_ceiling_by_pattern (code : string) :
  PrimFloat.leb (calculate_correctness_score code None) 0.5 = true /\
  (forall P, (conditions P <= 0)%Z ->
     PrimFloat.leb (calculate_correctness_score code (Some P)) 0.8 = true) /\
  (forall P, (loops P <= 1)%Z ->
     PrimFloat.leb (calculate_correctness_score code (Some P)) 0.7 = true) /\
  (forall P,
     calculate_correctness_score code (Some P) = 1.0%float <->
     uses_loop code && uses_nested_loops code P
     && produces_output code && uses_conditional code P = true).
Proof.
  split; [|split; [|split]].
  - destruct code as [|c code]; [reflexivity|].
    rewrite score_tenths_no_pattern by discriminate.
    apply (tenths_monotone _ 5); [|lia].
    pose proof (weight_le 3 (uses_loop (String c code))).
    pose proof (weight_le 2 (produces_output (String c code))). lia.
  - intros P Hc. apply (score_below code P 8); [lia|]. intros _.
    unfold rubric_tenths.
    assert (E : uses_conditional code P = false).
    { unfold uses_conditional. destruct (Z.ltb_spec 0 (conditions P)); [lia | reflexivity]. }
    rewrite E, weight_false.
    pose proof (weight_le 3 (uses_loop code)).
    pose proof (weight_le 3 (uses_nested_loops code P)).
    pose proof (weight_le 2 (produces_output code)). lia.
  - intros P Hl. apply (score_below code P 7); [lia|]. intros _.
    unfold rubric_tenths.
    assert (E : uses_nested_loops code P = false).
    { unfold uses_nested_loops. destruct (Z.ltb_spec 1 (loops P)); [lia | reflexivity]. }
    rewrite E, weight_false.
    pose proof (weight_le 3 (uses_loop code)).
    pose proof (weight_le 2 (produces_output code)).
    pose proof (weight_le 2 (uses_conditional code P)). lia.
  - intros P. destruct code as [|c code].
    + rewrite score_empty. split; [|discriminate].
      intros H. apply (f_equal (PrimFloat.leb 1.0)) in H. vm_compute in H. discriminate.
    + rewrite score_tenths by discriminate. unfold rubric_tenths.
      destruct (uses_loop (String c code)), (uses_nested_loops (String c code) P),
        (produces_output (String c code)), (uses_conditional (String c code) P);
        (split; intros H; [|try reflexivity; discriminate]);
        try reflexivity;
        apply (f_equal (PrimFloat.leb 1.0)) in H; vm_compute in H; discriminate.
Qed.

Lemma score_ceiling_by_pattern_witness :
  (conditions solid_square <= 0)%Z /\
  PrimFloat.leb
    (calculate_correctness_score "for i: for j: print(i) if x" (Some solid_square))
    0.8 = true.
Proof.
  split; [simpl; lia|].
  apply (proj1 (proj2 (score_ceiling_by_pattern "for i: for j: print(i) if x"))).
  simpl. lia.
Defined.

(** X12: the checks of the rubric are not independent: the text has at
    least one for exactly when it holds the substring for, so the
    weight for nested loops is never given without the weight for a
    loop, and a score that has it is at least 0.6. *)
Theorem nested_weight_needs_loop_weight (code : string) (P : Pattern) :
  (0 < count code "for" <-> contains "for" code = true) /\
  (uses_nested_loops code P = true ->
   uses_loop code = true /\
   PrimFloat.leb 0.6 (calculate_correctness_score code (Some P)) = true).
Proof.
  split.
  - split; [apply (count_from_positive_contains "for" code 0) | apply contains_count_positive].
  - intros Hn. pose proof (nested_needs_loop code P Hn) as Hl. split; [exact Hl|].
    assert (Hne : code <> "") by (intros ->; discriminate).
    rewrite (score_tenths code P Hne).
    apply (tenths_monotone 6); [|apply rubric_le_10].
    unfold rubric_tenths. rewrite Hl, Hn. simpl weight at 1 2.
    apply Nat.min_glb; lia.
Qed.

Lemma nested_weight_needs_loop_weight_witness :
  uses_loop "for for" = true /\
  PrimFloat.leb 0.6 (calculate_correctness_score "for for" (Some solid_square)) = true.
Proof.
  exact (proj2 (nested_weight_needs_loop_weight "for for" solid_square) eq_refl).
Defined.

End ScorerMore.

Module FeedbackMore.
Import PyStr Py Main Notions StrFacts ScorerSpec ScorerMore FeedbackSpec.

Lemma contains_nonempty (sub code : string) :
  sub <> "" -> contains sub code = true -> code <> "".
Proof.
  intros Hs H ->. simpl in H. rewrite orb_false_r in H. destruct sub; [congruence | discriminate].
Qed.

Lemma hints_with_pattern (P : Pattern) (code : string) :
  exists h, generate_progressive_hints (Some P) code = Return h.
Proof.
  unfold generate_progressive_hints.
  destruct (String.eqb code ""); [now eexists|].
  destruct (negb (contains "for" code)); [now eexists|].
  cbn [getattr bind]. destruct (Z.of_nat (count code "for") <? loops P)%Z; now eexists.
Qed.

(** X13: when the code-feedback handler raises.  With the id of a
    catalog record it never does, and the score it returns is the
    score of the submission for that record.  With an id of no record a
    submission that holds for raises the [AttributeError] on loops,
    while a non-empty submission without for is answered, with the two
    hints to add a loop and a score of at most 0.2. *)
Theorem code_feedback_outcome (code lang : string) :
  (forall P, In P get_sample_patterns ->
     exists r,
       get_code_feedback {| pattern_id := id P; user_code := code; language := lang |}
       = Return r /\
       correctness_score r = calculate_correctness_score code (Some P) /\
       feedback r = generate_code_feedback code (Some P) /\
       suggestions r = generate_code_suggestions code (Some P)) /\
  (forall pid,
     (forall P, In P get_sample_patterns -> id P <> pid) ->
     (contains "for" code = true ->
      get_code_feedback {| pattern_id := pid; user_code := code; language := lang |}
      = Raise (AttributeError "'NoneType' object has no attribute 'loops'")) /\
     (code <> "" -> contains "for" code = false ->
      exists r,
        get_code_feedback {| pattern_id := pid; user_code := code; language := lang |}
        = Return r /\
        hints r = [ "Add a for loop to iterate through rows";
                    "Use range() function for the loop" ] /\
        PrimFloat.leb (correctness_score r) 0.2 = true)).
Proof.
  split.
  - intros P HP. unfold get_code_feedback. cbn [pattern_id user_code].
    rewrite (next_by_id_found _ _ CatalogSpec.catalog_ids_NoDup HP).
    destruct (hints_with_pattern P code) as [h ->]. cbn [bind].
    eexists. split; [reflexivity|]. now repeat split.
  - intros pid Hpid. split.
    + intros Hf. unfold get_code_feedback. cbn [pattern_id user_code].
      rewrite (next_by_id_missing _ _ Hpid). unfold generate_progressive_hints.
      rewrite (eqb_empty_false _ (contains_nonempty "for" code ltac:(discriminate) Hf)), Hf.
      reflexivity.
    + intros Hne Hf. unfold get_code_feedback. cbn [pattern_id user_code].
      rewrite (next_by_id_missing _ _ Hpid). unfold generate_progressive_hints.
      rewrite (eqb_empty_false _ Hne), Hf. cbn [negb bind].
      eexists. split; [reflexivity|]. split; [reflexivity|]. cbn [correctness_score].
      rewrite (score_tenths_no_pattern code Hne). unfold uses_loop. rewrite Hf.
      apply (tenths_monotone _ 2); [|lia].
      pose proof (weight_le 2 (produces_output code)). simpl weight at 1. lia.
Qed.

Lemma code_feedback_outcome_witness :
  In solid_square get_sample_patterns /\
  exists r,
    get_code_feedback {| pattern_id := 1; user_code := "for x"; language := "java" |}
    = Return r /\
    correctness_score r = calculate_correctness_score "for x" (Some solid_square) /\
    feedback r = generate_code_feedback "for x" (Some solid_square) /\
    suggestions r = generate_code_suggestions "for x" (Some solid_square).
Proof.
  assert (H : In solid_square get_sample_patterns) by (simpl; tauto).
  split; [exact H|].
  exact (proj1 (code_feedback_outcome "for x" "java") solid_square H).
Defined.

(** X14: the hints and the score of one submission agree.  The hints to
    add a loop come with a score of at most 0.4; for a pattern that
    requires at least two loops, as every catalog record does, the
    hints of progress come with a score of at least 0.6, and for one
    that requires exactly two the hints to nest loops come with a
    score of at most 0.7. *)
Theorem hints_agree_with_score (P : Pattern) (code : string) :
  (generate_progressive_hints (Some P) code
   = Return [ "Add a for loop to iterate through rows";
              "Use range() function for the loop" ] ->
   PrimFloat.leb (calculate_correctness_score code (Some P)) 0.4 = true) /\
  (generate_progressive_hints (Some P) code
   = Return [ "Great progress! Now add the print statements";
              "Make sure to print newline after each row" ] ->
   (2 <= loops P)%Z ->
   PrimFloat.leb 0.6 (calculate_correctness_score code (Some P)) = true) /\
  (generate_progressive_hints (Some P) code
   = Return [ "You need nested loops for this pattern";
              "Add an inner loop for columns" ] ->
   (loops P = 2)%Z ->
   PrimFloat.leb (calculate_correctness_score code (Some P)) 0.7 = true).
Proof.
  unfold generate_progressive_hints.
  destruct (String.eqb_spec code "") as [->|Hne];
    [split; [|split]; cbn [getattr bind extend app]; discriminate|].
  destruct (contains "for" code) eqn:Hf; cbn [negb getattr bind].
  - destruct (Z.ltb_spec (Z.of_nat (count code "for")) (loops P)) as [Hlt|Hge];
      (split; [discriminate | split]); try discriminate.
    + intros _ Hl. apply (score_below code P 7); [lia|]. intros _.
      unfold rubric_tenths.
      assert (E : uses_nested_loops code P = false).
      { unfold uses_nested_loops. rewrite andb_false_iff. right.
        apply Nat.leb_gt. lia. }
      rewrite E, weight_false.
      pose proof (weight_le 3 (uses_loop code)).
      pose proof (weight_le 2 (produces_output code)).
      pose proof (weight_le 2 (uses_conditional code P)). lia.
    + intros _ Hl. rewrite (score_tenths code P Hne).
      apply (tenths_monotone 6); [|apply rubric_le_10].
      unfold rubric_tenths, uses_loop. rewrite Hf.
      assert (E : uses_nested_loops code P = true).
      { unfold uses_nested_loops. rewrite andb_true_iff. split.
        - apply Z.ltb_lt. lia.
        - apply Nat.leb_le. lia. }
      rewrite E. simpl weight at 1 2. apply Nat.min_glb; lia.
  - split; [|split; discriminate]. intros _.
    apply (score_below code P 4); [lia|]. intros _.
    unfold rubric_tenths, uses_loop. rewrite Hf, weight_false.
    assert (E : uses_nested_loops code P = false).
    { unfold uses_nested_loops.
      destruct (Nat.leb_spec 2 (count code "for")) as [H2|_]; [|apply andb_false_r].
      assert (Hc : contains "for" code = true)
        by (apply (count_from_positive_contains "for" code 0); unfold count in H2; lia).
      congruence. }
    rewrite E, weight_false.
    pose proof (weight_le 2 (produces_output code)).
    pose proof (weight_le 2 (uses_conditional code P)). lia.
Qed.

Lemma hints_agree_with_score_witness :
  PrimFloat.leb 0.6
    (calculate_correctness_score "for i: for j: x" (Some solid_square)) = true.
Proof.
  apply (proj1 (proj2 (hints_agree_with_score solid_square "for i: for j: x"))).
  - reflexivity.
  - simpl. lia.
Defined.

End FeedbackMore.

(** ** The analysis helpers and the handlers that look a pattern up by id *)
Module AnalysisSpec.
Import PyStr Py Main Handlers Notions StrFacts FeedbackSpec.

Lemma len_nonneg (s : string) : (0 <= len s)%Z.
Proof. unfold len. lia. Qed.

Lemma len_zero (s : string) : len s = 0%Z <-> s = "".
Proof.
  unfold len. destruct s; simpl; split; intros H; try reflexivity; try discriminate; lia.
Qed.

Lemma sum_fold (f : string -> Z) (l : list string) (a : Z) :
  fold_left (fun acc line => (acc + f line)%Z) l a = (a + sum_over f l)%Z.
Proof.
  unfold sum_over. revert a; induction l as [|x l IH]; intros a; simpl; [lia|].
  rewrite (IH (a + f x)%Z), (IH (f x)). lia.
Qed.

Lemma sum_over_cons (f : string -> Z) (x : string) (l : list string) :
  sum_over f (x :: l) = (f x + sum_over f l)%Z.
Proof. unfold sum_over at 1. simpl. apply sum_fold. Qed.

Lemma sum_len_nonneg (l : list string) : (0 <= sum_over len l)%Z.
Proof.
  induction l as [|x l IH]; [unfold sum_over; simpl; lia|].
  rewrite sum_over_cons. pose proof (len_nonneg x). lia.
Qed.

Lemma sum_len_ge (l : list string) (line : string) :
  In line l -> (len line <= sum_over len l)%Z.
Proof.
  induction l as [|x l IH]; [intros []|]. rewrite sum_over_cons.
  pose proof (len_nonneg x) as Hx. pose proof (sum_len_nonneg l) as Hl.
  intros [-> | Hin]; [lia | specialize (IH Hin); lia].
Qed.

(** The rows have no character at all exactly when their lengths sum to 0. *)
Lemma sum_len_zero (l : list string) :
  sum_over len l = 0%Z <-> forall line, In line l -> line = "".
Proof.
  induction l as [|x l IH]; [split; [intros _ line [] | reflexivity]|].
  rewrite sum_over_cons. pose proof (len_nonneg x). pose proof (sum_len_nonneg l).
  split.
  - intros H1 line [<- | Hin].
    + apply len_zero. lia.
    + apply IH; [lia | exact Hin].
  - intros Hall. rewrite (proj2 (len_zero x) (Hall x (or_introl eq_refl))).
    rewrite (proj2 IH); [reflexivity|]. intros line Hin. apply Hall. now right.
Qed.

Lemma max_fold (l : list string) (a m : Z) :
  fold_left (fun m l => if (m <? len l)%Z then len l else m) l a = m ->
  (a <= m)%Z /\ (forall line, In line l -> (len line <= m)%Z) /\
  (m = a \/ exists line, In line l /\ len line = m).
Proof.
  revert a; induction l as [|x l IH]; intros a; simpl.
  - intros <-. repeat split; [lia | intros line [] | now left].
  - intros H. destruct (IH _ H) as (Ha & Hall & Hex).
    destruct (Z.ltb_spec a (len x)) as [Hlt|Hge].
    + repeat split; [lia | intros line [<- | Hin]; [lia | now apply Hall] |].
      right. destruct Hex as [-> | (line & Hin & Hl)]; [exists x | exists line]; auto.
    + repeat split; [lia | intros line [<- | Hin]; [lia | now apply Hall] |].
      destruct Hex as [-> | (line & Hin & Hl)]; [now left | right; exists line; auto].
Qed.

(** [max_len] is the length of a longest row. *)
Lemma max_len_spec (x : string) (l : list string) :
  exists m, max_len (x :: l) = Done m /\
            (forall line, In line (x :: l) -> (len line <= m)%Z) /\
            (exists line, In line (x :: l) /\ len line = m).
Proof.
  unfold max_len. eexists. split; [reflexivity|].
  destruct (max_fold l (len x) _ eq_refl) as (Ha & Hall & Hex). split.
  - intros line [<- | Hin]; [exact Ha | now apply Hall].
  - destruct Hex as [E | (line & Hin & Hl)].
    + exists x. split; [now left | now rewrite E].
    + exists line. split; [now right | exact Hl].
Qed.

Lemma length_nodup_le (l : list ascii) :
  (List.length (nodup ascii_dec l) <= List.length l)%nat.
Proof.
  induction l as [|c l IH]; simpl; [lia|].
  destruct (in_dec ascii_dec c l); simpl; lia.
Qed.

Lemma nodup_nonempty (l : list ascii) : l <> [] -> nodup ascii_dec l <> [].
Proof.
  destruct l as [|c l]; [congruence|]. intros _ H.
  assert (Hin : In c (nodup ascii_dec (c :: l))) by (apply nodup_In; now left).
  rewrite H in Hin. destruct Hin.
Qed.

Lemma length_list_ascii (s : string) :
  List.length (list_ascii_of_string s) = String.length s.
Proof. induction s as [|c s IH]; simpl; [reflexivity | now rewrite IH]. Qed.

Lemma len_concat (l : list string) : len (String.concat "" l) = sum_over len l.
Proof.
  induction l as [|x l IH]; [reflexivity|]. rewrite sum_over_cons, <- IH.
  destruct l as [|y l].
  - simpl. unfold len at 3. simpl. lia.
  - cbn [String.concat]. unfold len. rewrite !length_append. simpl. lia.
Qed.

Lemma distinct_chars_bounds (s : string) :
  (distinct_chars s <= len s)%Z /\ (0 < len s -> 1 <= distinct_chars s)%Z.
Proof.
  unfold distinct_chars, len. split.
  - pose proof (length_nodup_le (list_ascii_of_string s)) as H.
    rewrite length_list_ascii in H. lia.
  - intros Hpos. destruct s as [|c s]; [simpl in Hpos; lia|].
    pose proof (nodup_nonempty (list_ascii_of_string (String c s)) ltac:(discriminate)) as H.
    destruct (nodup ascii_dec (list_ascii_of_string (String c s))); [congruence|].
    simpl. lia.
Qed.

Lemma true_div_done (a b : Z) : b <> 0%Z -> exists d, true_div a b = Done d.
Proof.
  intros H. unfold true_div. destruct (Z.eqb_spec b 0); [contradiction | now eexists].
Qed.

Lemma visual_done (P : Pattern) :
  (exists line, In line (preview P) /\ line <> "") ->
  exists r, analyze_visual_pattern P = Done r.
Proof.
  intros (line & Hin & Hne). unfold analyze_visual_pattern.
  destruct (preview P) as [|x l] eqn:E; [destruct Hin|].
  destruct (max_len_spec x l) as (m & -> & _). cbn [and_then].
  assert (Hsum : sum_over len (x :: l) <> 0%Z).
  { intros H0. apply Hne. exact (proj1 (sum_len_zero _) H0 line Hin). }
  destruct (true_div_done (sum_over (fun line0 => len (remove_spaces line0)) (x :: l))
              _ Hsum) as [d ->].
  cbn [and_then]. now eexists.
Qed.

Lemma mathematical_done (P : Pattern) :
  preview P <> [] -> exists r, analyze_mathematical_pattern P = Done r.
Proof.
  intros H. unfold analyze_mathematical_pattern.
  destruct (preview P) as [|x l]; [congruence|]. cbn [first_and_last and_then]. now eexists.
Qed.

(** X9: when the analysis helpers raise.  Without any preview row the
    visual analysis raises the [ValueError] of [max] and the
    mathematical analysis the [IndexError] of the first row; with rows
    that are all empty the visual analysis raises the
    [ZeroDivisionError] of the density; in every other case both
    return. *)
Theorem analysis_helpers_faults (P : Pattern) :
  (preview P = [] ->
   analyze_visual_pattern P = Fault (Std (ValueError "max() arg is an empty sequence")) /\
   analyze_mathematical_pattern P = Fault (IndexError "list index out of range")) /\
  (preview P <> [] -> (forall line, In line (preview P) -> line = "") ->
   analyze_visual_pattern P = Fault (ZeroDivisionError "division by zero")) /\
  ((exists line, In line (preview P) /\ line <> "") ->
   exists r, analyze_visual_pattern P = Done r) /\
  (preview P <> [] -> exists r, analyze_mathematical_pattern P = Done r).
Proof.
  split; [|split; [|split; [apply visual_done | apply mathematical_done]]].
  - intros E. unfold analyze_visual_pattern, analyze_mathematical_pattern.
    rewrite E. split; reflexivity.
  - intros Hne Hall. unfold analyze_visual_pattern.
    destruct (preview P) as [|x l]; [congruence|].
    destruct (max_len_spec x l) as (m & -> & _). cbn [and_then].
    unfold true_div. rewrite (proj2 (sum_len_zero _) Hall). reflexivity.
Qed.

Lemma analysis_helpers_faults_witness :
  analyze_visual_pattern
    {| id := 0; name := "Blank"; category := "basic-star"; difficulty := "easy";
       description := ""; preview := [""; ""]; rows := 2; popularity := 0;
       completion_rate := 0; formula := ""; loops := 1; conditions := 0 |}
  = Fault (ZeroDivisionError "division by zero").
Proof.
  apply (proj1 (proj2 (analysis_helpers_faults _))).
  - discriminate.
  - intros line [<-|[<-|[]]]; reflexivity.
Defined.

(** X10: what a returned visual analysis says: its six entries in
    order; no row is longer than columns and one row is that long;
    columns is at most total_elements, which is positive; and
    unique_elements lies between 1 and total_elements. *)
Theorem visual_analysis_invariants (P : Pattern) (r : list (string * value)) :
  analyze_visual_pattern P = Done r ->
  exists columns total unique symmetry density,
    r = [ ("rows", VInt (rows P)); ("columns", VInt columns);
          ("total_elements", VInt total); ("unique_elements", VInt unique);
          ("symmetry", VStr symmetry); ("density", VFloat density) ] /\
    (forall line, In line (preview P) -> (len line <= columns)%Z) /\
    (exists line, In line (preview P) /\ len line = columns) /\
    (columns <= total)%Z /\ (0 < total)%Z /\ (1 <= unique <= total)%Z.
Proof.
  unfold analyze_visual_pattern.
  destruct (preview P) as [|x l] eqn:E; [discriminate|].
  destruct (max_len_spec x l) as (m & -> & Hall & (line & Hin & Hl)). cbn [and_then].
  unfold true_div. destruct (Z.eqb_spec (sum_over len (x :: l)) 0) as [|Hsum];
    [discriminate|].
  cbn [and_then]. intros [= <-]. do 5 eexists. split; [reflexivity|].
  pose proof (sum_len_nonneg (x :: l)) as Hnn.
  pose proof (sum_len_ge _ _ Hin) as Hge.
  pose proof (distinct_chars_bounds (String.concat "" (x :: l))) as [Hu1 Hu2].
  rewrite len_concat in Hu1, Hu2.
  split; [exact Hall | split; [now exists line | split; [lia | split; [lia|]]]].
  split; [apply Hu2; lia | exact Hu1].
Qed.

Lemma visual_analysis_invariants_witness :
  exists columns total unique symmetry density,
    [ ("rows", VInt 4); ("columns", VInt 4); ("total_elements", VInt 16);
      ("unique_elements", VInt 2); ("symmetry", VStr "asymmetric");
      ("density", VFloat 0.75) ]
    = [ ("rows", VInt (rows hollow_square)); ("columns", VInt columns);
        ("total_elements", VInt total); ("unique_elements", VInt unique);
        ("symmetry", VStr symmetry); ("density", VFloat density) ] /\
    (forall line, In line (preview hollow_square) -> (len line <= columns)%Z) /\
    (exists line, In line (preview hollow_square) /\ len line = columns) /\
    (columns <= total)%Z /\ (0 < total)%Z /\ (1 <= unique <= total)%Z.
Proof.
  apply (visual_analysis_invariants hollow_square). vm_compute. reflexivity.
Defined.

End AnalysisSpec.

Module HandlersSpec.
Import PyStr Py Main Handlers Notions StrFacts FeedbackSpec AnalysisSpec.

(** Every record of the table has a preview whose first row is not empty. *)
Lemma catalog_previews (P : Pattern) :
  In P get_sample_patterns -> exists line, In line (preview P) /\ line <> "".
Proof.
  intros HP. simpl in HP.
  repeat (destruct HP as [<- | HP];
          [eexists; split; [now left | discriminate]|]).
  destruct HP.
Qed.

Lemma preview_nonempty (P : Pattern) :
  (exists line, In line (preview P) /\ line <> "") -> preview P <> [].
Proof. intros (line & Hin & _) E. rewrite E in Hin. destruct Hin. Qed.

Lemma not_analysis_type (ty : string) :
  ~ In ty analysis_types ->
  String.eqb ty "visual" = false /\ String.eqb ty "mathematical" = false /\
  String.eqb ty "logical" = false /\ String.eqb ty "implementation" = false.
Proof.
  intros H. repeat split; apply String.eqb_neq; intros ->; apply H; simpl; tauto.
Qed.

(** X8: the analysis handler on a catalog record.  With one of the four
    analysis types it returns, echoing the type, with the complexity
    score of the record and three suggestions, none for the type
    implementation; with any other type it answers 400; no helper
    raises on a record of the table. *)
Theorem analyze_pattern_on_catalog (P : Pattern) (uc : option string) (ty : string) :
  In P get_sample_patterns ->
  (In ty analysis_types ->
   exists r,
     analyze_pattern {| ar_pattern_id := id P; ar_user_code := uc;
                        ar_analysis_type := ty |} = Done r /\
     analysis_type r = ty /\
     complexity_score r = calculate_complexity_score P /\
     List.length (ai_suggestions r)
     = if String.eqb ty "implementation" then 0 else 3) /\
  (~ In ty analysis_types ->
   analyze_pattern {| ar_pattern_id := id P; ar_user_code := uc;
                      ar_analysis_type := ty |}
   = Fault (Std (HTTPException 400 "Invalid analysis type"))).
Proof.
  intros HP. unfold analyze_pattern. cbn [ar_pattern_id ar_analysis_type ar_user_code].
  rewrite (next_by_id_found _ _ CatalogSpec.catalog_ids_NoDup HP).
  destruct (visual_done P (catalog_previews P HP)) as [rv Hv].
  destruct (mathematical_done P (preview_nonempty P (catalog_previews P HP))) as [rm Hm].
  assert (H400 : ~ In ty analysis_types ->
    and_then
      (if String.eqb ty "visual" then analyze_visual_pattern P
       else if String.eqb ty "mathematical" then analyze_mathematical_pattern P
       else if String.eqb ty "logical" then Done (analyze_logical_pattern P)
       else if String.eqb ty "implementation"
            then Done (analyze_implementation_pattern P uc)
            else Fault (Std (HTTPException 400 "Invalid analysis type")))
      (fun analysis_results =>
         Done {| analysis_type := ty; results := analysis_results;
                 ai_suggestions := generate_suggestions P ty;
                 complexity_score := calculate_complexity_score P |})
    = Fault (Std (HTTPException 400 "Invalid analysis type"))).
  { intros Hn. destruct (not_analysis_type ty Hn) as (-> & -> & -> & ->). reflexivity. }
  split; [|exact H400].
  intros [<-|[<-|[<-|[<-|[]]]]]; cbn [String.eqb Ascii.eqb Bool.eqb];
    rewrite ?Hv, ?Hm; cbn [and_then]; eexists; (split; [reflexivity|]);
    repeat split.
Qed.

Lemma analyze_pattern_on_catalog_witness :
  exists r,
    analyze_pattern {| ar_pattern_id := 11; ar_user_code := None;
                       ar_analysis_type := "implementation" |} = Done r /\
    analysis_type r = "implementation" /\
    complexity_score r = calculate_complexity_score hollow_square /\
    List.length (ai_suggestions r) = 0.
Proof.
  apply (proj1 (analyze_pattern_on_catalog hollow_square None "implementation"
                  CatalogSpec.hollow_square_in_catalog)).
  simpl. tauto.
Defined.

(** X7: the three handlers that take a pattern id answer 404 for the
    same ids, those of no catalog record; for the id of a record
    [get_pattern] returns the record, [generate_code] returns that
    record with its template and the language it was given, and
    [analyze_pattern] does not answer 404. *)
Theorem id_handlers_agree (pid : Z) :
  ((forall P, In P get_sample_patterns -> id P <> pid) ->
   get_pattern pid = Raise (HTTPException 404 "Pattern not found") /\
   (forall lang,
      generate_code pid lang = Raise (HTTPException 404 "Pattern not found")) /\
   (forall uc ty,
      analyze_pattern {| ar_pattern_id := pid; ar_user_code := uc;
                         ar_analysis_type := ty |}
      = Fault (Std (HTTPException 404 "Pattern not found")))) /\
  (forall P, In P get_sample_patterns -> id P = pid ->
   get_pattern pid = Return P /\
   (forall lang,
      generate_code pid lang
      = Return {| gc_generated_code := generate_code_template P lang;
                  gc_pattern := P; gc_language := lang |}) /\
   (forall uc ty,
      analyze_pattern {| ar_pattern_id := pid; ar_user_code := uc;
                         ar_analysis_type := ty |}
      <> Fault (Std (HTTPException 404 "Pattern not found")))).
Proof.
  split.
  - intros Hpid. split; [|split].
    + now apply CatalogSpec.get_pattern_loop_missing.
    + intros lang. unfold generate_code. now rewrite (next_by_id_missing _ _ Hpid).
    + intros uc ty. unfold analyze_pattern. cbn [ar_pattern_id].
      now rewrite (next_by_id_missing _ _ Hpid).
  - intros P HP <-. split; [|split].
    + now apply CatalogSpec.get_pattern_loop_round_trip;
        [apply CatalogSpec.catalog_ids_NoDup|].
    + intros lang. unfold generate_code.
      now rewrite (next_by_id_found _ _ CatalogSpec.catalog_ids_NoDup HP).
    + intros uc ty. unfold analyze_pattern.
      cbn [ar_pattern_id ar_analysis_type ar_user_code].
      rewrite (next_by_id_found _ _ CatalogSpec.catalog_ids_NoDup HP).
      destruct (visual_done P (catalog_previews P HP)) as [rv ->].
      destruct (mathematical_done P (preview_nonempty P (catalog_previews P HP)))
        as [rm ->].
      destruct (String.eqb ty "visual"); [discriminate|].
      destruct (String.eqb ty "mathematical"); [discriminate|].
      destruct (String.eqb ty "logical"); [discriminate|].
      destruct (String.eqb ty "implementation"); discriminate.
Qed.

Lemma id_handlers_agree_witness :
  get_pattern 7 = Raise (HTTPException 404 "Pattern not found") /\
  (forall lang, generate_code 7 lang = Raise (HTTPException 404 "Pattern not found")) /\
  (forall uc ty,
     analyze_pattern {| ar_pattern_id := 7; ar_user_code := uc; ar_analysis_type := ty |}
     = Fault (Std (HTTPException 404 "Pattern not found"))).
Proof.
  apply (proj1 (id_handlers_agree 7)).
  intros P HP. simpl in HP.
  repeat (destruct HP as [<- | HP]; [discriminate|]). destruct HP.
Defined.

Lemma execute_body_of_simulated (code language : string) :
  In language simulated_languages ->
  execute_code_body code language
  = Raise (NameError ("name 'simulate_" ++ language ++ "_execution' is not defined")).
Proof. intros [<-|[<-|[<-|[]]]]; reflexivity. Qed.

Lemma execute_body_of_other (code language : string) :
  ~ In language simulated_languages ->
  execute_code_body code language
  = Return {| ex_output := "Language '" ++ language ++ "' not supported for execution";
              ex_language := language; ex_execution_time := "0.1s";
              ex_status := "success" |}.
Proof.
  intros Hn. unfold execute_code_body.
  assert (E1 : String.eqb language "python" = false)
    by (apply String.eqb_neq; intros ->; apply Hn; simpl; tauto).
  assert (E2 : String.eqb language "javascript" = false)
    by (apply String.eqb_neq; intros ->; apply Hn; simpl; tauto).
  assert (E3 : String.eqb language "java" = false)
    by (apply String.eqb_neq; intros ->; apply Hn; simpl; tauto).
  now rewrite E1, E2, E3.
Qed.

(** X4: the handler of [/execute-code] in [main.py] never returns a
    simulated output.  Without code it answers 400.  With code it
    always returns: for python, javascript and java with status error
    and the message that the simulator is not defined, since [main.py]
    binds none of the three; for any other language with status
    success and the message that the language is not supported. *)
Theorem execute_code_outcome (code : string) (language input : option string) :
  let lang := match language with Some l => l | None => "python" end in
  (code = "" ->
   execute_code {| er_code := Some code; er_language := language; er_input := input |}
   = Raise (HTTPException 400 "No code provided") /\
   execute_code {| er_code := None; er_language := language; er_input := input |}
   = Raise (HTTPException 400 "No code provided")) /\
  (code <> "" -> In lang simulated_languages ->
   execute_code {| er_code := Some code; er_language := language; er_input := input |}
   = Return {| ex_output := "Error: name 'simulate_" ++ lang
                            ++ "_execution' is not defined";
               ex_language := lang; ex_execution_time := "0.0s";
               ex_status := "error" |}) /\
  (code <> "" -> ~ In lang simulated_languages ->
   execute_code {| er_code := Some code; er_language := language; er_input := input |}
   = Return {| ex_output := "Language '" ++ lang ++ "' not supported for execution";
               ex_language := lang; ex_execution_time := "0.1s";
               ex_status := "success" |}).
Proof.
  intros lang. split; [|split].
  - intros ->. split; reflexivity.
  - intros Hne Hin. unfold execute_code. cbn [er_code er_language]. fold lang.
    rewrite (proj2 (String.eqb_neq code "") Hne).
    now rewrite (execute_body_of_simulated code lang Hin).
  - intros Hne Hn. unfold execute_code. cbn [er_code er_language]. fold lang.
    rewrite (proj2 (String.eqb_neq code "") Hne).
    now rewrite (execute_body_of_other code lang Hn).
Qed.

Lemma execute_code_outcome_witness :
  execute_code {| er_code := Some "print('Hello World')"; er_language := None;
                  er_input := None |}
  = Return {| ex_output := "Error: name 'simulate_python_execution' is not defined";
              ex_language := "python"; ex_execution_time := "0.0s";
              ex_status := "error" |}.
Proof.
  apply (proj1 (proj2 (execute_code_outcome "print('Hello World')" None None))).
  - discriminate.
  - simpl. tauto.
Defined.

Lemma lower_app (a b : string) : lower (a ++ b) = lower a ++ lower b.
Proof. induction a as [|c a IH]; simpl; [reflexivity | now rewrite IH]. Qed.

Lemma contains_inside (k m x y : string) :
  contains k m = true -> contains k (x ++ m ++ y) = true.
Proof.
  rewrite !contains_iff. intros (pre & post & ->).
  exists (x ++ pre), (post ++ y). now rewrite !append_assoc.
Qed.

Lemma chat_loop_some (items : list (string * string)) (m r : string) :
  chat_loop items m = Some r -> In r (map snd items).
Proof.
  induction items as [|[k v] items IH]; simpl; [discriminate|].
  destruct (contains k m); [intros [= <-]; now left | intros H; right; now apply IH].
Qed.

Lemma chat_loop_none (items : list (string * string)) (m : string) :
  chat_loop items m = None -> forall k, In k (map fst items) -> contains k m = false.
Proof.
  induction items as [|[k v] items IH]; simpl; [intros _ k []|].
  destruct (contains k m) eqn:E; [discriminate|].
  intros H k' [<- | Hin]; [exact E | now apply IH].
Qed.

Lemma chat_loop_hit (items : list (string * string)) (m k : string) :
  In k (map fst items) -> contains k m = true -> exists r, chat_loop items m = Some r.
Proof.
  intros Hin Hc. destruct (chat_loop items m) as [r|] eqn:E; [now exists r|].
  rewrite (chat_loop_none _ _ E k Hin) in Hc. discriminate.
Qed.

Lemma canned_is_not_default (r : string) :
  In r (map snd responses) -> r <> default_response.
Proof.
  simpl. intros [<-|[<-|[<-|[<-|[<-|[]]]]]]; discriminate.
Qed.

(** X5: the tutor's reply.  The context is handed back as given; the
    reply depends on the message only up to letter case; a message
    that holds hello in any case gets the greeting whatever else it
    holds; and a message that got a canned reply still gets one, not
    the default reply, when text is put before or after it. *)
Theorem chat_reply_properties (message : string) (ctx : option string) :
  context (educational_chat message ctx) = ctx /\
  (forall message',
     lower message' = lower message ->
     educational_chat message' ctx = educational_chat message ctx) /\
  (contains "hello" (lower message) = true ->
   response (educational_chat message ctx)
   = "Hello! I'm your AI coding tutor. How can I help you learn programming patterns today?") /\
  (forall x y,
     response (educational_chat message ctx) <> default_response ->
     response (educational_chat (x ++ message ++ y) ctx) <> default_response).
Proof.
  split; [|split; [|split]].
  - unfold educational_chat. now destruct (chat_loop responses (lower message)).
  - intros m' H. unfold educational_chat. now rewrite H.
  - intros H. unfold educational_chat. cbn [responses chat_loop]. now rewrite H.
  - intros x y Hnd. unfold educational_chat in *.
    destruct (chat_loop responses (lower message)) as [r|] eqn:E;
      [|cbn [response] in Hnd; congruence].
    assert (Hk : exists k, In k (map fst responses) /\ contains k (lower message) = true).
    { clear Hnd. revert E. generalize responses.
      induction l as [|[k v] l IH]; simpl; [discriminate|].
      destruct (contains k (lower message)) eqn:Ec.
      - intros _. exists k. split; [now left | exact Ec].
      - intros H. destruct (IH H) as (k' & Hin & Hc). exists k'. split; [now right | exact Hc]. }
    destruct Hk as (k & Hin & Hc).
    rewrite !lower_app.
    destruct (chat_loop_hit responses _ k Hin
                (contains_inside k (lower message) (lower x) (lower y) Hc)) as [r' Hr'].
    rewrite Hr'. cbn [response]. apply canned_is_not_default.
    exact (chat_loop_some _ _ _ Hr').
Qed.

Lemma chat_reply_properties_witness :
  response (educational_chat "Say HELLO to the loop" None)
  = "Hello! I'm your AI coding tutor. How can I help you learn programming patterns today?".
Proof.
  exact (proj1 (proj2 (proj2 (chat_reply_properties "Say HELLO to the loop" None)))
           eq_refl).
Defined.

End HandlersSpec.

(** ** Further properties of the lookup by name and of the texts *)
Module CatalogMore.
Import PyStr PyRe Py CodeExecution Main Notions StrFacts CatalogSpec.

Lemma catalog_lowered_names_NoDup :
  NoDup (map (fun p => lower (name p)) get_sample_patterns).
Proof.
  simpl. repeat (constructor; [simpl; intuition discriminate|]). constructor.
Qed.

Lemma find_exact_own_name (patterns : list Pattern) (P : Pattern) (n : string) :
  NoDup (map (fun p => lower (name p)) patterns) -> In P patterns ->
  lower n = lower (name P) -> find (exact n) patterns = Some P.
Proof.
  intros Hnd HP Hn. unfold exact. rewrite Hn.
  induction patterns as [|R rest IH]; [destruct HP|]. simpl.
  destruct HP as [-> | HP].
  - now rewrite String.eqb_refl.
  - inversion Hnd as [|x l Hnot Hnd']; subst.
    destruct (String.eqb_spec (lower (name R)) (lower (name P))) as [E|E];
      [|now apply IH].
    exfalso. apply Hnot. rewrite E.
    exact (in_map (fun p => lower (name p)) rest P HP).
Qed.

(** X15: the names of the catalog are pairwise distinct up to letter
    case, so the lookup by name in any letter case returns the very
    record that has the name, and looking its id up returns it again. *)
Theorem lookup_by_own_name_returns_record :
  NoDup (map (fun p => lower (name p)) get_sample_patterns) /\
  (forall P n,
     In P get_sample_patterns -> lower n = lower (name P) ->
     find_pattern_by_name n get_sample_patterns = Some P /\
     get_pattern (id P) = Return P).
Proof.
  split; [exact catalog_lowered_names_NoDup|]. intros P n HP Hn. split.
  - apply find_by_name_exact.
    exact (find_exact_own_name _ P n catalog_lowered_names_NoDup HP Hn).
  - apply get_pattern_loop_round_trip; [exact catalog_ids_NoDup | exact HP].
Qed.

Lemma lookup_by_own_name_returns_record_witness :
  find_pattern_by_name "HOLLOW square" get_sample_patterns = Some hollow_square /\
  get_pattern (id hollow_square) = Return hollow_square.
Proof.
  exact (proj2 lookup_by_own_name_returns_record hollow_square "HOLLOW square"
           hollow_square_in_catalog eq_refl).
Defined.

(** X16: the handler of [/ai/generate-detailed-code] in [main.py] never
    returns a response.  It answers 404 exactly when no catalog name
    contains the requested name up to letter case; for every other
    request the call of [generate_detailed_explanation], a name
    [main.py] does not bind, raises [NameError]. *)
Theorem detailed_code_never_answers (request : DetailedCodeRequest) :
  let n := match req_pattern_name request with Some s => s | None => "" end in
  (exists e, generate_detailed_code request = Raise e) /\
  (generate_detailed_code request
   = Raise (HTTPException 404 ("Pattern '" ++ n ++ "' not found")) <->
   forall P, In P get_sample_patterns -> containing n P = false) /\
  ((exists P, In P get_sample_patterns /\ containing n P = true) ->
   generate_detailed_code request
   = Raise (NameError "name 'generate_detailed_explanation' is not defined")).
Proof.
  intros n. unfold generate_detailed_code. fold n.
  destruct (find_pattern_by_name n get_sample_patterns) as [Q|] eqn:E.
  - cbn [generate_detailed_explanation bind].
    split; [now eexists | split; [split|reflexivity]].
    + discriminate.
    + intros H. apply find_by_name_none in H. congruence.
  - split; [now eexists | split; [split|]].
    + intros _. now apply find_by_name_none.
    + reflexivity.
    + intros (P & HP & Hc). rewrite (proj1 (find_by_name_none _ _) E P HP) in Hc.
      discriminate.
Qed.

Lemma detailed_code_never_answers_witness :
  generate_detailed_code {| req_pattern_name := Some "SQUARE"; req_language := None |}
  = Raise (NameError "name 'generate_detailed_explanation' is not defined").
Proof.
  apply (proj2 (proj2 (detailed_code_never_answers
                         {| req_pattern_name := Some "SQUARE";
                            req_language := None |}))).
  exists solid_square. split; [simpl; tauto | reflexivity].
Defined.

End CatalogMore.

Module TextsSpec.
Import PyStr PyRe Py CodeExecution Main Notions StrFacts.

Lemma contains_in_middle (pre s post : string) : contains s (pre ++ s ++ post) = true.
Proof. apply contains_iff. now exists pre, post. Qed.

Lemma dict_get_missing {V : Type} (d : list (string * V)) (key : string) (default : V) :
  (forall k, In k (map fst d) -> k <> key) -> Explain.dict_get d key default = default.
Proof.
  induction d as [|[k v] d IH]; simpl; [reflexivity|]. intros H.
  destruct (String.eqb_spec k key) as [E|_].
  - destruct (H k (or_introl eq_refl) E).
  - apply IH. intros k' Hin. apply H. now right.
Qed.

(** X6: the explanation of a pattern does not depend on the language:
    the table has texts for python only and every other language falls
    back to them.  A pattern whose name is not one of the four keys of
    the table, letter for letter, gets the default text, which holds
    its difficulty and its formula. *)
Theorem explanation_ignores_language (P : Pattern) :
  (forall l1 l2,
     Explain.generate_detailed_explanation P l1
     = Explain.generate_detailed_explanation P l2) /\
  ((forall k, In k (map fst Explain.python_explanations) -> k <> name P) ->
   forall l,
     Explain.generate_detailed_explanation P l = Explain.default_explanation P /\
     contains (difficulty P) (Explain.generate_detailed_explanation P l) = true /\
     contains (formula P) (Explain.generate_detailed_explanation P l) = true).
Proof.
  assert (Hl : forall l,
    Explain.generate_detailed_explanation P l
    = Explain.dict_get Explain.python_explanations (name P)
        (Explain.default_explanation P)).
  { intros l. unfold Explain.generate_detailed_explanation, Explain.explanations.
    cbn [Explain.dict_get]. rewrite String.eqb_refl.
    now destruct (String.eqb "python" l). }
  split.
  - intros l1 l2. now rewrite !Hl.
  - intros Hk l. rewrite Hl, (dict_get_missing _ _ _ Hk).
    split; [reflexivity | split].
    + unfold Explain.default_explanation. apply (contains_in_middle "This is a ").
    + unfold Explain.default_explanation.
      match goal with
      | |- contains _ (?a ++ ?b ++ ?c ++ ?d ++ ?e ++ ?f ++ ?g ++ ?h ++ ?i ++ ?j ++ ?k
                       ++ ?l ++ ?m ++ ?n ++ formula P ++ ?rest) = true =>
          replace (a ++ b ++ c ++ d ++ e ++ f ++ g ++ h ++ i ++ j ++ k ++ l ++ m ++ n
                   ++ formula P ++ rest)
            with ((a ++ b ++ c ++ d ++ e ++ f ++ g ++ h ++ i ++ j ++ k ++ l ++ m ++ n)
                  ++ formula P ++ rest)
            by (rewrite !append_assoc; reflexivity)
      end.
      apply contains_in_middle.
Qed.

Lemma explanation_ignores_language_witness :
  Explain.generate_detailed_explanation
    {| id := 11; name := "hollow square"; category := "hollow"; difficulty := "medium";
       description := ""; preview := []; rows := 4; popularity := 0;
       completion_rate := 0; formula := "stars = n"; loops := 2; conditions := 4 |}
    "java"
  = "This is a medium level pattern that requires:" ++ nl ++ nl
    ++ "1. **Loops**: 2 nested loops" ++ nl
    ++ "2. **Conditions**: 4 conditional statements" ++ nl
    ++ "3. **Formula**: stars = n" ++ nl ++ nl
    ++ "The pattern creates a visual representation using:" ++ nl
    ++ "- Outer loop for rows" ++ nl
    ++ "- Inner loop for columns" ++ nl
    ++ "- Conditional logic for special cases" ++ nl
    ++ "- Print statements for output".
Proof.
  refine (proj1 (proj2 (explanation_ignores_language _) _ "java")).
  simpl. intros k [<-|[<-|[<-|[<-|[]]]]]; discriminate.
Defined.

(** X17: which pairs of pattern and language have a template.  Only
    the ids 1, 2 and 31 in python and the id 2 in javascript; every
    other pair, whatever the language, gets the stub, marked as a
    comment with a hash for python and with two slashes otherwise,
    which holds the name and the formula of the pattern. *)
Theorem untemplated_pairs_get_the_stub (P : Pattern) (lang : string) :
  (lang <> "python" -> lang <> "javascript" ->
   generate_code_template P lang = todo_template "//" P) /\
  (id P <> 1%Z -> id P <> 2%Z -> id P <> 31%Z ->
   generate_code_template P "python" = todo_template "#" P) /\
  (id P <> 2%Z -> generate_code_template P "javascript" = todo_template "//" P) /\
  (forall mark,
     contains (name P) (todo_template mark P) = true /\
     contains (formula P) (todo_template mark P) = true /\
     contains "TODO: Implement this pattern" (todo_template mark P) = true).
Proof.
  split; [|split; [|split]].
  - intros H1 H2. unfold generate_code_template.
    now rewrite (proj2 (String.eqb_neq _ _) H1), (proj2 (String.eqb_neq _ _) H2).
  - intros H1 H2 H3. unfold generate_code_template. cbn [String.eqb Ascii.eqb Bool.eqb].
    now rewrite (proj2 (Z.eqb_neq _ _) H1), (proj2 (Z.eqb_neq _ _) H2),
      (proj2 (Z.eqb_neq _ _) H3).
  - intros H2. unfold generate_code_template. cbn [String.eqb Ascii.eqb Bool.eqb].
    now rewrite (proj2 (Z.eqb_neq _ _) H2).
  - intros mark. unfold todo_template. repeat split.
    + replace (mark ++ " " ++ name P ++ nl ++ mark ++ " TODO: Implement this pattern"
               ++ nl ++ mark ++ " Formula: " ++ formula P)
        with ((mark ++ " ") ++ name P ++ (nl ++ mark ++ " TODO: Implement this pattern"
               ++ nl ++ mark ++ " Formula: " ++ formula P))
        by (rewrite !append_assoc; reflexivity).
      apply contains_in_middle.
    + replace (mark ++ " " ++ name P ++ nl ++ mark ++ " TODO: Implement this pattern"
               ++ nl ++ mark ++ " Formula: " ++ formula P)
        with ((mark ++ " " ++ name P ++ nl ++ mark ++ " TODO: Implement this pattern"
               ++ nl ++ mark ++ " Formula: ") ++ formula P ++ "")
        by (rewrite !append_assoc, append_nil_r; reflexivity).
      apply contains_in_middle.
    + replace (mark ++ " " ++ name P ++ nl ++ mark ++ " TODO: Implement this pattern"
               ++ nl ++ mark ++ " Formula: " ++ formula P)
        with ((mark ++ " " ++ name P ++ nl ++ mark ++ " ")
              ++ "TODO: Implement this pattern"
              ++ (nl ++ mark ++ " Formula: " ++ formula P))
        by (rewrite !append_assoc; reflexivity).
      apply contains_in_middle.
Qed.

Lemma untemplated_pairs_get_the_stub_witness :
  generate_code_template hollow_square "rust"
  = "// Hollow Square" ++ nl ++ "// TODO: Implement this pattern" ++ nl
    ++ "// Formula: stars = n (if first/last row/col), spaces = n-2 (middle)".
Proof.
  refine (proj1 (untemplated_pairs_get_the_stub hollow_square "rust") _ _);
    discriminate.
Defined.

(** X18: the simulators run on the templates of the catalog.  For no
    record does the Python simulator, given the Python template of the
    record, or the JavaScript simulator, given its JavaScript template,
    put out the preview of the record; for the solid square the Python
    output is the preview after a line with one star, and the template
    of the right triangle gives that same square. *)
Theorem simulated_templates_miss_the_preview :
  (forall P, In P get_sample_patterns ->
     simulate_python_execution (generate_code_template P "python")
     <> unlines (preview P) /\
     simulate_javascript_execution (generate_code_template P "javascript")
     <> unlines (preview P)) /\
  simulate_python_execution (generate_code_template solid_square "python")
  = "*" ++ nl ++ unlines (preview solid_square) /\
  (forall P, In P get_sample_patterns -> id P = 2%Z ->
     simulate_python_execution (generate_code_template P "python")
     = simulate_python_execution (generate_code_template solid_square "python")).
Proof.
  split; [|split; [reflexivity|]].
  - intros P HP. simpl in HP.
    repeat (destruct HP as [<- | HP];
            [split; intros H; vm_compute in H; discriminate|]).
    destruct HP.
  - intros P HP. simpl in HP.
    repeat (destruct HP as [<- | HP];
            [intros Hid; first [discriminate Hid | reflexivity]|]).
    destruct HP.
Qed.

Lemma simulated_templates_miss_the_preview_witness :
  simulate_python_execution (generate_code_template hollow_square "python")
  <> unlines (preview hollow_square).
Proof.
  exact (proj1 (proj1 simulated_templates_miss_the_preview hollow_square
                  CatalogSpec.hollow_square_in_catalog)).
Defined.

End TextsSpec.

Module FeedbackTexts.
Import PyStr PyRe Py Main Notions StrFacts ReFacts ScorerSpec.

(** X20: the feedback text and the score of a non-empty submission
    agree: the text praises the loops, the output and the nesting
    exactly when the score has the weight of that check.  The
    suggestions do not: they ask for print statements whenever the
    text has no print, also for a submission that prints with
    console.log and is praised for its output. *)
Theorem feedback_text_agrees_with_score (code : string) (P : Pattern) :
  code <> "" ->
  contains "Good! You're using loops." (generate_code_feedback code (Some P))
  = uses_loop code /\
  contains "Great! You're printing output." (generate_code_feedback code (Some P))
  = produces_output code /\
  contains "Excellent! You're using nested loops correctly."
    (generate_code_feedback code (Some P))
  = uses_nested_loops code P /\
  (contains "print" code = false -> contains "console.log" code = true ->
   produces_output code = true /\
   In "Add print statements to display the pattern"
      (generate_code_suggestions code (Some P))).
Proof.
  intros Hne. unfold generate_code_feedback, generate_code_suggestions,
    uses_loop, produces_output, uses_nested_loops.
  rewrite (eqb_empty_false _ Hne).
  split; [|split; [|split]].
  - destruct (contains "for" code);
      destruct (contains "print" code || contains "console.log" code
                || contains "System.out.print" code);
      destruct (1 <? loops P)%Z; destruct (2 <=? count code "for")%nat; reflexivity.
  - destruct (contains "for" code);
      destruct (contains "print" code || contains "console.log" code
                || contains "System.out.print" code);
      destruct (1 <? loops P)%Z; destruct (2 <=? count code "for")%nat; reflexivity.
  - destruct (contains "for" code);
      destruct (contains "print" code || contains "console.log" code
                || contains "System.out.print" code);
      destruct (1 <? loops P)%Z; destruct (2 <=? count code "for")%nat; reflexivity.
  - intros Hp Hc. rewrite Hp, Hc. split; [reflexivity|]. cbn [negb].
    unfold append. apply in_or_app. right. now left.
Qed.

Lemma feedback_text_agrees_with_score_witness :
  produces_output "for (;;) console.log(1)" = true /\
  In "Add print statements to display the pattern"
     (generate_code_suggestions "for (;;) console.log(1)" (Some solid_square)).
Proof.
  refine (proj2 (proj2 (proj2
            (feedback_text_agrees_with_score "for (;;) console.log(1)" solid_square _)))
            eq_refl eq_refl).
  discriminate.
Defined.

End FeedbackTexts.

Module SizeSearch.
Import PyStr PyRe CodeExecution ReFacts.

(** X19: what the search for the size returns.  A result is the longest
    run of decimal digits at the leftmost place of the text where the
    letter n, whitespace if any, the equals sign, whitespace if any and
    a digit follow one another, also when that n ends a longer name,
    whitespace and digits being those of Unicode; there is no result
    exactly when the text has no such place. *)
Theorem size_search_is_leftmost (code : string) :
  (forall ds,
     search_assign code = Some ds ->
     exists pre tail,
       code = pre ++ tail /\ assignment_at tail ds /\
       forall pre' tail' ds',
         code = pre' ++ tail' -> String.length pre' < String.length pre ->
         ~ assignment_at tail' ds') /\
  (search_assign code = None <->
   forall pre tail ds, code = pre ++ tail -> ~ assignment_at tail ds).
Proof.
  split; [intros ds; apply search_assign_leftmost | apply search_assign_none].
Qed.

Lemma size_search_is_leftmost_witness :
  exists pre tail,
    "min" ++ no_break_space ++ "= " ++ arabic_three ++ "2; n = 4" = pre ++ tail /\
    assignment_at tail (arabic_three ++ "2") /\
    forall pre' tail' ds',
      "min" ++ no_break_space ++ "= " ++ arabic_three ++ "2; n = 4" = pre' ++ tail' ->
      String.length pre' < String.length pre ->
      ~ assignment_at tail' ds'.
Proof.
  exact (proj1 (size_search_is_leftmost
                  ("min" ++ no_break_space ++ "= " ++ arabic_three ++ "2; n = 4"))
           (arabic_three ++ "2") eq_refl).
Defined.

End SizeSearch.
